(** * Debug views (variables, watch expressions, call stack, breakpoints)

    A shallow embedding of
    [src/vs/workbench/parts/debug/electron-browser/debugViews.ts].

    Conventions of the embedding.
    - JavaScript objects that the views compare with [===] or hand to the
      tree widget are represented by their identity (a [Ref]); the data a
      handler reads from them travels in records next to that identity.
    - A [TPromise] chain is run to completion as soon as it is created: the
      embedding is sequential, a rejection is the [inl] of a sum, and
      [.then] is the bind of the error monad.
    - Host code that is not part of this file (the tree widget, the timer
      queue, URIs, [localeCompare]) is an interface: a type class or a
      section variable. *)

From stdpp Require Import gmap strings list.
From Stdlib Require Import ZArith Lia Ascii.

Open Scope Z_scope.

(** ** The debug model as the views read it *)

Module DebugModel.

(** Object identity of a model object (what [===] compares). *)
Definition Ref := nat.

(** A rejection value of a promise. *)
Definition Err := string.

Record StoppedDetails := {
  reason : string;
  description : string;  (* the empty string stands for a missing one *)
  text : string
}.

Record Thread := {
  threadRef : Ref;
  process : Ref;                       (* [thread.process] *)
  stoppedDetails : option StoppedDetails
}.

Record Process := {
  processRef : Ref;
  getAllThreads : list Thread
}.

Record Scope := {
  scopeRef : Ref;
  expensive : bool
}.

Record StackFrame := {
  frameRef : Ref;
  getScopes : Err + list Scope         (* outcome of [stackFrame.getScopes()] *)
}.

(** [IExpression] values, told apart with [instanceof]. *)
Inductive IExpression :=
| Expression (r : Ref)
| Variable_ (r : Ref)   (* the class [Variable] *)
| OtherExpression (r : Ref).

(** Host URIs: only their string form and [resources.basenameOrAuthority]
    are observed by this file. *)
Record URI := {
  scheme : string;
  authority : string;
  path : string
}.

(** [IBreakpoint] values, told apart with [instanceof]. *)
Inductive IBreakpoint :=
| ExceptionBreakpoint (filter : string)
| FunctionBreakpoint (r : Ref) (name : string)
| Breakpoint (uri : URI) (lineNumber column : Z).

(** What [debugService.getModel()] answers. *)
Record Model := {
  getProcesses : list Process;
  getBreakpoints : list IBreakpoint;
  getExceptionBreakpoints : list IBreakpoint;
  getFunctionBreakpoints : list IBreakpoint
}.

(** What [debugService.getViewModel()] answers. *)
Record ViewModel := {
  focusedStackFrame : option StackFrame;
  focusedThread : option Thread;
  focusedProcess : option Process;
  isMultiProcessView : bool
}.

Inductive State := Inactive | Initializing | Stopped | Running.

Record IDebugService := {
  getModel : Model;
  getViewModel : ViewModel;
  state : State
}.

(** Everything a tree can hold ([any] in the source), by identity. *)
Inductive Element :=
| ElModel
| ElViewModel
| ElProcess (r : Ref)
| ElThread (r : Ref)
| ElStackFrame (r : Ref)
| ElScope (r : Ref)
| ElExpression (r : Ref)
| ElVariable (r : Ref)
| ElFunctionBreakpoint (r : Ref)
| ElOther (r : Ref).

#[global] Instance Element_eq_dec : EqDecision Element.
Proof. solve_decision. Defined.

Definition elementOfExpression (e : IExpression) : Element :=
  match e with
  | Expression r => ElExpression r
  | Variable_ r => ElVariable r
  | OtherExpression r => ElOther r
  end.

End DebugModel.
Import DebugModel.

(** ** The sorter of the breakpoints tree (lines 421-447) *)

Module BreakpointsSorter.
Section Sorter.
(** [uri.toString()], [resources.basenameOrAuthority(uri)] and
    [String.prototype.localeCompare] belong to the host. *)
Variable toString : URI -> string.
Variable basenameOrAuthority : URI -> string.
Variable localeCompare : string -> string -> Z.

Definition compare (element otherElement : IBreakpoint) : Z :=
  match element, otherElement with
  | ExceptionBreakpoint _, _ => -1
  | _, ExceptionBreakpoint _ => 1
  | FunctionBreakpoint _ _, _ => -1
  | _, FunctionBreakpoint _ _ => 1
  | Breakpoint uri1 line1 col1, Breakpoint uri2 line2 col2 =>
      if negb (String.eqb (toString uri1) (toString uri2)) then
        localeCompare (basenameOrAuthority uri1) (basenameOrAuthority uri2)
      else if line1 =? line2 then col1 - col2
      else line1 - line2
  end.

(** The order as the specification words it: the three kinds in turn,
    and source breakpoints by file name, then line, then column. *)
Definition kindRank (b : IBreakpoint) : Z :=
  match b with
  | ExceptionBreakpoint _ => 0
  | FunctionBreakpoint _ _ => 1
  | Breakpoint _ _ _ => 2
  end.

Definition statedOrder (a b : IBreakpoint) : Z :=
  match a, b with
  | Breakpoint uri1 line1 col1, Breakpoint uri2 line2 col2 =>
      let byName :=
        localeCompare (basenameOrAuthority uri1) (basenameOrAuthority uri2) in
      if negb (byName =? 0) then byName
      else if negb (line1 =? line2) then line1 - line2
      else col1 - col2
  | _, _ => kindRank a - kindRank b
  end.
End Sorter.
End BreakpointsSorter.

(** A plain host for concrete runs. *)
Module PlainHost.

(** Modelled from the spec: [URI.toString] (vs/base/common/uri) is not
    part of this file; the specification only needs two URIs of different
    files to print differently. *)
Definition toString (u : URI) : string :=
  scheme u +:+ "://" +:+ authority u +:+ path u.

Fixpoint lastSegment (acc s : string) : string :=
  match s with
  | EmptyString => acc
  | String c rest =>
      if Ascii.eqb c "/"%char then lastSegment EmptyString rest
      else lastSegment (acc +:+ String c EmptyString) rest
  end.

(** Modelled from the spec: [resources.basenameOrAuthority]
    (vs/base/common/resources) is not part of this file; the
    specification calls it "basename/authority": the last segment of the
    path, or the authority when that segment is empty. *)
Definition basenameOrAuthority (u : URI) : string :=
  let base := lastSegment EmptyString (path u) in
  if String.eqb base EmptyString then authority u else base.

(** One admissible [localeCompare]: the ordinal comparison of the code
    units. *)
Definition localeCompare (a b : string) : Z :=
  match String.compare a b with
  | Lt => -1
  | Eq => 0
  | Gt => 1
  end.

Definition compare : IBreakpoint -> IBreakpoint -> Z :=
  BreakpointsSorter.compare toString basenameOrAuthority localeCompare.

Definition statedOrder : IBreakpoint -> IBreakpoint -> Z :=
  BreakpointsSorter.statedOrder basenameOrAuthority localeCompare.

End PlainHost.

(** ** The host: error sink, timers, promises and the tree widget *)

Module Errors.

(** What [errors.onUnexpectedError] has been handed so far. *)
Definition Sink := list Err.

Definition onUnexpectedError (e : Err) (k : Sink) : Sink := k ++ [e].

(** Modelled from the spec: what the promise library (vs/base/common/winjs.base,
    not part of this file) does with the rejection of a promise that no
    handler of this file observes. Section 7 of the specification: "All
    asynchronous tree operations route failures to a single
    unexpected-error reporting sink". *)
Definition unhandledRejection (e : Err) (k : Sink) : Sink := onUnexpectedError e k.

End Errors.

(** The four panels of the file. *)
Inductive ViewId := Variables | WatchExpressions | CallStack | Breakpoints.

#[global] Instance ViewId_eq_dec : EqDecision ViewId.
Proof. solve_decision. Defined.

(** The timers of the JavaScript host ([setTimeout], [clearTimeout]) and
    the passing of time. *)
Module EventLoop.

(** A pending [setTimeout]: its token, the scheduler whose
    [timeoutHandler] it will call, and the milliseconds left. *)
Record Timer := {
  timerId : nat;
  callback : ViewId;
  remaining : nat
}.

Record t := {
  timers : list Timer;
  nextTimerId : nat
}.

Definition empty : t := {| timers := []; nextTimerId := 0 |}.

Definition setTimeout (handler : ViewId) (delay : nat) (l : t) : nat * t :=
  (nextTimerId l,
   {| timers := timers l ++ [ {| timerId := nextTimerId l; callback := handler; remaining := delay |} ];
      nextTimerId := S (nextTimerId l) |}).

Definition clearTimeout (token : nat) (l : t) : t :=
  {| timers := filter (fun x => timerId x ≠ token) (timers l);
     nextTimerId := nextTimerId l |}.

Definition isDue (dt : nat) (x : Timer) : Prop := (remaining x <= dt)%nat.

#[global] Instance isDue_dec dt x : Decision (isDue dt x).
Proof. unfold isDue. apply _. Defined.

Definition tick (dt : nat) (x : Timer) : Timer :=
  {| timerId := timerId x; callback := callback x; remaining := (remaining x - dt)%nat |}.

(** Timers that come due in the same span run by deadline, and in the
    order of their creation when the deadlines agree. *)
Fixpoint insertByDeadline (x : Timer) (l : list Timer) : list Timer :=
  match l with
  | [] => [x]
  | y :: l' =>
      if (remaining x <=? remaining y)%nat then x :: y :: l'
      else y :: insertByDeadline x l'
  end.

Definition byDeadline (l : list Timer) : list Timer :=
  foldr insertByDeadline [] l.

(** [dt] milliseconds go by: the timers to run, and the queue left. *)
Definition elapse (dt : nat) (l : t) : list Timer * t :=
  (byDeadline (filter (isDue dt) (timers l)),
   {| timers := tick dt <$> filter (fun x => ¬ isDue dt x) (timers l);
      nextTimerId := nextTimerId l |}).

End EventLoop.

(** Modelled from the spec: [RunOnceScheduler] (vs/base/common/async) is
    not part of this file. The glossary of the specification defines the
    debounce scheduler as what "delays an action until a quiet period
    elapses, collapsing bursts of triggers into one execution", and section
    5 as single-shot with one pending timer: [schedule] cancels the pending
    timer, if any, and starts a new one. The views agree with this reading:
    the watch and call-stack handlers test [isScheduled()] before they call
    [schedule()], and the variables handler, which does not, is commented
    "postpone the refresh until user stops stepping". The sentence of
    section 4.1 on scheduling while pending is what C2 examines, and is not
    built into the model. *)
Module RunOnceScheduler.

Record t := {
  timeoutHandler : ViewId;
  timeout : nat;                 (* the default delay, in ms *)
  timeoutToken : option nat
}.

Definition create (handler : ViewId) (delay : nat) : t :=
  {| timeoutHandler := handler; timeout := delay; timeoutToken := None |}.

(** Modelled from the spec: [isScheduled()], whether a timer is pending. *)
Definition isScheduled (s : t) : bool :=
  match timeoutToken s with Some _ => true | None => false end.

(** Modelled from the spec: [cancel()] clears the pending timer, if any. *)
Definition cancel (s : t) (l : EventLoop.t) : t * EventLoop.t :=
  match timeoutToken s with
  | Some token =>
      ({| timeoutHandler := timeoutHandler s; timeout := timeout s; timeoutToken := None |},
       EventLoop.clearTimeout token l)
  | None => (s, l)
  end.

(** Modelled from the spec: [schedule(delay = this.timeout)] cancels the
    pending timer and starts one of [delay] ms. *)
Definition schedule (delay : option nat) (s : t) (l : EventLoop.t) : t * EventLoop.t :=
  let '(s1, l1) := cancel s l in
  let '(token, l2) := EventLoop.setTimeout (timeoutHandler s1) (default (timeout s1) delay) l1 in
  ({| timeoutHandler := timeoutHandler s1; timeout := timeout s1; timeoutToken := Some token |}, l2).

(** Modelled from the spec: the timer fired; the scheduler is idle again
    before the runner runs ("single-shot"). *)
Definition onTimeout (s : t) : t :=
  {| timeoutHandler := timeoutHandler s; timeout := timeout s; timeoutToken := None |}.

End RunOnceScheduler.

(** The calls the views make on their tree (and on a stack frame), in the
    order they make them, each with the rejection it ended in, if any. *)
Inductive Call :=
| CSetInput (e : Element)
| CRefresh (e : option Element)    (* [refresh()] or [refresh(e, false)] *)
| CExpand (e : Element)
| CExpandAll (es : list Element)
| CReveal (e : Element)
| CClearHighlight
| CSetHighlight (e : Element)
| CSetSelection (es : list Element)
| CClearSelection
| CGetScopes (frame : Ref)
| COnceDidChangeHighlight.         (* [once(tree.onDidChangeHighlight)(...)] *)

Definition Entry : Type := Call * option Err.

(** The tree widget (vs/base/parts/tree) as far as the views drive it. An
    asynchronous operation answers with the rejection, if any, and the
    tree it leaves. *)
Class ITree (Tree : Type) := {
  newTree : Tree;
  getInput : Tree -> option Element;
  getExpandedElements : Tree -> list Element;
  getContentHeight : Tree -> nat;
  setInput : Element -> Tree -> option Err * Tree;
  refresh : option Element -> Tree -> option Err * Tree;
  expand : Element -> Tree -> option Err * Tree;
  expandAll : list Element -> Tree -> option Err * Tree;
  reveal : Element -> Tree -> option Err * Tree;
  clearHighlight : Tree -> Tree;
  setHighlight : Element -> Tree -> Tree;
  setSelection : list Element -> Tree -> Tree;
  clearSelection : Tree -> Tree
}.

Module Promise.
Section Promise.
Context {Tree : Type}.

(** A tree together with the record of the calls made on it. *)
Record Traced := {
  tree : Tree;
  calls : list Entry
}.

(** A promise chain, run on the tree it works on. *)
Definition TPromise (A : Type) : Type := Traced -> (Err + A) * Traced.

(** [TPromise.as(a)] *)
Definition as_ {A} (a : A) : TPromise A := fun s => (inr a, s).

(** [p.then(f)] *)
Definition then_ {A B} (p : TPromise A) (f : A -> TPromise B) : TPromise B :=
  fun s =>
    match p s with
    | (inr a, s') => f a s'
    | (inl e, s') => (inl e, s')
    end.

(** An asynchronous call on the tree. *)
Definition async (c : Call) (op : Tree -> option Err * Tree) : TPromise unit :=
  fun s =>
    let '(r, tr) := op (tree s) in
    (match r with Some e => inl e | None => inr tt end,
     {| tree := tr; calls := calls s ++ [(c, r)] |}).

(** A synchronous call on the tree. *)
Definition sync (c : Call) (op : Tree -> Tree) (s : Traced) : Traced :=
  {| tree := op (tree s); calls := calls s ++ [(c, None)] |}.

(** [stackFrame.getScopes()] *)
Definition requestScopes (frame : StackFrame) : TPromise (list Scope) :=
  fun s =>
    (getScopes frame,
     {| tree := tree s;
        calls := calls s ++ [(CGetScopes (frameRef frame),
                              match getScopes frame with inl e => Some e | inr _ => None end)] |}).

(** Modelled from the spec: [sequence] (vs/base/common/async) is not part
    of this file. Section 4.1 has the refresh restore the previously
    expanded nodes: the factories run one after the other, and the first
    rejection ends the run. *)
Fixpoint sequence (factories : list (TPromise unit)) : TPromise unit :=
  match factories with
  | [] => as_ tt
  | p :: rest => then_ p (fun _ => sequence rest)
  end.

(** [p.done(null, errors.onUnexpectedError)] *)
Definition done_ {A} (p : TPromise A) (s : Traced) (k : Errors.Sink) : Traced * Errors.Sink :=
  match p s with
  | (inr _, s') => (s', k)
  | (inl e, s') => (s', Errors.onUnexpectedError e k)
  end.

(** [p.done(onComplete, errors.onUnexpectedError)], with an [onComplete]
    that answers a promise of its own: the error handler sees the
    rejection of [p] only. *)
Definition doneWith {A B} (p : TPromise A) (onComplete : A -> TPromise B)
    (s : Traced) (k : Errors.Sink) : Traced * Errors.Sink :=
  match p s with
  | (inl e, s') => (s', Errors.onUnexpectedError e k)
  | (inr a, s') =>
      match onComplete a s' with
      | (inr _, s'') => (s'', k)
      | (inl e, s'') => (s'', Errors.unhandledRejection e k)
      end
  end.

(** A promise nobody keeps: [tree.refresh();] as a statement. *)
Definition dropped {A} (p : TPromise A) (s : Traced) (k : Errors.Sink) : Traced * Errors.Sink :=
  match p s with
  | (inr _, s') => (s', k)
  | (inl e, s') => (s', Errors.unhandledRejection e k)
  end.
End Promise.
Arguments Traced : clear implicits.
End Promise.
Import Promise.

(** The base class [ViewsViewletPanel] (vs/workbench/browser/parts/views)
    as far as the views use it. *)
Class IViewletPanel (Panel : Type) := {
  isExpanded : Panel -> bool;
  setExpanded : bool -> Panel -> Panel;
  superShutdown : Panel -> Panel
}.

(** Values of the [any]-typed viewlet settings object. *)
Inductive JSValue :=
| JSBoolean (b : bool)
| JSNumber (n : Z)
| JSString (s : string).

(** ** VariablesView (lines 43-152) *)

Module VariablesView.
Section View.
Context {Tree : Type} `{!ITree Tree} {Panel : Type} `{!IViewletPanel Panel}.

Definition MEMENTO : string := "variablesview.memento".

Record t := {
  panel : Panel;
  widget : Traced Tree;                               (* [this.tree] *)
  onFocusStackFrameScheduler : RunOnceScheduler.t;
  expandedElements : list Element
}.

(** The argument of [viewModel.onDidFocusStackFrame]. *)
Record FocusEvent := {
  stackFrame : option StackFrame;
  explicit : bool
}.

(** The runner handed to [new RunOnceScheduler(..., 400)] (lines 67-91). *)
Definition onFocusStackFrame (ds : IDebugService) (v : t) (k : Errors.Sink) : t * Errors.Sink :=
  let expanded := getExpandedElements (tree (widget v)) in
  let remembered :=
    if (0 <? length expanded)%nat then expanded else expandedElements v in
  let cleared := sync CClearHighlight clearHighlight (widget v) in
  let chain :=
    then_ (async (CRefresh None) (refresh None)) (fun _ =>
      let stackFrame := focusedStackFrame (getViewModel ds) in
      then_ (sequence ((fun e => async (CExpand e) (expand e)) <$> remembered)) (fun _ =>
        fun s =>
          match stackFrame with
          | Some frame =>
              if (length (getExpandedElements (tree s)) =? 0)%nat then
                then_ (requestScopes frame) (fun scopes =>
                  match scopes with
                  | first :: _ =>
                      if negb (expensive first) then
                        async (CExpand (ElScope (scopeRef first)))
                              (expand (ElScope (scopeRef first)))
                      else as_ tt
                  | [] => as_ tt
                  end) s
              else as_ tt s
          | None => as_ tt s
          end)) in
  let '(s', k') := done_ chain cleared k in
  ({| panel := panel v; widget := s';
      onFocusStackFrameScheduler := onFocusStackFrameScheduler v;
      expandedElements := remembered |}, k').

(** The constructor followed by [renderBody] (lines 51-146). *)
Definition create (p : Panel) (k : Errors.Sink) : t * Errors.Sink :=
  let '(s, k') :=
    dropped (async (CSetInput ElViewModel) (setInput ElViewModel))
            {| tree := newTree; calls := [] |} k in
  ({| panel := p; widget := s;
      onFocusStackFrameScheduler := RunOnceScheduler.create Variables 400;
      expandedElements := [] |}, k').

(** Lines 119-127. *)
Definition onDidFocusStackFrame (sf : FocusEvent) (v : t) (l : EventLoop.t) : t * EventLoop.t :=
  let '(sch, l') :=
    if (getContentHeight (tree (widget v)) =? 0)%nat || explicit sf then
      RunOnceScheduler.schedule (Some 0%nat) (onFocusStackFrameScheduler v) l
    else
      RunOnceScheduler.schedule None (onFocusStackFrameScheduler v) l in
  ({| panel := panel v; widget := widget v;
      onFocusStackFrameScheduler := sch;
      expandedElements := expandedElements v |}, l').

(** Lines 132-145. *)
Definition onDidSelectExpression (expression : option IExpression) (v : t) (k : Errors.Sink)
    : t * Errors.Sink :=
  match expression with
  | Some (Variable_ r) =>
      let chain :=
        then_ (async (CRefresh (Some (ElVariable r))) (refresh (Some (ElVariable r)))) (fun _ s =>
          (inr tt, sync COnceDidChangeHighlight id
                     (sync (CSetHighlight (ElVariable r)) (setHighlight (ElVariable r)) s))) in
      let '(s', k') := done_ chain (widget v) k in
      ({| panel := panel v; widget := s';
          onFocusStackFrameScheduler := onFocusStackFrameScheduler v;
          expandedElements := expandedElements v |}, k')
  | _ => (v, k)
  end.

(** The scheduler's timer fired. *)
Definition onTimeout (ds : IDebugService) (v : t) (k : Errors.Sink) : t * Errors.Sink :=
  onFocusStackFrame ds
    {| panel := panel v; widget := widget v;
       onFocusStackFrameScheduler := RunOnceScheduler.onTimeout (onFocusStackFrameScheduler v);
       expandedElements := expandedElements v |} k.

(** Lines 148-151. *)
Definition shutdown (v : t) (settings : gmap string JSValue) : t * gmap string JSValue :=
  let settings' := <[MEMENTO := JSBoolean (negb (isExpanded (panel v)))]> settings in
  ({| panel := superShutdown (panel v); widget := widget v;
      onFocusStackFrameScheduler := onFocusStackFrameScheduler v;
      expandedElements := expandedElements v |}, settings').
End View.
Arguments t : clear implicits.
End VariablesView.

(** ** WatchExpressionsView (lines 154-244) *)

Module WatchExpressionsView.
Section View.
Context {Tree : Type} `{!ITree Tree} {Panel : Type} `{!IViewletPanel Panel}.

Definition MEMENTO : string := "watchexpressionsview.memento".

Record t := {
  panel : Panel;
  widget : Traced Tree;
  onWatchExpressionsUpdatedScheduler : RunOnceScheduler.t;
  toReveal : option IExpression
}.

(** The runner handed to [new RunOnceScheduler(..., 50)] (lines 183-187). *)
Definition onWatchExpressionsUpdated (v : t) (k : Errors.Sink) : t * Errors.Sink :=
  let '(s', k') :=
    doneWith (async (CRefresh None) (refresh None)) (fun _ =>
      match toReveal v with
      | Some (Expression r) => async (CReveal (ElExpression r)) (reveal (ElExpression r))
      | _ => as_ tt
      end) (widget v) k in
  ({| panel := panel v; widget := s';
      onWatchExpressionsUpdatedScheduler := onWatchExpressionsUpdatedScheduler v;
      toReveal := toReveal v |}, k').

(** The constructor followed by [renderBody]. *)
Definition create (p : Panel) (k : Errors.Sink) : t * Errors.Sink :=
  let '(s, k') :=
    dropped (async (CSetInput ElModel) (setInput ElModel))
            {| tree := newTree; calls := [] |} k in
  ({| panel := p; widget := s;
      onWatchExpressionsUpdatedScheduler := RunOnceScheduler.create WatchExpressions 50;
      toReveal := None |}, k').

(** The listener of the constructor (lines 175-180), then the one of
    [renderBody] (lines 217-222). *)
Definition onDidChangeWatchExpressions (we : option IExpression) (v : t) (l : EventLoop.t)
    : t * EventLoop.t :=
  let p :=
    match we with
    | Some (Expression _) => setExpanded true (panel v)
    | _ => panel v
    end in
  let '(sch, l') :=
    if negb (RunOnceScheduler.isScheduled (onWatchExpressionsUpdatedScheduler v)) then
      RunOnceScheduler.schedule None (onWatchExpressionsUpdatedScheduler v) l
    else (onWatchExpressionsUpdatedScheduler v, l) in
  ({| panel := p; widget := widget v;
      onWatchExpressionsUpdatedScheduler := sch;
      toReveal := we |}, l').

(** Lines 224-237. *)
Definition onDidSelectExpression (expression : option IExpression) (v : t) (k : Errors.Sink)
    : t * Errors.Sink :=
  match expression with
  | Some (Expression r) =>
      let chain :=
        then_ (async (CRefresh (Some (ElExpression r))) (refresh (Some (ElExpression r)))) (fun _ s =>
          (inr tt, sync COnceDidChangeHighlight id
                     (sync (CSetHighlight (ElExpression r)) (setHighlight (ElExpression r)) s))) in
      let '(s', k') := done_ chain (widget v) k in
      ({| panel := panel v; widget := s';
          onWatchExpressionsUpdatedScheduler := onWatchExpressionsUpdatedScheduler v;
          toReveal := toReveal v |}, k')
  | _ => (v, k)
  end.

Definition onTimeout (v : t) (k : Errors.Sink) : t * Errors.Sink :=
  onWatchExpressionsUpdated
    {| panel := panel v; widget := widget v;
       onWatchExpressionsUpdatedScheduler :=
         RunOnceScheduler.onTimeout (onWatchExpressionsUpdatedScheduler v);
       toReveal := toReveal v |} k.

(** Lines 240-243. *)
Definition shutdown (v : t) (settings : gmap string JSValue) : t * gmap string JSValue :=
  let settings' := <[MEMENTO := JSBoolean (negb (isExpanded (panel v)))]> settings in
  ({| panel := superShutdown (panel v); widget := widget v;
      onWatchExpressionsUpdatedScheduler := onWatchExpressionsUpdatedScheduler v;
      toReveal := toReveal v |}, settings').
End View.
Arguments t : clear implicits.
End WatchExpressionsView.

(** ** CallStackView (lines 246-380) *)

Module CallStackView.
Section View.
Context {Tree : Type} `{!ITree Tree} {Panel : Type} `{!IViewletPanel Panel}.

Definition MEMENTO : string := "callstackview.memento".

(** The [span.pause-message] of the header and its label. *)
Record PauseMessage := {
  shown : bool;
  labelText : string;
  labelTitle : string;
  labelIsException : bool
}.

Record t := {
  panel : Panel;
  widget : Traced Tree;
  onCallStackChangeScheduler : RunOnceScheduler.t;
  pauseMessage : PauseMessage
}.

(** The values [newTreeInput] takes. *)
Inductive TreeInput :=
| InputModel
| InputProcess (p : Process)
| InputThread (th : Thread).

Definition elementOfInput (i : TreeInput) : Element :=
  match i with
  | InputModel => ElModel
  | InputProcess p => ElProcess (processRef p)
  | InputThread th => ElThread (threadRef th)
  end.

(** Lines 268-274. *)
Definition newTreeInput (ds : IDebugService) : TreeInput :=
  let processes := getProcesses (getModel ds) in
  if negb (isMultiProcessView (getViewModel ds)) && negb (length processes =? 0)%nat then
    match processes !! 0%nat with
    | Some first =>
        let threads := getAllThreads first in
        if (length threads =? 1)%nat then
          match threads !! 0%nat with
          | Some th => InputThread th
          | None => InputProcess first
          end
        else InputProcess first
    | None => InputModel
    end
  else InputModel.

(** Lines 276-287. *)
Definition updatePauseMessage (input : TreeInput) (m : PauseMessage) : PauseMessage :=
  match input with
  | InputThread th =>
      match stoppedDetails th with
      | Some details =>
          {| shown := true;
             labelText :=
               if String.eqb (description details) "" then "Paused on " +:+ reason details
               else description details;
             labelTitle :=
               if String.eqb (text details) "" then labelTitle m else text details;
             labelIsException := String.eqb (reason details) "exception" |}
      | None =>
          {| shown := false; labelText := labelText m; labelTitle := labelTitle m;
             labelIsException := labelIsException m |}
      end
  | _ =>
      {| shown := false; labelText := labelText m; labelTitle := labelTitle m;
         labelIsException := labelIsException m |}
  end.

(** Lines 347-374. *)
Definition updateTreeSelection (ds : IDebugService) : TPromise (Tree := Tree) unit :=
  fun s =>
    match getInput (tree s) with
    | None => as_ tt s
    | Some _ =>
        let stackFrame := focusedStackFrame (getViewModel ds) in
        let thread := focusedThread (getViewModel ds) in
        let process := focusedProcess (getViewModel ds) in
        match thread with
        | None =>
            match process with
            | None => as_ tt (sync CClearSelection clearSelection s)
            | Some p =>
                async (CReveal (ElProcess (processRef p))) (reveal (ElProcess (processRef p)))
                  (sync (CSetSelection [ElProcess (processRef p)])
                        (setSelection [ElProcess (processRef p)]) s)
            end
        | Some th =>
            then_ (async (CExpandAll [ElProcess (DebugModel.process th); ElThread (threadRef th)])
                         (expandAll [ElProcess (DebugModel.process th); ElThread (threadRef th)]))
              (fun _ s' =>
                 match stackFrame with
                 | None => as_ tt s'
                 | Some frame =>
                     async (CReveal (ElStackFrame (frameRef frame)))
                           (reveal (ElStackFrame (frameRef frame)))
                       (sync (CSetSelection [ElStackFrame (frameRef frame)])
                             (setSelection [ElStackFrame (frameRef frame)]) s')
                 end) s
        end
    end.

(** The runner handed to [new RunOnceScheduler(..., 50)] (lines 267-291). *)
Definition onCallStackChange (ds : IDebugService) (v : t) (k : Errors.Sink) : t * Errors.Sink :=
  let input := newTreeInput ds in
  let message := updatePauseMessage input (pauseMessage v) in
  let update : TPromise unit :=
    fun s =>
      if decide (getInput (tree s) = Some (elementOfInput input)) then
        async (CRefresh None) (refresh None) s
      else
        async (CSetInput (elementOfInput input)) (setInput (elementOfInput input)) s in
  let '(s', k') := doneWith update (fun _ => updateTreeSelection ds) (widget v) k in
  ({| panel := panel v; widget := s';
      onCallStackChangeScheduler := onCallStackChangeScheduler v;
      pauseMessage := message |}, k').

(** The constructor, [renderHeaderTitle] and [renderBody]. *)
Definition create (ds : IDebugService) (p : Panel) (l : EventLoop.t) : t * EventLoop.t :=
  let sch := RunOnceScheduler.create CallStack 50 in
  let '(sch', l') :=
    match state ds with
    | Stopped => RunOnceScheduler.schedule None sch l
    | _ => (sch, l)
    end in
  ({| panel := p; widget := {| tree := newTree; calls := [] |};
      onCallStackChangeScheduler := sch';
      pauseMessage := {| shown := false; labelText := ""; labelTitle := "";
                         labelIsException := false |} |}, l').

(** Lines 333-337. *)
Definition onDidChangeCallStack (v : t) (l : EventLoop.t) : t * EventLoop.t :=
  let '(sch, l') :=
    if negb (RunOnceScheduler.isScheduled (onCallStackChangeScheduler v)) then
      RunOnceScheduler.schedule None (onCallStackChangeScheduler v) l
    else (onCallStackChangeScheduler v, l) in
  ({| panel := panel v; widget := widget v;
      onCallStackChangeScheduler := sch;
      pauseMessage := pauseMessage v |}, l').

(** Lines 338-339. *)
Definition onDidFocusStackFrame (ds : IDebugService) (v : t) (k : Errors.Sink) : t * Errors.Sink :=
  let '(s', k') := done_ (updateTreeSelection ds) (widget v) k in
  ({| panel := panel v; widget := s';
      onCallStackChangeScheduler := onCallStackChangeScheduler v;
      pauseMessage := pauseMessage v |}, k').

Definition onTimeout (ds : IDebugService) (v : t) (k : Errors.Sink) : t * Errors.Sink :=
  onCallStackChange ds
    {| panel := panel v; widget := widget v;
       onCallStackChangeScheduler := RunOnceScheduler.onTimeout (onCallStackChangeScheduler v);
       pauseMessage := pauseMessage v |} k.

(** Lines 376-379. *)
Definition shutdown (v : t) (settings : gmap string JSValue) : t * gmap string JSValue :=
  let settings' := <[MEMENTO := JSBoolean (negb (isExpanded (panel v)))]> settings in
  ({| panel := superShutdown (panel v); widget := widget v;
      onCallStackChangeScheduler := onCallStackChangeScheduler v;
      pauseMessage := pauseMessage v |}, settings').
End View.
Arguments t : clear implicits.
End CallStackView.

(** ** BreakpointsView (lines 382-514) *)

Module BreakpointsView.
Section View.
Context {Tree : Type} `{!ITree Tree} {Panel : Type} `{!IViewletPanel Panel}.

Definition MAX_VISIBLE_FILES : nat := 9.
Definition MEMENTO : string := "breakopintsview.memento".

(** A body size: a number of pixels or [Number.POSITIVE_INFINITY]. *)
Inductive BodySize :=
| Pixels (n : nat)
| Infinity.

Record t := {
  panel : Panel;
  widget : option (Traced Tree);    (* [this.tree], unset until [renderBody] *)
  minimumBodySize : nat;
  maximumBodySize : BodySize
}.

(** The calls made on the tree, none before there is a tree. *)
Definition madeCalls (v : t) : list Entry :=
  match widget v with
  | Some s => calls s
  | None => []
  end.

(** Lines 504-508. *)
Definition getExpandedBodySize (ds : IDebugService) : nat :=
  let model := getModel ds in
  let length :=
    (length (getBreakpoints model) + length (getExceptionBreakpoints model)
     + length (getFunctionBreakpoints model))%nat in
  (Nat.min MAX_VISIBLE_FILES length * 22)%nat.

(** Lines 389-408. *)
Definition constructor (ds : IDebugService) (p : Panel) : t :=
  {| panel := p; widget := None;
     minimumBodySize := getExpandedBodySize ds;
     maximumBodySize := Pixels (getExpandedBodySize ds) |}.

(** Lines 410-484, as far as the tree goes. *)
Definition renderBody (v : t) (k : Errors.Sink) : t * Errors.Sink :=
  let '(s, k') :=
    dropped (async (CSetInput ElModel) (setInput ElModel))
            {| tree := newTree; calls := [] |} k in
  ({| panel := panel v; widget := Some s;
      minimumBodySize := minimumBodySize v;
      maximumBodySize := maximumBodySize v |}, k').

(** Lines 494-502. *)
Definition onBreakpointsChange (ds : IDebugService) (v : t) (k : Errors.Sink) : t * Errors.Sink :=
  let minimum := getExpandedBodySize ds in
  let maximum :=
    match maximumBodySize v with
    | Pixels _ => Pixels minimum
    | Infinity => Infinity
    end in
  match widget v with
  | Some s =>
      let '(s', k') := dropped (async (CRefresh None) (refresh None)) s k in
      ({| panel := panel v; widget := Some s';
          minimumBodySize := minimum; maximumBodySize := maximum |}, k')
  | None =>
      ({| panel := panel v; widget := None;
          minimumBodySize := minimum; maximumBodySize := maximum |}, k)
  end.

(** Lines 470-483; the listener exists once [renderBody] has run. *)
Definition onDidSelectFunctionBreakpoint (fbp : option IBreakpoint) (v : t) (k : Errors.Sink)
    : t * Errors.Sink :=
  match fbp, widget v with
  | Some (FunctionBreakpoint r _), Some s =>
      let chain :=
        then_ (async (CRefresh (Some (ElFunctionBreakpoint r)))
                     (refresh (Some (ElFunctionBreakpoint r)))) (fun _ s0 =>
          (inr tt, sync COnceDidChangeHighlight id
                     (sync (CSetHighlight (ElFunctionBreakpoint r))
                           (setHighlight (ElFunctionBreakpoint r)) s0))) in
      let '(s', k') := done_ chain s k in
      ({| panel := panel v; widget := Some s';
          minimumBodySize := minimumBodySize v;
          maximumBodySize := maximumBodySize v |}, k')
  | _, _ => (v, k)
  end.

(** Lines 510-513. *)
Definition shutdown (v : t) (settings : gmap string JSValue) : t * gmap string JSValue :=
  let settings' := <[MEMENTO := JSBoolean (negb (isExpanded (panel v)))]> settings in
  ({| panel := superShutdown (panel v); widget := widget v;
      minimumBodySize := minimumBodySize v;
      maximumBodySize := maximumBodySize v |}, settings').
End View.
Arguments t : clear implicits.
End BreakpointsView.

(** ** The four views in the workbench *)

Module Workbench.
Section Workbench.
Context {Tree : Type} `{!ITree Tree} {Panel : Type} `{!IViewletPanel Panel}.

Record World := {
  debugService : IDebugService;
  loop : EventLoop.t;
  sink : Errors.Sink;
  viewletSettings : gmap string JSValue;   (* [options.viewletSettings], one object *)
  variablesView : VariablesView.t Tree Panel;
  watchExpressionsView : WatchExpressionsView.t Tree Panel;
  callStackView : CallStackView.t Tree Panel;
  breakpointsView : BreakpointsView.t Tree Panel
}.

(** What reaches the views: notifications of the debug service and of its
    view-model, and the passing of time. *)
Inductive Event :=
| ModelChanged (ds : IDebugService)
| DidFocusStackFrame (sf : VariablesView.FocusEvent)
| DidChangeWatchExpressions (we : option IExpression)
| DidChangeCallStack
| DidChangeBreakpoints
| DidSelectExpression (expression : option IExpression)
| DidSelectFunctionBreakpoint (fbp : option IBreakpoint)
| Elapse (dt : nat).

(** The views are created and rendered in a workbench with no timer
    pending. *)
Definition startup (ds : IDebugService) (settings : gmap string JSValue)
    (p1 p2 p3 p4 : Panel) : World :=
  let '(v1, k1) := VariablesView.create p1 [] in
  let '(v2, k2) := WatchExpressionsView.create p2 k1 in
  let '(v3, l3) := CallStackView.create ds p3 EventLoop.empty in
  let '(v4, k4) := BreakpointsView.renderBody (BreakpointsView.constructor ds p4) k2 in
  {| debugService := ds; loop := l3; sink := k4; viewletSettings := settings;
     variablesView := v1; watchExpressionsView := v2;
     callStackView := v3; breakpointsView := v4 |}.

(** The [timeoutHandler] of a view's scheduler runs. *)
Definition fire (v : ViewId) (w : World) : World :=
  match v with
  | Variables =>
      let '(v', k') := VariablesView.onTimeout (debugService w) (variablesView w) (sink w) in
      {| debugService := debugService w; loop := loop w; sink := k';
         viewletSettings := viewletSettings w;
         variablesView := v'; watchExpressionsView := watchExpressionsView w;
         callStackView := callStackView w; breakpointsView := breakpointsView w |}
  | WatchExpressions =>
      let '(v', k') := WatchExpressionsView.onTimeout (watchExpressionsView w) (sink w) in
      {| debugService := debugService w; loop := loop w; sink := k';
         viewletSettings := viewletSettings w;
         variablesView := variablesView w; watchExpressionsView := v';
         callStackView := callStackView w; breakpointsView := breakpointsView w |}
  | CallStack =>
      let '(v', k') := CallStackView.onTimeout (debugService w) (callStackView w) (sink w) in
      {| debugService := debugService w; loop := loop w; sink := k';
         viewletSettings := viewletSettings w;
         variablesView := variablesView w; watchExpressionsView := watchExpressionsView w;
         callStackView := v'; breakpointsView := breakpointsView w |}
  | Breakpoints => w   (* this view creates no scheduler *)
  end.

Definition step (w : World) (e : Event) : World :=
  match e with
  | ModelChanged ds =>
      {| debugService := ds; loop := loop w; sink := sink w;
         viewletSettings := viewletSettings w;
         variablesView := variablesView w; watchExpressionsView := watchExpressionsView w;
         callStackView := callStackView w; breakpointsView := breakpointsView w |}
  | DidFocusStackFrame sf =>
      let '(v1, l') := VariablesView.onDidFocusStackFrame sf (variablesView w) (loop w) in
      let '(v3, k') := CallStackView.onDidFocusStackFrame (debugService w) (callStackView w) (sink w) in
      {| debugService := debugService w; loop := l'; sink := k';
         viewletSettings := viewletSettings w;
         variablesView := v1; watchExpressionsView := watchExpressionsView w;
         callStackView := v3; breakpointsView := breakpointsView w |}
  | DidChangeWatchExpressions we =>
      let '(v2, l') :=
        WatchExpressionsView.onDidChangeWatchExpressions we (watchExpressionsView w) (loop w) in
      {| debugService := debugService w; loop := l'; sink := sink w;
         viewletSettings := viewletSettings w;
         variablesView := variablesView w; watchExpressionsView := v2;
         callStackView := callStackView w; breakpointsView := breakpointsView w |}
  | DidChangeCallStack =>
      let '(v3, l') := CallStackView.onDidChangeCallStack (callStackView w) (loop w) in
      {| debugService := debugService w; loop := l'; sink := sink w;
         viewletSettings := viewletSettings w;
         variablesView := variablesView w; watchExpressionsView := watchExpressionsView w;
         callStackView := v3; breakpointsView := breakpointsView w |}
  | DidChangeBreakpoints =>
      let '(v4, k') :=
        BreakpointsView.onBreakpointsChange (debugService w) (breakpointsView w) (sink w) in
      {| debugService := debugService w; loop := loop w; sink := k';
         viewletSettings := viewletSettings w;
         variablesView := variablesView w; watchExpressionsView := watchExpressionsView w;
         callStackView := callStackView w; breakpointsView := v4 |}
  | DidSelectExpression expression =>
      let '(v1, k1) := VariablesView.onDidSelectExpression expression (variablesView w) (sink w) in
      let '(v2, k2) :=
        WatchExpressionsView.onDidSelectExpression expression (watchExpressionsView w) k1 in
      {| debugService := debugService w; loop := loop w; sink := k2;
         viewletSettings := viewletSettings w;
         variablesView := v1; watchExpressionsView := v2;
         callStackView := callStackView w; breakpointsView := breakpointsView w |}
  | DidSelectFunctionBreakpoint fbp =>
      let '(v4, k') :=
        BreakpointsView.onDidSelectFunctionBreakpoint fbp (breakpointsView w) (sink w) in
      {| debugService := debugService w; loop := loop w; sink := k';
         viewletSettings := viewletSettings w;
         variablesView := variablesView w; watchExpressionsView := watchExpressionsView w;
         callStackView := callStackView w; breakpointsView := v4 |}
  | Elapse dt =>
      let '(due, l') := EventLoop.elapse dt (loop w) in
      foldl (fun w' x => fire (EventLoop.callback x) w')
        {| debugService := debugService w; loop := l'; sink := sink w;
           viewletSettings := viewletSettings w;
           variablesView := variablesView w; watchExpressionsView := watchExpressionsView w;
           callStackView := callStackView w; breakpointsView := breakpointsView w |}
        due
  end.

Definition run (w : World) (events : list Event) : World := foldl step w events.

(** The key under which a view keeps its flag in the viewlet settings. *)
Definition mementoKey (v : ViewId) : string :=
  match v with
  | Variables => VariablesView.MEMENTO
  | WatchExpressions => WatchExpressionsView.MEMENTO
  | CallStack => CallStackView.MEMENTO
  | Breakpoints => BreakpointsView.MEMENTO
  end.

Definition panelOf (v : ViewId) (w : World) : Panel :=
  match v with
  | Variables => VariablesView.panel (variablesView w)
  | WatchExpressions => WatchExpressionsView.panel (watchExpressionsView w)
  | CallStack => CallStackView.panel (callStackView w)
  | Breakpoints => BreakpointsView.panel (breakpointsView w)
  end.

(** [shutdown()] of one view. *)
Definition shutdown (v : ViewId) (w : World) : World :=
  match v with
  | Variables =>
      let '(v', settings) := VariablesView.shutdown (variablesView w) (viewletSettings w) in
      {| debugService := debugService w; loop := loop w; sink := sink w;
         viewletSettings := settings;
         variablesView := v'; watchExpressionsView := watchExpressionsView w;
         callStackView := callStackView w; breakpointsView := breakpointsView w |}
  | WatchExpressions =>
      let '(v', settings) :=
        WatchExpressionsView.shutdown (watchExpressionsView w) (viewletSettings w) in
      {| debugService := debugService w; loop := loop w; sink := sink w;
         viewletSettings := settings;
         variablesView := variablesView w; watchExpressionsView := v';
         callStackView := callStackView w; breakpointsView := breakpointsView w |}
  | CallStack =>
      let '(v', settings) := CallStackView.shutdown (callStackView w) (viewletSettings w) in
      {| debugService := debugService w; loop := loop w; sink := sink w;
         viewletSettings := settings;
         variablesView := variablesView w; watchExpressionsView := watchExpressionsView w;
         callStackView := v'; breakpointsView := breakpointsView w |}
  | Breakpoints =>
      let '(v', settings) := BreakpointsView.shutdown (breakpointsView w) (viewletSettings w) in
      {| debugService := debugService w; loop := loop w; sink := sink w;
         viewletSettings := settings;
         variablesView := variablesView w; watchExpressionsView := watchExpressionsView w;
         callStackView := callStackView w; breakpointsView := v' |}
  end.

(** *** Observations *)

(** The scheduler a view owns, if it owns one. *)
Definition schedulerOf (v : ViewId) (w : World) : option RunOnceScheduler.t :=
  match v with
  | Variables => Some (VariablesView.onFocusStackFrameScheduler (variablesView w))
  | WatchExpressions =>
      Some (WatchExpressionsView.onWatchExpressionsUpdatedScheduler (watchExpressionsView w))
  | CallStack => Some (CallStackView.onCallStackChangeScheduler (callStackView w))
  | Breakpoints => None
  end.

(** The timers of the queue that will run a view's refresh. *)
Definition pendingRefreshes (v : ViewId) (w : World) : list EventLoop.Timer :=
  filter (fun x => EventLoop.callback x = v) (EventLoop.timers (loop w)).

(** The default delay of each view's scheduler. *)
Definition debounce (v : ViewId) : option nat :=
  match v with
  | Variables => Some 400%nat
  | WatchExpressions => Some 50%nat
  | CallStack => Some 50%nat
  | Breakpoints => None
  end.

(** The token of the timer a view's scheduler waits for. *)
Definition tokenOf (v : ViewId) (w : World) : option nat :=
  schedulerOf v w ≫= RunOnceScheduler.timeoutToken.

(** Tokens and queue agree: the tokens of the queue are distinct and
    below the next one, and the timers of a view are the one its
    scheduler holds the token of, or none. *)
Definition coherent (tokens : ViewId -> option nat) (l : EventLoop.t) : Prop :=
  NoDup (EventLoop.timerId <$> EventLoop.timers l)
  /\ Forall (fun x => (EventLoop.timerId x < EventLoop.nextTimerId l)%nat) (EventLoop.timers l)
  /\ forall v,
       match tokens v with
       | Some token =>
           exists x,
             filter (fun x => EventLoop.callback x = v) (EventLoop.timers l) = [x]
             /\ EventLoop.timerId x = token
       | None => filter (fun x => EventLoop.callback x = v) (EventLoop.timers l) = []
       end.

(** The state of a workbench that runs as it was built: every scheduler
    calls its own view after its own delay, and tokens and queue agree. *)
Definition consistent (w : World) : Prop :=
  (forall v s, schedulerOf v w = Some s ->
     RunOnceScheduler.timeoutHandler s = v /\ Some (RunOnceScheduler.timeout s) = debounce v)
  /\ coherent (fun v => tokenOf v w) (loop w).

(** The calls a view has made on its tree. *)
Definition callsOf (v : ViewId) (w : World) : list Entry :=
  match v with
  | Variables => calls (VariablesView.widget (variablesView w))
  | WatchExpressions => calls (WatchExpressionsView.widget (watchExpressionsView w))
  | CallStack => calls (CallStackView.widget (callStackView w))
  | Breakpoints => BreakpointsView.madeCalls (breakpointsView w)
  end.

(** A refresh of the whole tree: [refresh()] or, in the call stack view,
    a new input. *)
Definition isTreeRefresh (x : Entry) : bool :=
  match fst x with
  | CRefresh None => true
  | CSetInput _ => true
  | _ => false
  end.

Definition refreshCount (l : list Entry) : nat :=
  length (filter (fun x => isTreeRefresh x = true) l).

Definition treeRefreshes (v : ViewId) (w : World) : nat := refreshCount (callsOf v w).

(** The timers of a view that come due within [n] milliseconds. *)
Definition dueWithin (n : nat) (v : ViewId) (w : World) : nat :=
  length (filter (EventLoop.isDue n) (pendingRefreshes v w)).

(** The milliseconds a list of events takes. *)
Definition elapsed (events : list Event) : nat :=
  foldr (fun e n => match e with Elapse dt => (dt + n)%nat | _ => n end) 0%nat events.

(** Whether the variables view answers the focus event with
    [schedule(0)]. *)
Definition requestsImmediate (sf : VariablesView.FocusEvent) (w : World) : bool :=
  (getContentHeight (tree (VariablesView.widget (variablesView w))) =? 0)%nat
  || VariablesView.explicit sf.

(** How many events of a run ask the variables view for an immediate
    refresh. *)
Fixpoint immediateRequests (w : World) (events : list Event) : nat :=
  match events with
  | [] => 0%nat
  | e :: rest =>
      ((match e with
        | DidFocusStackFrame sf => if requestsImmediate sf w then 1 else 0
        | _ => 0
        end) + immediateRequests (step w e) rest)%nat
  end.

End Workbench.
Arguments World : clear implicits.
End Workbench.

(** ** A plain tree and a plain panel, to run the views on concrete inputs *)

Module PlainTree.

#[global] Instance Call_eq_dec : EqDecision Call.
Proof. solve_decision. Defined.

Record t := {
  input : option Element;
  expandedElements : list Element;
  selection : list Element;
  highlight : option Element;
  contentHeight : nat;
  faults : list (Call * Err)       (* the calls that are rejected, and with what *)
}.

Definition fault (c : Call) (tr : t) : option Err :=
  (fun x => snd (snd x)) <$> list_find (fun x => fst x = c) (faults tr).

Definition attempt (c : Call) (op : t -> t) (tr : t) : option Err * t :=
  match fault c tr with
  | Some e => (Some e, tr)
  | None => (None, op tr)
  end.

Definition withInput (e : Element) (tr : t) : t :=
  {| input := Some e; expandedElements := []; selection := []; highlight := None;
     contentHeight := contentHeight tr; faults := faults tr |}.

Definition withExpanded (es : list Element) (tr : t) : t :=
  {| input := input tr; expandedElements := expandedElements tr ++ es;
     selection := selection tr; highlight := highlight tr;
     contentHeight := contentHeight tr; faults := faults tr |}.

Definition withSelection (es : list Element) (tr : t) : t :=
  {| input := input tr; expandedElements := expandedElements tr;
     selection := es; highlight := highlight tr;
     contentHeight := contentHeight tr; faults := faults tr |}.

Definition withHighlight (h : option Element) (tr : t) : t :=
  {| input := input tr; expandedElements := expandedElements tr;
     selection := selection tr; highlight := h;
     contentHeight := contentHeight tr; faults := faults tr |}.

Definition blank (height : nat) (rejected : list (Call * Err)) : t :=
  {| input := None; expandedElements := []; selection := []; highlight := None;
     contentHeight := height; faults := rejected |}.

#[global] Instance plainTree : ITree t := {|
  newTree := blank 100 [];
  getInput := input;
  getExpandedElements := expandedElements;
  getContentHeight := contentHeight;
  setInput e := attempt (CSetInput e) (withInput e);
  refresh e := attempt (CRefresh e) id;
  expand e := attempt (CExpand e) (withExpanded [e]);
  expandAll es := attempt (CExpandAll es) (withExpanded es);
  reveal e := attempt (CReveal e) id;
  clearHighlight := withHighlight None;
  setHighlight e := withHighlight (Some e);
  setSelection := withSelection;
  clearSelection := withSelection []
|}.

(** A panel is its expanded flag. *)
#[global] Instance plainPanel : IViewletPanel bool := {|
  isExpanded := id;
  setExpanded b _ := b;
  superShutdown := id
|}.

(** A debug service with nothing to show. *)
Definition idle : IDebugService :=
  {| getModel := {| getProcesses := []; getBreakpoints := [];
                    getExceptionBreakpoints := []; getFunctionBreakpoints := [] |};
     getViewModel := {| focusedStackFrame := None; focusedThread := None;
                        focusedProcess := None; isMultiProcessView := false |};
     state := Inactive |}.

(** The workbench right after the views were rendered. *)
Definition fresh : Workbench.World t bool := Workbench.startup idle ∅ true true true true.

End PlainTree.

(** ** The behaviour in the words of the specification

    Each definition below restates one sentence of the specification, to
    be compared with the code of the views above. *)

Module Stated.
Section Stated.
Context {Tree : Type} `{!ITree Tree}.

(** The input of the call stack tree: "if the view-model is not a
    multi-process view and at least one process exists, the first
    process's sole thread when that process has exactly one thread, and
    otherwise the first process itself; in every other case the whole
    debug model". *)
Definition treeInput (ds : IDebugService) : CallStackView.TreeInput :=
  match isMultiProcessView (getViewModel ds), getProcesses (getModel ds) with
  | false, first :: _ =>
      match getAllThreads first with
      | [only] => CallStackView.InputThread only
      | _ => CallStackView.InputProcess first
      end
  | _, _ => CallStackView.InputModel
  end.

(** The calls by which the selection follows the focus: nothing without
    an input; with a focused thread, its process and itself are expanded
    and then, if that worked and a frame is focused, the frame is
    selected and revealed; with a focused process only, the process is
    selected and revealed; with neither, the selection is cleared. *)
Definition selectionCalls (ds : IDebugService) (tr : Tree) : list Call :=
  match getInput tr with
  | None => []
  | Some _ =>
      match focusedThread (getViewModel ds) with
      | Some th =>
          let path := [ElProcess (DebugModel.process th); ElThread (threadRef th)] in
          CExpandAll path ::
            match fst (expandAll path tr), focusedStackFrame (getViewModel ds) with
            | None, Some frame =>
                [CSetSelection [ElStackFrame (frameRef frame)];
                 CReveal (ElStackFrame (frameRef frame))]
            | _, _ => []
            end
      | None =>
          match focusedProcess (getViewModel ds) with
          | Some p =>
              [CSetSelection [ElProcess (processRef p)]; CReveal (ElProcess (processRef p))]
          | None => [CClearSelection]
          end
      end
  end.

(** Re-expanding the preserved elements one after the other: the calls
    made, and the tree they leave if none was rejected. *)
Fixpoint restoreCalls (preserved : list Element) (tr : Tree) : list Entry * option Tree :=
  match preserved with
  | [] => ([], Some tr)
  | e :: rest =>
      match expand e tr with
      | (Some err, _) => ([(CExpand e, Some err)], None)
      | (None, tr') =>
          let '(made, after) := restoreCalls rest tr' in
          ((CExpand e, None) :: made, after)
      end
  end.

(** The default expansion: "only if a stack frame is focused and no
    element ended up expanded, fetches that frame's scopes and expands
    the first scope provided the scope list is non-empty and the first
    scope is not marked expensive". *)
Definition defaultExpansion (focused : option StackFrame) (tr : Tree) : list Entry :=
  match focused, getExpandedElements tr with
  | Some frame, [] =>
      match getScopes frame with
      | inl err => [(CGetScopes (frameRef frame), Some err)]
      | inr [] => [(CGetScopes (frameRef frame), None)]
      | inr (first :: _) =>
          (CGetScopes (frameRef frame), None) ::
            (if expensive first then []
             else [(CExpand (ElScope (scopeRef first)),
                    fst (expand (ElScope (scopeRef first)) tr))])
      end
  | _, _ => []
  end.

(** The elements the variables view re-expands: those expanded when the
    timer fires or, when there are none, the ones kept from before. *)
Definition preserved (kept : list Element) (tr : Tree) : list Element :=
  match getExpandedElements tr with
  | [] => kept
  | expanded => expanded
  end.

(** The calls of one debounced refresh of the variables view. *)
Definition refreshCalls (ds : IDebugService) (kept : list Element) (tr : Tree) : list Entry :=
  let '(rejected, refreshed) := refresh None (clearHighlight tr) in
  (CClearHighlight, None) :: (CRefresh None, rejected) ::
    match rejected with
    | Some _ => []
    | None =>
        let '(made, after) := restoreCalls (preserved kept tr) refreshed in
        made ++
          match after with
          | Some restored => defaultExpansion (focusedStackFrame (getViewModel ds)) restored
          | None => []
          end
    end.

(** The rejections among a list of calls. *)
Definition failures (l : list Entry) : list Err := omap snd l.

(** A promise chain is orderly when the calls it makes are added to the
    record, a fulfilled chain made no rejected call, and a rejected chain
    ends with the rejected call, the only one, and carries its error. *)
Definition orderly {A} (p : TPromise (Tree := Tree) A) : Prop :=
  forall s, exists made,
    calls (snd (p s)) = calls s ++ made
    /\ match fst (p s) with
       | inr _ => failures made = []
       | inl err =>
           exists early c, made = early ++ [(c, Some err)] /\ failures early = []
       end.

(** "Routes any failure to the single unexpected-error reporting sink
    ...; no retry or recovery is attempted": a handler that found the
    record of calls [before] and the sink [k], and left them as [after]
    and [k'], has only added calls, has handed the sink exactly the
    rejections of the calls it added, and has made no call after a
    rejected one. *)
Definition routed (before : list Entry) (k : Errors.Sink)
    (after : list Entry) (k' : Errors.Sink) : Prop :=
  exists made,
    after = before ++ made
    /\ k' = k ++ failures made
    /\ (forall early x late,
          made = early ++ x :: late -> is_Some (snd x) -> late = []).
End Stated.
End Stated.

(** ** Concrete inputs *)

Module Examples.

Definition uncaught : IBreakpoint := ExceptionBreakpoint "uncaught".
Definition allExceptions : IBreakpoint := ExceptionBreakpoint "all".
Definition onMain : IBreakpoint := FunctionBreakpoint 1%nat "main".
Definition onExit : IBreakpoint := FunctionBreakpoint 2%nat "exit".

Definition fileA : URI := {| scheme := "file"; authority := ""; path := "/a/x.ts" |}.
Definition fileB : URI := {| scheme := "file"; authority := ""; path := "/b/x.ts" |}.

(** Line 1 of /a/x.ts and line 2 of /b/x.ts. *)
Definition inA1 : IBreakpoint := Breakpoint fileA 1 0.
Definition inB2 : IBreakpoint := Breakpoint fileB 2 0.
Definition inA7 : IBreakpoint := Breakpoint fileA 7 4.

Definition thread1 : Thread := {| threadRef := 11%nat; process := 1%nat; stoppedDetails := None |}.
Definition process1 : Process := {| processRef := 1%nat; getAllThreads := [thread1] |}.
Definition scope1 : Scope := {| scopeRef := 31%nat; expensive := false |}.
Definition frame1 : StackFrame := {| frameRef := 21%nat; getScopes := inr [scope1] |}.

(** One process is focused, and none of its threads. *)
Definition processFocused : IDebugService :=
  {| getModel := {| getProcesses := [process1]; getBreakpoints := [inA1];
                    getExceptionBreakpoints := [uncaught]; getFunctionBreakpoints := [] |};
     getViewModel := {| focusedStackFrame := None; focusedThread := None;
                        focusedProcess := Some process1; isMultiProcessView := false |};
     state := Running |}.

(** A frame of the only thread is focused. *)
Definition frameFocused : IDebugService :=
  {| getModel := getModel processFocused;
     getViewModel := {| focusedStackFrame := Some frame1; focusedThread := Some thread1;
                        focusedProcess := Some process1; isMultiProcessView := false |};
     state := Stopped |}.

(** A focus change that stepping causes, and one the user asked for. *)
Definition stepped : VariablesView.FocusEvent :=
  {| VariablesView.stackFrame := Some frame1; VariablesView.explicit := false |}.
Definition clicked : VariablesView.FocusEvent :=
  {| VariablesView.stackFrame := Some frame1; VariablesView.explicit := true |}.

(** The views are rendered, stepping moves the focus, and 300 ms pass. *)
Definition afterStepping : Workbench.World PlainTree.t bool :=
  Workbench.run PlainTree.fresh [Workbench.DidFocusStackFrame stepped; Workbench.Elapse 300].

(** Watch expressions change, and 20 ms pass. *)
Definition watchHistory : list Workbench.Event :=
  [Workbench.DidChangeWatchExpressions None; Workbench.Elapse 20].

(** Three more changes within 40 ms. *)
Definition watchBurst : list Workbench.Event :=
  [Workbench.DidChangeWatchExpressions None; Workbench.Elapse 30;
   Workbench.DidChangeWatchExpressions (Some (Expression 5%nat)); Workbench.Elapse 10;
   Workbench.DidChangeWatchExpressions None].

(** The breakpoints change twice in a row. *)
Definition breakpointsBurst : list Workbench.Event :=
  [Workbench.DidChangeBreakpoints; Workbench.DidChangeBreakpoints].

(** The user picks a stack frame twice within 20 ms. *)
Definition clicks : list Workbench.Event :=
  [Workbench.DidFocusStackFrame clicked; Workbench.Elapse 10;
   Workbench.DidFocusStackFrame clicked; Workbench.Elapse 10].

(** The views are rendered, and then a process comes into focus. *)
Definition withProcessFocused : Workbench.World PlainTree.t bool :=
  Workbench.run PlainTree.fresh [Workbench.ModelChanged processFocused].

(** A frame comes into focus while stepping, and 400 ms pass. *)
Definition steppingSettles : list Workbench.Event :=
  [Workbench.ModelChanged frameFocused; Workbench.DidFocusStackFrame stepped;
   Workbench.Elapse 400].

(** The call stack changes twice, 50 ms passing after each change. *)
Definition callStackChanges : list Workbench.Event :=
  [Workbench.ModelChanged frameFocused; Workbench.DidChangeCallStack; Workbench.Elapse 50;
   Workbench.DidChangeCallStack; Workbench.Elapse 50].

(** A watch expressions view whose tree rejects the reveal of the
    expression it is about to reveal. *)
Definition watchWithLostExpression : WatchExpressionsView.t PlainTree.t bool :=
  {| WatchExpressionsView.panel := true;
     WatchExpressionsView.widget :=
       {| tree := PlainTree.blank 100 [(CReveal (ElExpression 5%nat), "gone")]; calls := [] |};
     WatchExpressionsView.onWatchExpressionsUpdatedScheduler :=
       RunOnceScheduler.create WatchExpressions 50;
     WatchExpressionsView.toReveal := Some (Expression 5%nat) |}.

End Examples.

(** ** Further observations on the views *)

Module Derived.
Section Derived.
Context {Tree : Type} `{!ITree Tree} {Panel : Type} `{!IViewletPanel Panel}.

(** The calls of a selection handler on the element it was handed: the
    refresh of that element and, once fulfilled, the highlight and the
    listener for its end. *)
Definition selectCalls (e : Element) (tr : Tree) : list Entry :=
  (CRefresh (Some e), fst (refresh (Some e) tr)) ::
    match fst (refresh (Some e) tr) with
    | None => [(CSetHighlight e, None); (COnceDidChangeHighlight, None)]
    | Some _ => []
    end.

(** The rejections of the calls of all four views, view by view. *)
Definition allFailures (w : Workbench.World Tree Panel) : list Err :=
  Stated.failures (Workbench.callsOf Variables w)
  ++ Stated.failures (Workbench.callsOf WatchExpressions w)
  ++ Stated.failures (Workbench.callsOf CallStack w)
  ++ Stated.failures (Workbench.callsOf Breakpoints w).

(** Every pending timer runs out within the delay of the view it calls. *)
Definition punctual (w : Workbench.World Tree Panel) : Prop :=
  Forall (fun x => exists delay,
            Workbench.debounce (EventLoop.callback x) = Some delay
            /\ (EventLoop.remaining x <= delay)%nat)
         (EventLoop.timers (Workbench.loop w)).

(** The shutdown of several views, one after the other. *)
Definition shutdownAll (w : Workbench.World Tree Panel) (order : list ViewId)
    : Workbench.World Tree Panel :=
  foldl (fun w' v => Workbench.shutdown v w') w order.

(** The calls of the watch expressions view when its timer fires with
    [toReveal] as given: the refresh and, once fulfilled, the reveal of a
    watch expression. *)
Definition revealCalls (toReveal : option IExpression) (tr : Tree) : list Entry :=
  (CRefresh None, fst (refresh None tr)) ::
    match fst (refresh None tr), toReveal with
    | None, Some (Expression r) =>
        [(CReveal (ElExpression r), fst (reveal (ElExpression r) (snd (refresh None tr))))]
    | _, _ => []
    end.
End Derived.

(** Stepping: a focus change, and after each of the gaps another one. *)
Definition stepping (sf : VariablesView.FocusEvent) (gaps : list nat) : list Workbench.Event :=
  Workbench.DidFocusStackFrame sf
    :: (gaps ≫= fun gap => [Workbench.Elapse gap; Workbench.DidFocusStackFrame sf]).

(** The watch expressions change several times in a row. *)
Definition watchChanges (changes : list (option IExpression)) : list Workbench.Event :=
  Workbench.DidChangeWatchExpressions <$> changes.
End Derived.

(** Further states of the workbench. *)
Module Cases.

(** The only thread stopped on an exception that came with a text. *)
Definition stoppedThread : Thread :=
  {| threadRef := 12%nat; process := 2%nat;
     stoppedDetails := Some {| reason := "exception"; description := ""; text := "boom" |} |}.
Definition stoppedProcess : Process :=
  {| processRef := 2%nat; getAllThreads := [stoppedThread] |}.
Definition pausedOnException : IDebugService :=
  {| getModel := {| getProcesses := [stoppedProcess]; getBreakpoints := [];
                    getExceptionBreakpoints := []; getFunctionBreakpoints := [] |};
     getViewModel := {| focusedStackFrame := None; focusedThread := Some stoppedThread;
                        focusedProcess := Some stoppedProcess; isMultiProcessView := false |};
     state := Stopped |}.

(** The views are rendered, the session stops on the exception, and the
    call stack view has updated its tree. *)
Definition paused : Workbench.World PlainTree.t bool :=
  Workbench.run PlainTree.fresh
    [Workbench.ModelChanged pausedOnException; Workbench.DidChangeCallStack; Workbench.Elapse 50].

(** Stepping settles twice: the second refresh finds the scope expanded
    that the first one expanded by default. *)
Definition settledTwice : Workbench.World PlainTree.t bool :=
  Workbench.run PlainTree.fresh
    (Examples.steppingSettles
     ++ [Workbench.DidFocusStackFrame Examples.stepped; Workbench.Elapse 400]).

End Cases.

(** * Properties *)

(** ** The sorter *)

Lemma localeCompare_antisym (a b : string) :
  Z.sgn (PlainHost.localeCompare b a) = - Z.sgn (PlainHost.localeCompare a b).
Proof.
  unfold PlainHost.localeCompare.
  rewrite (String.compare_antisym a b).
  destruct (String.compare b a); reflexivity.
Qed.

Section SorterFacts.
Variable toString : URI -> string.
Variable basenameOrAuthority : URI -> string.
Variable localeCompare : string -> string -> Z.

Abbreviation compare := (BreakpointsSorter.compare toString basenameOrAuthority localeCompare).
Abbreviation kindRank := BreakpointsSorter.kindRank.

(** What the host promises of [localeCompare]: the sign flips with the
    arguments. *)
Hypothesis localeCompare_flips :
  forall a b, Z.sgn (localeCompare b a) = - Z.sgn (localeCompare a b).

Lemma compare_kinds (a b : IBreakpoint) :
  kindRank a < kindRank b -> compare a b = -1 /\ compare b a = 1.
Proof. destruct a, b; simpl; intros Hlt; try lia; auto. Qed.

Lemma compare_other_file u1 l1 c1 u2 l2 c2 :
  toString u1 <> toString u2 ->
  compare (Breakpoint u1 l1 c1) (Breakpoint u2 l2 c2)
  = localeCompare (basenameOrAuthority u1) (basenameOrAuthority u2).
Proof.
  intros Hne. simpl.
  destruct (String.eqb_spec (toString u1) (toString u2)); [contradiction | reflexivity].
Qed.

Lemma compare_same_file u1 l1 c1 u2 l2 c2 :
  toString u1 = toString u2 ->
  compare (Breakpoint u1 l1 c1) (Breakpoint u2 l2 c2)
  = if l1 =? l2 then c1 - c2 else l1 - l2.
Proof.
  intros Heq. simpl.
  destruct (String.eqb_spec (toString u1) (toString u2)); [reflexivity | contradiction].
Qed.

Lemma compare_flips_sources u1 l1 c1 u2 l2 c2 :
  Z.sgn (compare (Breakpoint u2 l2 c2) (Breakpoint u1 l1 c1))
  = - Z.sgn (compare (Breakpoint u1 l1 c1) (Breakpoint u2 l2 c2)).
Proof.
  destruct (decide (toString u1 = toString u2)) as [Heq | Hne].
  - rewrite !compare_same_file by auto.
    destruct (Z.eqb_spec l1 l2), (Z.eqb_spec l2 l1); lia.
  - rewrite !compare_other_file by auto. apply localeCompare_flips.
Qed.

(** C1 (as amended). An exception breakpoint sorts before every
    breakpoint of another kind and a function breakpoint before every
    source breakpoint. Two source breakpoints whose URIs print
    differently are ordered by the locale-aware comparison of the
    basename-or-authority of their URIs alone; two whose URIs print alike
    are ordered by line number, then by column. Swapping the arguments
    negates the sign of the result whenever the two elements are of
    different kinds or are both source breakpoints. *)
Theorem compare_orders_breakpoints (a b : IBreakpoint) :
  (kindRank a < kindRank b -> compare a b = -1 /\ compare b a = 1)
  /\ (forall u1 l1 c1 u2 l2 c2,
        a = Breakpoint u1 l1 c1 -> b = Breakpoint u2 l2 c2 ->
        (toString u1 <> toString u2 ->
           compare a b = localeCompare (basenameOrAuthority u1) (basenameOrAuthority u2))
        /\ (toString u1 = toString u2 ->
              (l1 < l2 -> compare a b < 0)
              /\ (l2 < l1 -> 0 < compare a b)
              /\ (l1 = l2 -> compare a b = c1 - c2)))
  /\ (kindRank a <> kindRank b \/ kindRank a = 2 ->
        Z.sgn (compare b a) = - Z.sgn (compare a b)).
Proof.
  split; [apply compare_kinds |]. split.
  - intros u1 l1 c1 u2 l2 c2 -> ->. split.
    + apply compare_other_file.
    + intros Heq. rewrite compare_same_file by exact Heq.
      destruct (Z.eqb_spec l1 l2); repeat split; lia.
  - intros Hkinds.
    destruct (Z.lt_total (kindRank a) (kindRank b)) as [Hlt | [Heq | Hgt]].
    + destruct (compare_kinds a b Hlt) as [-> ->]. reflexivity.
    + destruct Hkinds as [Hne | Hsrc]; [contradiction |].
      destruct a; simpl in Hsrc; try discriminate.
      destruct b; simpl in Heq; try discriminate.
      apply compare_flips_sources.
    + destruct (compare_kinds b a Hgt) as [-> ->]. reflexivity.
Qed.
End SorterFacts.

(** C1, an instance: line 7 of /a/x.ts against line 2 of /b/x.ts under the
    plain host. *)
Lemma compare_orders_breakpoints_witness :
  (BreakpointsSorter.kindRank Examples.inA7 < BreakpointsSorter.kindRank Examples.inB2 ->
     PlainHost.compare Examples.inA7 Examples.inB2 = -1
     /\ PlainHost.compare Examples.inB2 Examples.inA7 = 1)
  /\ (forall u1 l1 c1 u2 l2 c2,
        Examples.inA7 = Breakpoint u1 l1 c1 -> Examples.inB2 = Breakpoint u2 l2 c2 ->
        (PlainHost.toString u1 <> PlainHost.toString u2 ->
           PlainHost.compare Examples.inA7 Examples.inB2
           = PlainHost.localeCompare (PlainHost.basenameOrAuthority u1)
                                     (PlainHost.basenameOrAuthority u2))
        /\ (PlainHost.toString u1 = PlainHost.toString u2 ->
              (l1 < l2 -> PlainHost.compare Examples.inA7 Examples.inB2 < 0)
              /\ (l2 < l1 -> 0 < PlainHost.compare Examples.inA7 Examples.inB2)
              /\ (l1 = l2 -> PlainHost.compare Examples.inA7 Examples.inB2 = c1 - c2)))
  /\ (BreakpointsSorter.kindRank Examples.inA7 <> BreakpointsSorter.kindRank Examples.inB2
      \/ BreakpointsSorter.kindRank Examples.inA7 = 2 ->
        Z.sgn (PlainHost.compare Examples.inB2 Examples.inA7)
        = - Z.sgn (PlainHost.compare Examples.inA7 Examples.inB2)).
Proof.
  exact (compare_orders_breakpoints PlainHost.toString PlainHost.basenameOrAuthority
           PlainHost.localeCompare localeCompare_antisym Examples.inA7 Examples.inB2).
Defined.

(** C1 as it is stated fails twice under the plain host. Two exception
    breakpoints compare as -1 in either order, and so do two function
    breakpoints, so swapping does not negate the sign; and line 1 of
    /a/x.ts against line 2 of /b/x.ts compares as 0, where the stated order
    (file name, then line) puts the first before the second. *)
Lemma compare_departs_from_stated_order :
  (PlainHost.compare Examples.uncaught Examples.allExceptions = -1
   /\ PlainHost.compare Examples.allExceptions Examples.uncaught = -1)
  /\ (PlainHost.compare Examples.onMain Examples.onExit = -1
      /\ PlainHost.compare Examples.onExit Examples.onMain = -1)
  /\ (PlainHost.compare Examples.inA1 Examples.inB2 = 0
      /\ PlainHost.statedOrder Examples.inA1 Examples.inB2 = -1).
Proof. vm_compute. repeat split. Qed.

(** ** The breakpoints view: body size *)

Section BodySize.
Context {Tree : Type} `{!ITree Tree} {Panel : Type} `{!IViewletPanel Panel}.

(** C9. The expanded body size is [min(9, b + e + f) * 22] for the
    numbers [b], [e], [f] of source, exception and function breakpoints
    of the model; it never exceeds 198 and is 0 exactly when the model
    holds no breakpoint of any kind. *)
Theorem expanded_body_size (ds : IDebugService) :
  let b := length (getBreakpoints (getModel ds)) in
  let e := length (getExceptionBreakpoints (getModel ds)) in
  let f := length (getFunctionBreakpoints (getModel ds)) in
  BreakpointsView.getExpandedBodySize ds = (Nat.min 9 (b + e + f) * 22)%nat
  /\ (BreakpointsView.getExpandedBodySize ds <= 198)%nat
  /\ (BreakpointsView.getExpandedBodySize ds = 0%nat
      <-> b = 0%nat /\ e = 0%nat /\ f = 0%nat).
Proof.
  intros b e f. unfold BreakpointsView.getExpandedBodySize, BreakpointsView.MAX_VISIBLE_FILES.
  fold b e f. repeat split; try lia.
Qed.

(** The size is what the view takes as its minimum, at construction and
    on every change of the breakpoints. *)
Lemma minimum_body_size (ds ds' : IDebugService) (p : Panel) (k : Errors.Sink) :
  BreakpointsView.minimumBodySize (BreakpointsView.constructor (Tree := Tree) ds p)
  = BreakpointsView.getExpandedBodySize ds
  /\ BreakpointsView.minimumBodySize
       (fst (BreakpointsView.onBreakpointsChange ds' (BreakpointsView.constructor (Tree := Tree) ds p) k))
     = BreakpointsView.getExpandedBodySize ds'.
Proof. split; reflexivity. Qed.
End BodySize.

(** ** Shutdown *)

Section Shutdown.
Context {Tree : Type} `{!ITree Tree} {Panel : Type} `{!IViewletPanel Panel}.
Implicit Types w : Workbench.World Tree Panel.

Lemma memento_keys_differ (v v' : ViewId) :
  v <> v' -> Workbench.mementoKey v <> Workbench.mementoKey v'.
Proof. destruct v, v'; intros Hne; try contradiction; discriminate. Qed.

Lemma shutdown_settings (v : ViewId) w :
  Workbench.viewletSettings (Workbench.shutdown v w)
  = <[Workbench.mementoKey v := JSBoolean (negb (isExpanded (Workbench.panelOf v w)))]>
      (Workbench.viewletSettings w).
Proof. destruct v; reflexivity. Qed.

(** C8. On shutdown a view writes one entry of the viewlet settings: the
    negation of [isExpanded()], under its own memento key. The keys of
    the four views differ from one another, and every other key of the
    settings keeps the value it had. *)
Theorem shutdown_writes_one_flag (v : ViewId) w :
  Workbench.viewletSettings (Workbench.shutdown v w) !! Workbench.mementoKey v
  = Some (JSBoolean (negb (isExpanded (Workbench.panelOf v w))))
  /\ (forall key : string,
        key <> Workbench.mementoKey v ->
        Workbench.viewletSettings (Workbench.shutdown v w) !! key
        = Workbench.viewletSettings w !! key)
  /\ (forall v' : ViewId, v' <> v -> Workbench.mementoKey v' <> Workbench.mementoKey v).
Proof.
  rewrite shutdown_settings. split; [apply lookup_insert_eq |]. split.
  - intros key Hne. apply lookup_insert_ne. congruence.
  - intros v'. apply memento_keys_differ.
Qed.
End Shutdown.

(** ** The call stack view: input and selection *)

Section CallStackFacts.
Context {Tree : Type} `{!ITree Tree} {Panel : Type} `{!IViewletPanel Panel}.
Implicit Types (w : Workbench.World Tree Panel) (s : Traced Tree).

Lemma newTreeInput_stated (ds : IDebugService) :
  CallStackView.newTreeInput ds = Stated.treeInput ds.
Proof.
  unfold CallStackView.newTreeInput, Stated.treeInput.
  destruct (isMultiProcessView (getViewModel ds)); simpl.
  - by destruct (getProcesses (getModel ds)).
  - destruct (getProcesses (getModel ds)) as [| first others]; simpl; [done |].
    by destruct (getAllThreads first) as [| th [| th' ths]].
Qed.

Lemma updateTreeSelection_calls (ds : IDebugService) s :
  exists made,
    calls (snd (CallStackView.updateTreeSelection ds s)) = calls s ++ made
    /\ fst <$> made = Stated.selectionCalls ds (tree s).
Proof.
  unfold CallStackView.updateTreeSelection, Stated.selectionCalls.
  destruct (getInput (tree s)) as [current |]; simpl.
  2: { exists []. by rewrite app_nil_r. }
  destruct (focusedThread (getViewModel ds)) as [th |].
  - unfold then_, async; simpl.
    destruct (expandAll _ (tree s)) as [[err |] tr'] eqn:Hall; simpl.
    + eexists [_]. split; reflexivity.
    + destruct (focusedStackFrame (getViewModel ds)) as [frame |]; simpl.
      * destruct (reveal _ _) as [r tr'']; simpl.
        rewrite <- !app_assoc. eexists [_; _; _]. split; reflexivity.
      * eexists [_]. split; reflexivity.
  - destruct (focusedProcess (getViewModel ds)) as [p |]; simpl.
    + unfold async; simpl. destruct (reveal _ _) as [r tr']; simpl.
      rewrite <- app_assoc. eexists [_; _]. split; reflexivity.
    + eexists [_]. split; reflexivity.
Qed.

Lemma selectionCalls_no_refresh (ds : IDebugService) (tr : Tree) (made : list Entry) :
  fst <$> made = Stated.selectionCalls ds tr ->
  Forall (fun x => Workbench.isTreeRefresh x = false) made.
Proof.
  intros Hmade.
  assert (Hcalls : Forall (fun c => Workbench.isTreeRefresh (c, None) = false)
                     (Stated.selectionCalls ds tr)).
  { unfold Stated.selectionCalls. repeat case_match; repeat constructor. }
  rewrite <- Hmade, Forall_fmap in Hcalls.
  eapply Forall_impl; [exact Hcalls |]. by intros [c r].
Qed.

Lemma onCallStackChange_calls (ds : IDebugService) (v : CallStackView.t Tree Panel)
    (k : Errors.Sink) :
  exists outcome rest,
    calls (CallStackView.widget (fst (CallStackView.onCallStackChange ds v k)))
    = calls (CallStackView.widget v)
      ++ ((if decide (getInput (tree (CallStackView.widget v))
                      = Some (CallStackView.elementOfInput (Stated.treeInput ds)))
           then CRefresh None
           else CSetInput (CallStackView.elementOfInput (Stated.treeInput ds))),
          outcome) :: rest
    /\ Forall (fun x => Workbench.isTreeRefresh x = false) rest.
Proof.
  unfold CallStackView.onCallStackChange, doneWith.
  rewrite newTreeInput_stated.
  set (chosen := CallStackView.elementOfInput (Stated.treeInput ds)).
  assert (Hop : forall c op,
    exists outcome rest,
      calls (CallStackView.widget (fst (
        let '(s', k') :=
          match async c op (CallStackView.widget v) with
          | (inl e, s') => (s', Errors.onUnexpectedError e k)
          | (inr a, s') =>
              match CallStackView.updateTreeSelection ds s' with
              | (inr _, s'') => (s'', k)
              | (inl e, s'') => (s'', Errors.unhandledRejection e k)
              end
          end in
        ({| CallStackView.panel := CallStackView.panel v; CallStackView.widget := s';
            CallStackView.onCallStackChangeScheduler := CallStackView.onCallStackChangeScheduler v;
            CallStackView.pauseMessage :=
              CallStackView.updatePauseMessage (Stated.treeInput ds) (CallStackView.pauseMessage v) |},
         k'))))
      = calls (CallStackView.widget v) ++ (c, outcome) :: rest
      /\ Forall (fun x => Workbench.isTreeRefresh x = false) rest).
  { intros c op. unfold async.
    destruct (op (tree (CallStackView.widget v))) as [[err |] tr'] eqn:Hop; simpl.
    - exists (Some err), []. split; [reflexivity | constructor].
    - set (s' := {| tree := tr'; calls := calls (CallStackView.widget v) ++ [(c, None)] |}).
      destruct (updateTreeSelection_calls ds s') as (made & Hcalls & Hmade).
      exists None, made. split.
      + destruct (CallStackView.updateTreeSelection ds s') as [[e | a] s'']; simpl in *;
          rewrite Hcalls; subst s'; simpl; by rewrite <- app_assoc.
      + eapply selectionCalls_no_refresh, Hmade. }
  destruct (decide (getInput (tree (CallStackView.widget v)) = Some chosen)); apply Hop.
Qed.

(** C10. When the debounced update of the call stack view fires, the new
    input is the one the specification describes, and the first call on
    the tree is [refresh()] when the tree already shows that input and
    [setInput] with it otherwise; no later call of the update replaces
    or refreshes the input. *)
Theorem call_stack_input (ds : IDebugService) (v : CallStackView.t Tree Panel) (k : Errors.Sink) :
  CallStackView.newTreeInput ds = Stated.treeInput ds
  /\ exists outcome rest,
       calls (CallStackView.widget (fst (CallStackView.onCallStackChange ds v k)))
       = calls (CallStackView.widget v)
         ++ ((if decide (getInput (tree (CallStackView.widget v))
                         = Some (CallStackView.elementOfInput (Stated.treeInput ds)))
              then CRefresh None
              else CSetInput (CallStackView.elementOfInput (Stated.treeInput ds))),
             outcome) :: rest
       /\ Forall (fun x => Workbench.isTreeRefresh x = false) rest.
Proof.
  split; [apply newTreeInput_stated | apply onCallStackChange_calls].
Qed.

(** C5 (as amended). On a focus change of the view-model the call stack
    view makes its selection follow the focus: with no input in the tree
    nothing changes; with a focused thread, its process and the thread
    are expanded and then the focused stack frame, if any, is selected
    and revealed; with a focused process and no thread, the process is
    selected and revealed; with neither, the selection is cleared. The
    watch expressions and breakpoints views do not listen to the event,
    and the variables view only schedules its refresh: their trees stay
    as they are. *)
Theorem selection_follows_focus w (sf : VariablesView.FocusEvent) :
  fst <$> Workbench.callsOf CallStack (Workbench.step w (Workbench.DidFocusStackFrame sf))
  = (fst <$> Workbench.callsOf CallStack w)
    ++ Stated.selectionCalls (Workbench.debugService w)
         (tree (CallStackView.widget (Workbench.callStackView w)))
  /\ (getInput (tree (CallStackView.widget (Workbench.callStackView w))) = None ->
      Workbench.callStackView (Workbench.step w (Workbench.DidFocusStackFrame sf))
      = Workbench.callStackView w
      /\ Workbench.sink (Workbench.step w (Workbench.DidFocusStackFrame sf)) = Workbench.sink w)
  /\ VariablesView.widget (Workbench.variablesView (Workbench.step w (Workbench.DidFocusStackFrame sf)))
     = VariablesView.widget (Workbench.variablesView w)
  /\ Workbench.watchExpressionsView (Workbench.step w (Workbench.DidFocusStackFrame sf))
     = Workbench.watchExpressionsView w
  /\ Workbench.breakpointsView (Workbench.step w (Workbench.DidFocusStackFrame sf))
     = Workbench.breakpointsView w.
Proof.
  unfold Workbench.step.
  destruct (VariablesView.onDidFocusStackFrame sf (Workbench.variablesView w) (Workbench.loop w))
    as [v1 l'] eqn:Hvars.
  assert (Hwidget : VariablesView.widget v1 = VariablesView.widget (Workbench.variablesView w)).
  { unfold VariablesView.onDidFocusStackFrame in Hvars.
    destruct (_ || _) in Hvars;
      destruct (RunOnceScheduler.schedule _ _ _) in Hvars; by inversion Hvars. }
  unfold CallStackView.onDidFocusStackFrame, done_.
  destruct (updateTreeSelection_calls (Workbench.debugService w)
              (CallStackView.widget (Workbench.callStackView w))) as (made & Hcalls & Hmade).
  split; [| split; [intros Hnone; split | repeat split]]; simpl.
  - destruct (CallStackView.updateTreeSelection _ _) as [[e | a] s'] eqn:Hupd; simpl in *;
      by rewrite Hcalls, fmap_app, Hmade.
  - unfold CallStackView.updateTreeSelection. rewrite Hnone. simpl.
    by destruct (Workbench.callStackView w).
  - unfold CallStackView.updateTreeSelection. rewrite Hnone. reflexivity.
  - destruct (CallStackView.updateTreeSelection _ _) as [[e | a] s']; exact Hwidget.
  - by destruct (CallStackView.updateTreeSelection _ _) as [[e | a] s'].
  - by destruct (CallStackView.updateTreeSelection _ _) as [[e | a] s'].
Qed.
End CallStackFacts.

(** C5 as it is stated fails for three of the four views. A process is in
    focus and no thread, and the tree of the variables view has its input;
    on the focus change neither the variables view nor the watch
    expressions view nor the breakpoints view makes any call on its tree:
    none of them selects or reveals the process. *)
Lemma only_call_stack_follows_focus :
  getInput (tree (VariablesView.widget (Workbench.variablesView Examples.withProcessFocused)))
  = Some ElViewModel
  /\ focusedThread (getViewModel (Workbench.debugService Examples.withProcessFocused)) = None
  /\ focusedProcess (getViewModel (Workbench.debugService Examples.withProcessFocused))
     = Some Examples.process1
  /\ Workbench.callsOf Variables
       (Workbench.step Examples.withProcessFocused (Workbench.DidFocusStackFrame Examples.stepped))
     = Workbench.callsOf Variables Examples.withProcessFocused
  /\ Workbench.callsOf WatchExpressions
       (Workbench.step Examples.withProcessFocused (Workbench.DidFocusStackFrame Examples.stepped))
     = Workbench.callsOf WatchExpressions Examples.withProcessFocused
  /\ Workbench.callsOf Breakpoints
       (Workbench.step Examples.withProcessFocused (Workbench.DidFocusStackFrame Examples.stepped))
     = Workbench.callsOf Breakpoints Examples.withProcessFocused.
Proof. vm_compute. repeat split. Qed.

(** ** Promise chains *)

Section PromiseFacts.
Context {Tree : Type} `{!ITree Tree}.
Implicit Types (s : Traced Tree).

Lemma async_fulfilled (c : Call) (op : Tree -> option Err * Tree) s tr' :
  op (tree s) = (None, tr') ->
  async c op s = (inr tt, {| tree := tr'; calls := calls s ++ [(c, None)] |}).
Proof. intros Hop. unfold async. by rewrite Hop. Qed.

Lemma async_rejected (c : Call) (op : Tree -> option Err * Tree) s err tr' :
  op (tree s) = (Some err, tr') ->
  async c op s = (inl err, {| tree := tr'; calls := calls s ++ [(c, Some err)] |}).
Proof. intros Hop. unfold async. by rewrite Hop. Qed.

Lemma then_fulfilled {A B} (p : TPromise A) (f : A -> TPromise B) s a s' :
  p s = (inr a, s') -> then_ p f s = f a s'.
Proof. intros Hp. unfold then_. by rewrite Hp. Qed.

Lemma then_rejected {A B} (p : TPromise A) (f : A -> TPromise B) s err s' :
  p s = (inl err, s') -> then_ p f s = (inl err, s').
Proof. intros Hp. unfold then_. by rewrite Hp. Qed.
End PromiseFacts.

(** ** The variables view: the debounced refresh *)

Section VariablesRefresh.
Context {Tree : Type} `{!ITree Tree} {Panel : Type} `{!IViewletPanel Panel}.
Implicit Types (s : Traced Tree).

Lemma restoreCalls_all (es : list Element) (tr restored : Tree) (made : list Entry) :
  Stated.restoreCalls es tr = (made, Some restored) ->
  made = (fun e => (CExpand e, None)) <$> es.
Proof.
  revert tr made. induction es as [| e es IH]; intros tr made Hrun; simpl in *.
  - by inversion Hrun.
  - destruct (expand e tr) as [[err |] tr']; [discriminate |].
    destruct (Stated.restoreCalls es tr') as [made' after] eqn:Hrest.
    inversion Hrun; subst. f_equal. eapply IH, Hrest.
Qed.

Lemma sequence_restore (es : list Element) s :
  calls (snd (sequence ((fun e => async (CExpand e) (expand e)) <$> es) s))
  = calls s ++ fst (Stated.restoreCalls es (tree s))
  /\ match snd (Stated.restoreCalls es (tree s)) with
     | Some restored =>
         fst (sequence ((fun e => async (CExpand e) (expand e)) <$> es) s) = inr tt
         /\ tree (snd (sequence ((fun e => async (CExpand e) (expand e)) <$> es) s)) = restored
     | None =>
         exists err, fst (sequence ((fun e => async (CExpand e) (expand e)) <$> es) s) = inl err
     end.
Proof.
  revert s. induction es as [| e es IH]; intros s.
  - simpl. by rewrite app_nil_r.
  - rewrite fmap_cons. cbn [sequence Stated.restoreCalls].
    destruct (expand e (tree s)) as [[err |] tr'] eqn:Hexp.
    + erewrite then_rejected by (by apply async_rejected).
      simpl. split; [done | by exists err].
    + erewrite then_fulfilled by (by apply async_fulfilled).
      specialize (IH {| tree := tr'; calls := calls s ++ [(CExpand e, None)] |}).
      simpl in IH. destruct IH as [Hcalls Hres].
      destruct (Stated.restoreCalls es tr') as [made after]; simpl in *.
      split; [by rewrite Hcalls, <- app_assoc | exact Hres].
Qed.

Lemma onFocusStackFrame_calls (ds : IDebugService) (v : VariablesView.t Tree Panel)
    (k : Errors.Sink) :
  calls (VariablesView.widget (fst (VariablesView.onFocusStackFrame ds v k)))
  = calls (VariablesView.widget v)
    ++ Stated.refreshCalls ds (VariablesView.expandedElements v) (tree (VariablesView.widget v))
  /\ VariablesView.expandedElements (fst (VariablesView.onFocusStackFrame ds v k))
     = Stated.preserved (VariablesView.expandedElements v) (tree (VariablesView.widget v)).
Proof.
  assert (Hkept :
    (if (0 <? length (getExpandedElements (tree (VariablesView.widget v))))%nat
     then getExpandedElements (tree (VariablesView.widget v))
     else VariablesView.expandedElements v)
    = Stated.preserved (VariablesView.expandedElements v) (tree (VariablesView.widget v))).
  { unfold Stated.preserved. by destruct (getExpandedElements _). }
  split.
  2: { unfold VariablesView.onFocusStackFrame. rewrite Hkept.
       by destruct (done_ _ _ _). }
  unfold VariablesView.onFocusStackFrame. rewrite Hkept.
  set (es := Stated.preserved _ _).
  unfold Stated.refreshCalls. fold es.
  set (s0 := sync CClearHighlight clearHighlight (VariablesView.widget v)).
  assert (Hs0 : calls s0 = calls (VariablesView.widget v) ++ [(CClearHighlight, None)])
    by reflexivity.
  change (clearHighlight (tree (VariablesView.widget v))) with (tree s0).
  unfold done_.
  destruct (refresh None (tree s0)) as [[err |] refreshed] eqn:Href.
  { erewrite then_rejected by (by apply async_rejected).
    simpl. rewrite <- ?app_assoc; reflexivity. }
  erewrite then_fulfilled by (by apply async_fulfilled).
  set (s1 := {| tree := refreshed; calls := _ |}).
  pose proof (sequence_restore es s1) as [Hcalls Hres].
  change (tree s1) with refreshed in *.
  destruct (Stated.restoreCalls es refreshed) as [made after]; simpl in Hcalls, Hres.
  assert (Hprefix :
    calls (snd (sequence ((fun e => async (CExpand e) (expand e)) <$> es) s1))
    = calls (VariablesView.widget v)
      ++ (CClearHighlight, None) :: (CRefresh None, None) :: made).
  { rewrite Hcalls. rewrite <- ?app_assoc; reflexivity. }
  destruct (sequence _ s1) as [[err | []] s2] eqn:Hseq; simpl in Hprefix, Hres.
  { erewrite then_rejected by exact Hseq.
    destruct after as [restored |]; [by destruct Hres |].
    simpl. by rewrite Hprefix, app_nil_r. }
  erewrite then_fulfilled by exact Hseq.
  destruct after as [restored |]; [| by destruct Hres].
  destruct Hres as [_ Htree].
  unfold Stated.defaultExpansion.
  destruct (focusedStackFrame (getViewModel ds)) as [frame |]; simpl.
  2: { rewrite Hprefix, app_nil_r. reflexivity. }
  rewrite Htree.
  destruct (getExpandedElements restored) as [| x xs]; simpl.
  2: { rewrite Hprefix, app_nil_r. reflexivity. }
  unfold then_, requestScopes. simpl.
  destruct (getScopes frame) as [err | [| first scopes]]; simpl.
  - rewrite Hprefix. rewrite <- ?app_assoc; reflexivity.
  - rewrite Hprefix. rewrite <- ?app_assoc; reflexivity.
  - destruct (expensive first); simpl.
    + rewrite Hprefix. rewrite <- ?app_assoc; reflexivity.
    + unfold async. simpl. rewrite Htree.
      destruct (expand (ElScope (scopeRef first)) restored) as [[err |] tr']; simpl;
        rewrite Hprefix; rewrite <- ?app_assoc; reflexivity.
Qed.

(** C3. When the debounced action of the variables view fires, the view
    clears the highlight and refreshes the tree; if the refresh was not
    rejected it re-expands, one after the other, every preserved
    element (the elements expanded at that moment or, if there are none,
    those kept from before); and if no re-expansion was rejected it
    performs the default expansion: with a focused stack frame and no
    element expanded in the tree it fetches the scopes of the frame and
    expands the first one when there is one and it is not expensive. In
    every other case no default expansion is made. *)
Theorem variables_refresh (ds : IDebugService) (v : VariablesView.t Tree Panel) (k : Errors.Sink) :
  calls (VariablesView.widget (fst (VariablesView.onFocusStackFrame ds v k)))
  = calls (VariablesView.widget v)
    ++ Stated.refreshCalls ds (VariablesView.expandedElements v) (tree (VariablesView.widget v))
  /\ VariablesView.expandedElements (fst (VariablesView.onFocusStackFrame ds v k))
     = Stated.preserved (VariablesView.expandedElements v) (tree (VariablesView.widget v))
  /\ (forall es tr restored made,
        Stated.restoreCalls es tr = (made, Some restored) ->
        made = (fun e => (CExpand e, None)) <$> es).
Proof.
  destruct (onFocusStackFrame_calls ds v k) as [Hcalls Hkept].
  split; [exact Hcalls | split; [exact Hkept |]].
  intros es tr restored made. apply restoreCalls_all.
Qed.
End VariablesRefresh.

(** ** Failures go to the sink *)

Section ErrorRouting.
Context {Tree : Type} `{!ITree Tree} {Panel : Type} `{!IViewletPanel Panel}.
Implicit Types (s : Traced Tree) (k : Errors.Sink).

Lemma failures_app (l1 l2 : list Entry) :
  Stated.failures (l1 ++ l2) = Stated.failures l1 ++ Stated.failures l2.
Proof. apply omap_app. Qed.

Lemma failures_none_last (made early late : list Entry) (x : Entry) :
  Stated.failures made = [] -> made = early ++ x :: late -> is_Some (snd x) -> late = [].
Proof.
  intros Hnone -> [err Herr]. rewrite failures_app in Hnone.
  apply app_eq_nil in Hnone as [_ Hnone].
  unfold Stated.failures in Hnone. simpl in Hnone. by rewrite Herr in Hnone.
Qed.

Lemma failures_one_last (before made early late : list Entry) (c : Call) (err : Err) (x : Entry) :
  Stated.failures before = [] ->
  made = before ++ [(c, Some err)] ->
  made = early ++ x :: late -> is_Some (snd x) -> late = [].
Proof.
  intros Hnone -> Hsplit Hx.
  destruct late as [| y late] using rev_ind; [done |].
  exfalso. clear IHlate.
  rewrite app_comm_cons, app_assoc in Hsplit.
  apply app_inj_tail in Hsplit as [Hbefore _].
  destruct Hx as [e He]. rewrite Hbefore, failures_app in Hnone.
  apply app_eq_nil in Hnone as [_ Hnone].
  unfold Stated.failures in Hnone. simpl in Hnone. by rewrite He in Hnone.
Qed.

Lemma orderly_as {A} (a : A) : Stated.orderly (as_ (Tree := Tree) a).
Proof. intros s. exists []. simpl. by rewrite app_nil_r. Qed.

Lemma orderly_async (c : Call) (op : Tree -> option Err * Tree) : Stated.orderly (async c op).
Proof.
  intros s. unfold async. destruct (op (tree s)) as [[err |] tr']; simpl.
  - exists [(c, Some err)]. split; [done |]. by exists [], c.
  - by exists [(c, None)].
Qed.

Lemma orderly_requestScopes (frame : StackFrame) :
  Stated.orderly (requestScopes (Tree := Tree) frame).
Proof.
  intros s. unfold requestScopes. simpl. eexists [_]. split; [reflexivity |].
  destruct (getScopes frame) as [err | scopes]; [by exists [], (CGetScopes (frameRef frame)) | done].
Qed.

Lemma orderly_then {A B} (p : TPromise A) (f : A -> TPromise (Tree := Tree) B) :
  Stated.orderly p -> (forall a, Stated.orderly (f a)) -> Stated.orderly (then_ p f).
Proof.
  intros Hp Hf s. unfold then_.
  destruct (Hp s) as (made & Hcalls & Hres).
  destruct (p s) as [[err | a] s']; simpl in *.
  - exists made. by split.
  - destruct (Hf a s') as (made' & Hcalls' & Hres').
    exists (made ++ made'). split; [by rewrite Hcalls', Hcalls, app_assoc |].
    destruct (f a s') as [[err | b] s'']; simpl in *.
    + destruct Hres' as (early & c & -> & Hearly).
      exists (made ++ early), c. split; [by rewrite app_assoc |].
      by rewrite failures_app, Hres, Hearly.
    + by rewrite failures_app, Hres, Hres'.
Qed.

Lemma orderly_sequence (factories : list (TPromise (Tree := Tree) unit)) :
  Forall Stated.orderly factories -> Stated.orderly (sequence factories).
Proof.
  induction 1 as [| p rest Hp _ IH]; simpl.
  - apply orderly_as.
  - apply orderly_then; [exact Hp | intros _; exact IH].
Qed.

(** A synchronous call followed by [once(...)], as in the three
    selection handlers. *)
Lemma orderly_highlight (e : Element) :
  Stated.orderly (fun s : Traced Tree =>
    (inr tt, sync COnceDidChangeHighlight id (sync (CSetHighlight e) (setHighlight e) s))).
Proof. intros s. simpl. eexists [_; _]. split; [by rewrite <- app_assoc | done]. Qed.

Lemma orderly_updateTreeSelection (ds : IDebugService) :
  Stated.orderly (CallStackView.updateTreeSelection (Tree := Tree) ds).
Proof.
  intros s. unfold CallStackView.updateTreeSelection.
  destruct (getInput (tree s)) as [current |]; [| apply orderly_as].
  destruct (focusedThread (getViewModel ds)) as [th |].
  - apply orderly_then; [apply orderly_async |]. intros _ s'.
    destruct (focusedStackFrame (getViewModel ds)) as [frame |]; [| apply orderly_as].
    destruct (orderly_async (CReveal (ElStackFrame (frameRef frame)))
                (reveal (ElStackFrame (frameRef frame)))
                (sync (CSetSelection [ElStackFrame (frameRef frame)])
                      (setSelection [ElStackFrame (frameRef frame)]) s'))
      as (made & Hcalls & Hres).
    exists ((CSetSelection [ElStackFrame (frameRef frame)], None) :: made).
    split; [rewrite Hcalls; simpl; rewrite <- ?app_assoc; reflexivity |].
    destruct (fst _) as [err | a]; [| exact Hres].
    destruct Hres as (early & c & -> & Hearly).
    by exists ((CSetSelection [ElStackFrame (frameRef frame)], None) :: early), c.
  - destruct (focusedProcess (getViewModel ds)) as [p |].
    + destruct (orderly_async (CReveal (ElProcess (processRef p)))
                  (reveal (ElProcess (processRef p)))
                  (sync (CSetSelection [ElProcess (processRef p)])
                        (setSelection [ElProcess (processRef p)]) s))
        as (made & Hcalls & Hres).
      exists ((CSetSelection [ElProcess (processRef p)], None) :: made).
      split; [rewrite Hcalls; simpl; rewrite <- ?app_assoc; reflexivity |].
      destruct (fst _) as [err | a]; [| exact Hres].
      destruct Hres as (early & c & -> & Hearly).
      by exists ((CSetSelection [ElProcess (processRef p)], None) :: early), c.
    + simpl. by exists [(CClearSelection, None)].
Qed.

Lemma done_routed {A} (p : TPromise A) s k :
  Stated.orderly p ->
  Stated.routed (calls s) k (calls (fst (done_ p s k))) (snd (done_ p s k)).
Proof.
  intros Hp. unfold done_. destruct (Hp s) as (made & Hcalls & Hres).
  exists made. destruct (p s) as [[err | a] s']; simpl in *.
  - destruct Hres as (early & c & -> & Hearly). repeat split; [done | |].
    + rewrite failures_app, Hearly. reflexivity.
    + intros e x late. by eapply failures_one_last.
  - repeat split; [done | by rewrite Hres, app_nil_r |].
    intros e x late. by apply failures_none_last.
Qed.

Lemma dropped_routed {A} (p : TPromise A) s k :
  Stated.orderly p ->
  Stated.routed (calls s) k (calls (fst (dropped p s k))) (snd (dropped p s k)).
Proof. apply done_routed. Qed.

Lemma doneWith_routed {A B} (p : TPromise A) (f : A -> TPromise B) s k :
  Stated.orderly p -> (forall a, Stated.orderly (f a)) ->
  Stated.routed (calls s) k (calls (fst (doneWith p f s k))) (snd (doneWith p f s k)).
Proof.
  intros Hp Hf.
  assert (Hsame : doneWith p f s k = done_ (then_ p f) s k).
  { unfold doneWith, done_, then_. destruct (p s) as [[err | a] s']; [done |].
    by destruct (f a s') as [[err | b] s'']. }
  rewrite Hsame. by apply done_routed, orderly_then.
Qed.

Lemma routed_after_sync (c : Call) (before after : list Entry) k k' :
  Stated.routed (before ++ [(c, None)]) k after k' -> Stated.routed before k after k'.
Proof.
  intros (made & -> & -> & Hlast). exists ((c, None) :: made).
  repeat split; [by rewrite <- app_assoc |].
  intros early x late Hsplit Hx. destruct early as [| y early]; simpl in Hsplit.
  - inversion Hsplit; subst. by destruct Hx.
  - inversion Hsplit; subst. by eapply Hlast.
Qed.

Lemma routed_refl (before : list Entry) k : Stated.routed before k before k.
Proof.
  exists []. rewrite !app_nil_r. repeat split.
  intros early x late Hsplit. by destruct early.
Qed.

Lemma orderly_variables_chain (ds : IDebugService) (remembered : list Element) :
  Stated.orderly (Tree := Tree)
    (then_ (async (CRefresh None) (refresh None)) (fun _ =>
      let stackFrame := focusedStackFrame (getViewModel ds) in
      then_ (sequence ((fun e => async (CExpand e) (expand e)) <$> remembered)) (fun _ =>
        fun s =>
          match stackFrame with
          | Some frame =>
              if (length (getExpandedElements (tree s)) =? 0)%nat then
                then_ (requestScopes frame) (fun scopes =>
                  match scopes with
                  | first :: _ =>
                      if negb (expensive first) then
                        async (CExpand (ElScope (scopeRef first)))
                              (expand (ElScope (scopeRef first)))
                      else as_ tt
                  | [] => as_ tt
                  end) s
              else as_ tt s
          | None => as_ tt s
          end))).
Proof.
  apply orderly_then; [apply orderly_async |]. intros _. simpl.
  apply orderly_then.
  { apply orderly_sequence, Forall_fmap, Forall_forall. intros e _. apply orderly_async. }
  intros _ s. destruct (focusedStackFrame (getViewModel ds)) as [frame |]; [| apply orderly_as].
  destruct (length (getExpandedElements (tree s)) =? 0)%nat; [| apply orderly_as].
  apply orderly_then; [apply orderly_requestScopes |].
  intros [| first scopes]; [apply orderly_as |].
  destruct (negb (expensive first)); [apply orderly_async | apply orderly_as].
Qed.

(** C6. In each of the four views every handler that starts an
    asynchronous tree operation (the three debounced refreshes, the
    selection handlers, the focus handler and the input update of the
    call stack view, the refresh of the breakpoints view and the first
    [setInput] of a rendered view) hands the unexpected-error sink
    exactly the rejections of the calls it made, returns to its caller,
    and makes no further call once a call was rejected. *)
Theorem failures_reach_the_sink (ds : IDebugService) (k : Errors.Sink) :
  (forall v : VariablesView.t Tree Panel,
     Stated.routed (calls (VariablesView.widget v)) k
       (calls (VariablesView.widget (fst (VariablesView.onFocusStackFrame ds v k))))
       (snd (VariablesView.onFocusStackFrame ds v k)))
  /\ (forall (v : VariablesView.t Tree Panel) expression,
        Stated.routed (calls (VariablesView.widget v)) k
          (calls (VariablesView.widget (fst (VariablesView.onDidSelectExpression expression v k))))
          (snd (VariablesView.onDidSelectExpression expression v k)))
  /\ (forall v : WatchExpressionsView.t Tree Panel,
        Stated.routed (calls (WatchExpressionsView.widget v)) k
          (calls (WatchExpressionsView.widget (fst (WatchExpressionsView.onWatchExpressionsUpdated v k))))
          (snd (WatchExpressionsView.onWatchExpressionsUpdated v k)))
  /\ (forall (v : WatchExpressionsView.t Tree Panel) expression,
        Stated.routed (calls (WatchExpressionsView.widget v)) k
          (calls (WatchExpressionsView.widget
                    (fst (WatchExpressionsView.onDidSelectExpression expression v k))))
          (snd (WatchExpressionsView.onDidSelectExpression expression v k)))
  /\ (forall v : CallStackView.t Tree Panel,
        Stated.routed (calls (CallStackView.widget v)) k
          (calls (CallStackView.widget (fst (CallStackView.onCallStackChange ds v k))))
          (snd (CallStackView.onCallStackChange ds v k)))
  /\ (forall v : CallStackView.t Tree Panel,
        Stated.routed (calls (CallStackView.widget v)) k
          (calls (CallStackView.widget (fst (CallStackView.onDidFocusStackFrame ds v k))))
          (snd (CallStackView.onDidFocusStackFrame ds v k)))
  /\ (forall v : BreakpointsView.t Tree Panel,
        Stated.routed (BreakpointsView.madeCalls v) k
          (BreakpointsView.madeCalls (fst (BreakpointsView.onBreakpointsChange ds v k)))
          (snd (BreakpointsView.onBreakpointsChange ds v k)))
  /\ (forall (v : BreakpointsView.t Tree Panel) fbp,
        Stated.routed (BreakpointsView.madeCalls v) k
          (BreakpointsView.madeCalls (fst (BreakpointsView.onDidSelectFunctionBreakpoint fbp v k)))
          (snd (BreakpointsView.onDidSelectFunctionBreakpoint fbp v k)))
  /\ (forall p : Panel,
        Stated.routed [] k
          (calls (VariablesView.widget (fst (VariablesView.create (Tree := Tree) p k))))
          (snd (VariablesView.create (Tree := Tree) p k))
        /\ Stated.routed [] k
             (calls (WatchExpressionsView.widget (fst (WatchExpressionsView.create (Tree := Tree) p k))))
             (snd (WatchExpressionsView.create (Tree := Tree) p k))
        /\ Stated.routed [] k
             (BreakpointsView.madeCalls
                (fst (BreakpointsView.renderBody (BreakpointsView.constructor (Tree := Tree) ds p) k)))
             (snd (BreakpointsView.renderBody (BreakpointsView.constructor (Tree := Tree) ds p) k))).
Proof.
  repeat apply conj.
  - intros v. unfold VariablesView.onFocusStackFrame.
    match goal with |- context [done_ ?p ?s k] =>
      pose proof (done_routed p s k (orderly_variables_chain ds _)) as Hr;
      destruct (done_ p s k) end.
    eapply routed_after_sync, Hr.
  - intros v [[r | r | r] |]; simpl; try apply routed_refl.
    match goal with |- context [done_ ?p ?s k] =>
      pose proof (done_routed p s k) as Hr; destruct (done_ p s k) end.
    apply Hr, orderly_then; [apply orderly_async | intros _; apply orderly_highlight].
  - intros v. unfold WatchExpressionsView.onWatchExpressionsUpdated.
    match goal with |- context [doneWith ?p ?f ?s k] =>
      pose proof (doneWith_routed p f s k) as Hr; destruct (doneWith p f s k) end.
    apply Hr; [apply orderly_async |]. intros _.
    destruct (WatchExpressionsView.toReveal v) as [[r | r | r] |];
      first [apply orderly_async | apply orderly_as].
  - intros v [[r | r | r] |]; simpl; try apply routed_refl.
    match goal with |- context [done_ ?p ?s k] =>
      pose proof (done_routed p s k) as Hr; destruct (done_ p s k) end.
    apply Hr, orderly_then; [apply orderly_async | intros _; apply orderly_highlight].
  - intros v. unfold CallStackView.onCallStackChange.
    match goal with |- context [doneWith ?p ?f ?s k] =>
      pose proof (doneWith_routed p f s k) as Hr; destruct (doneWith p f s k) end.
    apply Hr; [| intros _; apply orderly_updateTreeSelection].
    intros s0. destruct (decide _); apply orderly_async.
  - intros v. unfold CallStackView.onDidFocusStackFrame.
    match goal with |- context [done_ ?p ?s k] =>
      pose proof (done_routed p s k) as Hr; destruct (done_ p s k) end.
    apply Hr, orderly_updateTreeSelection.
  - intros v. unfold BreakpointsView.onBreakpointsChange, BreakpointsView.madeCalls.
    destruct (BreakpointsView.widget v) as [s |]; [| apply routed_refl].
    match goal with |- context [dropped ?p ?s k] =>
      pose proof (dropped_routed p s k) as Hr; destruct (dropped p s k) end.
    apply Hr, orderly_async.
  - intros v fbp.
    unfold BreakpointsView.onDidSelectFunctionBreakpoint, BreakpointsView.madeCalls.
    destruct fbp as [[f | r name | u l c] |]; try apply routed_refl.
    destruct (BreakpointsView.widget v) as [s |] eqn:Hwidget; simpl;
      [| rewrite Hwidget; apply routed_refl].
    match goal with |- context [done_ ?p ?s k] =>
      pose proof (done_routed p s k) as Hr; destruct (done_ p s k) end.
    apply Hr, orderly_then; [apply orderly_async | intros _; apply orderly_highlight].
  - intros p0. repeat apply conj.
    + unfold VariablesView.create.
      match goal with |- context [dropped ?p ?s k] =>
        pose proof (dropped_routed p s k) as Hr; destruct (dropped p s k) end.
      apply Hr, orderly_async.
    + unfold WatchExpressionsView.create.
      match goal with |- context [dropped ?p ?s k] =>
        pose proof (dropped_routed p s k) as Hr; destruct (dropped p s k) end.
      apply Hr, orderly_async.
    + unfold BreakpointsView.renderBody, BreakpointsView.madeCalls.
      match goal with |- context [dropped ?p ?s k] =>
        pose proof (dropped_routed p s k) as Hr; destruct (dropped p s k) end.
      apply Hr, orderly_async.
Qed.
End ErrorRouting.

(** ** Scheduling *)

Section Scheduling.
Context {Tree : Type} `{!ITree Tree} {Panel : Type} `{!IViewletPanel Panel}.

(** [schedule] drops the timer the scheduler waits for, if any, and
    queues a new one under a new token. *)
Lemma schedule_rearms (delay : option nat) (s : RunOnceScheduler.t) (l : EventLoop.t) :
  RunOnceScheduler.schedule delay s l
  = ({| RunOnceScheduler.timeoutHandler := RunOnceScheduler.timeoutHandler s;
        RunOnceScheduler.timeout := RunOnceScheduler.timeout s;
        RunOnceScheduler.timeoutToken := Some (EventLoop.nextTimerId l) |},
     {| EventLoop.timers :=
          match RunOnceScheduler.timeoutToken s with
          | Some token => filter (fun x => EventLoop.timerId x ≠ token) (EventLoop.timers l)
          | None => EventLoop.timers l
          end
          ++ [ {| EventLoop.timerId := EventLoop.nextTimerId l;
                  EventLoop.callback := RunOnceScheduler.timeoutHandler s;
                  EventLoop.remaining := default (RunOnceScheduler.timeout s) delay |} ];
        EventLoop.nextTimerId := S (EventLoop.nextTimerId l) |}).
Proof.
  unfold RunOnceScheduler.schedule, RunOnceScheduler.cancel.
  by destruct (RunOnceScheduler.timeoutToken s).
Qed.

(** C2 (as amended). A change notification that arrives while a refresh
    is scheduled leaves the scheduler and the timer queue of the watch
    expressions view and of the call stack view as they are: their
    handlers test [isScheduled()] first. The focus handler of the
    variables view calls [schedule] on every notification, scheduled or
    not: the timer the scheduler waits for is dropped and a new one is
    queued, of 0 ms when the tree has no content height or the focus
    change is explicit, and of the default delay otherwise. *)
Theorem notification_while_scheduled :
  (forall (we : option IExpression) (v : WatchExpressionsView.t Tree Panel) (l : EventLoop.t),
     RunOnceScheduler.isScheduled (WatchExpressionsView.onWatchExpressionsUpdatedScheduler v) = true ->
     WatchExpressionsView.onWatchExpressionsUpdatedScheduler
       (fst (WatchExpressionsView.onDidChangeWatchExpressions we v l))
     = WatchExpressionsView.onWatchExpressionsUpdatedScheduler v
     /\ snd (WatchExpressionsView.onDidChangeWatchExpressions we v l) = l)
  /\ (forall (v : CallStackView.t Tree Panel) (l : EventLoop.t),
        RunOnceScheduler.isScheduled (CallStackView.onCallStackChangeScheduler v) = true ->
        CallStackView.onDidChangeCallStack v l = (v, l))
  /\ (forall (sf : VariablesView.FocusEvent) (v : VariablesView.t Tree Panel) (l : EventLoop.t),
        let s := VariablesView.onFocusStackFrameScheduler v in
        let delay :=
          if (getContentHeight (tree (VariablesView.widget v)) =? 0)%nat || VariablesView.explicit sf
          then 0%nat else RunOnceScheduler.timeout s in
        RunOnceScheduler.timeoutToken
          (VariablesView.onFocusStackFrameScheduler (fst (VariablesView.onDidFocusStackFrame sf v l)))
        = Some (EventLoop.nextTimerId l)
        /\ EventLoop.timers (snd (VariablesView.onDidFocusStackFrame sf v l))
           = match RunOnceScheduler.timeoutToken s with
             | Some token => filter (fun x => EventLoop.timerId x ≠ token) (EventLoop.timers l)
             | None => EventLoop.timers l
             end
             ++ [ {| EventLoop.timerId := EventLoop.nextTimerId l;
                     EventLoop.callback := RunOnceScheduler.timeoutHandler s;
                     EventLoop.remaining := delay |} ]).
Proof.
  repeat apply conj.
  - intros we v l Hscheduled.
    unfold WatchExpressionsView.onDidChangeWatchExpressions. by rewrite Hscheduled.
  - intros v l Hscheduled.
    unfold CallStackView.onDidChangeCallStack. rewrite Hscheduled. simpl. by destruct v.
  - intros sf v l. simpl. unfold VariablesView.onDidFocusStackFrame.
    rewrite !schedule_rearms. by destruct (_ || _).
Qed.
End Scheduling.

(** C2 as it is stated fails for the variables view. Stepping moved the
    focus 300 ms ago and the refresh is due in 100 ms; the tree is visible
    and the next focus change is not an explicit one. The notification
    replaces the pending timer by a new one that is due in 400 ms. *)
Lemma variables_view_restarts_its_timer :
  VariablesView.explicit Examples.stepped = false
  /\ getContentHeight (tree (VariablesView.widget (Workbench.variablesView Examples.afterStepping)))
     = 100%nat
  /\ Workbench.pendingRefreshes Variables Examples.afterStepping
     = [ {| EventLoop.timerId := 0; EventLoop.callback := Variables; EventLoop.remaining := 100 |} ]
  /\ Workbench.pendingRefreshes Variables
       (Workbench.step Examples.afterStepping (Workbench.DidFocusStackFrame Examples.stepped))
     = [ {| EventLoop.timerId := 1; EventLoop.callback := Variables; EventLoop.remaining := 400 |} ].
Proof. vm_compute. repeat split. Qed.

(** ** The timer queue *)

Section TimerFacts.
Implicit Types (l : list EventLoop.Timer) (x y : EventLoop.Timer) (v u : ViewId).

Lemma filter_all {A} (P : A -> Prop) `{!forall a, Decision (P a)} (l : list A) :
  Forall P l -> filter P l = l.
Proof.
  induction 1 as [| a l Ha _ IH]; [done |].
  by rewrite filter_cons_True, IH.
Qed.

Lemma filter_swap {A} (P Q : A -> Prop) `{!forall a, Decision (P a)} `{!forall a, Decision (Q a)}
    (l : list A) :
  filter P (filter Q l) = filter Q (filter P l).
Proof.
  rewrite !list_filter_filter. apply list_filter_iff. tauto.
Qed.

Lemma ids_filter (P : EventLoop.Timer -> Prop) `{!forall x, Decision (P x)} l :
  NoDup (EventLoop.timerId <$> l) -> NoDup (EventLoop.timerId <$> filter P l).
Proof.
  intros Hl. eapply sublist_NoDup; [exact Hl |].
  apply fmap_sublist, sublist_filter.
Qed.

Lemma ids_tick dt l : EventLoop.timerId <$> (EventLoop.tick dt <$> l) = EventLoop.timerId <$> l.
Proof. rewrite <- list_fmap_compose. by apply list_fmap_ext. Qed.

Lemma owned_tick v dt l :
  filter (fun x => EventLoop.callback x = v) (EventLoop.tick dt <$> l)
  = EventLoop.tick dt <$> filter (fun x => EventLoop.callback x = v) l.
Proof.
  induction l as [| x l IH]; [done |].
  rewrite fmap_cons, !filter_cons. simpl.
  destruct (decide (EventLoop.callback x = v)); by rewrite IH.
Qed.

Lemma unique_id l x y :
  NoDup (EventLoop.timerId <$> l) -> x ∈ l -> y ∈ l ->
  EventLoop.timerId x = EventLoop.timerId y -> x = y.
Proof.
  induction l as [| z l IH]; intros Hnodup Hx Hy Hid; [by apply elem_of_nil in Hx |].
  rewrite fmap_cons in Hnodup. apply NoDup_cons in Hnodup as [Hz Hnodup].
  apply elem_of_cons in Hx as [-> | Hx]; apply elem_of_cons in Hy as [-> | Hy]; try done.
  - exfalso. apply Hz. rewrite Hid. by apply list_elem_of_fmap_2.
  - exfalso. apply Hz. rewrite <- Hid. by apply list_elem_of_fmap_2.
  - by apply IH.
Qed.

Lemma insertByDeadline_perm x l : EventLoop.insertByDeadline x l ≡ₚ x :: l.
Proof.
  induction l as [| y l IH]; simpl; [done |].
  destruct (_ <=? _)%nat; [done |]. rewrite IH. apply Permutation_swap.
Qed.

Lemma byDeadline_perm l : EventLoop.byDeadline l ≡ₚ l.
Proof.
  induction l as [| x l IH]; simpl; [done |].
  by rewrite insertByDeadline_perm, IH.
Qed.

(** The views whose timer comes due within [dt]. *)
Lemma fired_callbacks dt (loop : EventLoop.t) v :
  v ∈ EventLoop.callback <$> fst (EventLoop.elapse dt loop)
  <-> filter (EventLoop.isDue dt)
        (filter (fun x => EventLoop.callback x = v) (EventLoop.timers loop)) <> [].
Proof.
  unfold EventLoop.elapse. simpl. rewrite byDeadline_perm. split.
  - intros (x & -> & Hx)%list_elem_of_fmap.
    apply list_elem_of_filter in Hx as [Hdue Hx].
    intros Hnone. eapply filter_nil_not_elem_of; [exact Hnone | exact Hdue |].
    by apply list_elem_of_filter.
  - intros Hsome. destruct (filter _ (filter _ _)) as [| x rest] eqn:Hfilter; [done |].
    assert (Hx : x ∈ filter (EventLoop.isDue dt)
                   (filter (fun x => EventLoop.callback x = v) (EventLoop.timers loop)))
      by (rewrite Hfilter; left).
    apply list_elem_of_filter in Hx as [Hdue Hx].
    apply list_elem_of_filter in Hx as [Hcb Hx].
    apply list_elem_of_fmap. exists x. split; [done |]. by apply list_elem_of_filter.
Qed.
End TimerFacts.

Section Coherence.
Implicit Types (tokens : ViewId -> option nat) (l : EventLoop.t) (v u : ViewId).

Lemma coherent_schedule tokens l v (s : RunOnceScheduler.t) (delay : option nat) :
  Workbench.coherent tokens l ->
  tokens v = RunOnceScheduler.timeoutToken s ->
  RunOnceScheduler.timeoutHandler s = v ->
  Workbench.coherent
    (fun u => if decide (u = v) then Some (EventLoop.nextTimerId l) else tokens u)
    (snd (RunOnceScheduler.schedule delay s l)).
Proof.
  intros (Hnodup & Hbelow & Howned) Htoken Hhandler.
  rewrite schedule_rearms. simpl. rewrite Hhandler.
  set (fresh := {| EventLoop.timerId := EventLoop.nextTimerId l; EventLoop.callback := v;
                   EventLoop.remaining := default (RunOnceScheduler.timeout s) delay |}).
  set (kept := match RunOnceScheduler.timeoutToken s with
               | Some token => filter (fun x => EventLoop.timerId x ≠ token) (EventLoop.timers l)
               | None => EventLoop.timers l
               end).
  assert (Hsub : kept `sublist_of` EventLoop.timers l).
  { subst kept. destruct (RunOnceScheduler.timeoutToken s); [apply sublist_filter | done]. }
  assert (Hkept_below : Forall (fun x => (EventLoop.timerId x < EventLoop.nextTimerId l)%nat) kept).
  { eapply Forall_forall. intros x Hx. eapply Forall_forall in Hbelow; [exact Hbelow |].
    eapply elem_of_sublist; [exact Hx | exact Hsub]. }
  (* the timers of [v] are gone from [kept], those of the others stay *)
  assert (Hmine : filter (fun x => EventLoop.callback x = v) kept = []).
  { specialize (Howned v). rewrite Htoken in Howned. subst kept.
    destruct (RunOnceScheduler.timeoutToken s) as [token |]; [| exact Howned].
    destruct Howned as (x & Hx & Hid).
    rewrite filter_swap, Hx, filter_cons. by destruct (decide _). }
  assert (Hothers : forall u, u <> v ->
    filter (fun x => EventLoop.callback x = u) kept
    = filter (fun x => EventLoop.callback x = u) (EventLoop.timers l)).
  { intros u Hu. subst kept.
    destruct (RunOnceScheduler.timeoutToken s) as [token |] eqn:Hs; [| done].
    specialize (Howned v). rewrite Htoken in Howned. destruct Howned as (x & Hx & Hid).
    rewrite filter_swap. apply filter_all, Forall_forall.
    intros y Hy Hsame. apply list_elem_of_filter in Hy as [Hcb Hy].
    assert (Hxin : x ∈ EventLoop.timers l).
    { eapply (list_elem_of_filter (fun x => EventLoop.callback x = v)). rewrite Hx. left. }
    assert (Hxv : EventLoop.callback x = v).
    { eapply (list_elem_of_filter (fun x => EventLoop.callback x = v) (EventLoop.timers l)).
      rewrite Hx. left. }
    assert (y = x) by (eapply unique_id; eauto; congruence).
    congruence. }
  repeat split; simpl.
  - rewrite fmap_app. apply NoDup_app. repeat split.
    + eapply sublist_NoDup; [exact Hnodup | by apply fmap_sublist].
    + intros i (x & -> & Hx)%list_elem_of_fmap Hfresh.
      apply list_elem_of_singleton in Hfresh. simpl in Hfresh.
      eapply Forall_forall in Hkept_below; [| exact Hx]. lia.
    + apply NoDup_singleton.
  - apply Forall_app. split.
    + eapply Forall_impl; [exact Hkept_below |]. simpl. intros; lia.
    + apply Forall_singleton. simpl. lia.
  - intros u. rewrite filter_app. destruct (decide (u = v)) as [-> | Hu].
    + exists fresh. split; [| done].
      rewrite Hmine. simpl. rewrite filter_cons. simpl. by destruct (decide _).
    + rewrite Hothers by done.
      assert (Hnot : filter (fun x => EventLoop.callback x = u) [fresh] = []).
      { rewrite filter_cons. simpl. destruct (decide (v = u)); [congruence | done]. }
      rewrite Hnot, app_nil_r. apply Howned.
Qed.

Lemma coherent_elapse tokens l (dt : nat) :
  Workbench.coherent tokens l ->
  Workbench.coherent
    (fun u => if decide (u ∈ EventLoop.callback <$> fst (EventLoop.elapse dt l))
              then None else tokens u)
    (snd (EventLoop.elapse dt l)).
Proof.
  intros (Hnodup & Hbelow & Howned). repeat split.
  - simpl. rewrite ids_tick. by apply ids_filter.
  - simpl. apply Forall_fmap. eapply Forall_impl.
    + eapply Forall_forall. intros x Hx. apply list_elem_of_filter in Hx as [_ Hx].
      eapply Forall_forall in Hbelow; [exact Hbelow | exact Hx].
    + done.
  - intros u.
    pose proof (fired_callbacks dt l u) as Hfired.
    simpl. rewrite owned_tick, filter_swap.
    specialize (Howned u).
    destruct (decide (u ∈ _)) as [Hin | Hout].
    + apply Hfired in Hin.
      destruct (tokens u) as [token |].
      * destruct Howned as (x & Hx & Hid). rewrite Hx in Hin |- *.
        rewrite filter_cons in Hin. rewrite filter_cons.
        destruct (decide (EventLoop.isDue dt x)); [| done].
        by destruct (decide (¬ EventLoop.isDue dt x)).
      * by rewrite Howned.
    + destruct (tokens u) as [token |].
      * destruct Howned as (x & Hx & Hid). rewrite Hx.
        assert (Hnotdue : ¬ EventLoop.isDue dt x).
        { intros Hdue. apply Hout, Hfired. rewrite Hx, filter_cons.
          by destruct (decide (EventLoop.isDue dt x)). }
        exists (EventLoop.tick dt x). rewrite filter_cons.
        by destruct (decide (¬ EventLoop.isDue dt x)).
      * by rewrite Howned.
Qed.

Lemma coherent_ext tokens tokens' l :
  (forall v, tokens v = tokens' v) -> Workbench.coherent tokens l -> Workbench.coherent tokens' l.
Proof.
  intros Hext (Hnodup & Hbelow & Howned). repeat split; [done | done |].
  intros v. rewrite <- Hext. apply Howned.
Qed.

Lemma coherent_pending tokens l v :
  Workbench.coherent tokens l ->
  (length (filter (fun x => EventLoop.callback x = v) (EventLoop.timers l)) <= 1)%nat.
Proof.
  intros (_ & _ & Howned). specialize (Howned v).
  destruct (tokens v); [destruct Howned as (x & -> & _) | rewrite Howned]; simpl; lia.
Qed.
End Coherence.

(** ** What the handlers do to the schedulers *)

Section ViewSchedulers.
Context {Tree : Type} `{!ITree Tree} {Panel : Type} `{!IViewletPanel Panel}.
Implicit Types (k : Errors.Sink) (l : EventLoop.t).

Lemma variables_runner_scheduler ds (v : VariablesView.t Tree Panel) k :
  VariablesView.onFocusStackFrameScheduler (fst (VariablesView.onFocusStackFrame ds v k))
  = VariablesView.onFocusStackFrameScheduler v.
Proof. unfold VariablesView.onFocusStackFrame. by destruct (done_ _ _ _). Qed.

Lemma variables_timeout_scheduler ds (v : VariablesView.t Tree Panel) k :
  VariablesView.onFocusStackFrameScheduler (fst (VariablesView.onTimeout ds v k))
  = RunOnceScheduler.onTimeout (VariablesView.onFocusStackFrameScheduler v).
Proof. unfold VariablesView.onTimeout. by rewrite variables_runner_scheduler. Qed.

Lemma variables_select_scheduler expression (v : VariablesView.t Tree Panel) k :
  VariablesView.onFocusStackFrameScheduler (fst (VariablesView.onDidSelectExpression expression v k))
  = VariablesView.onFocusStackFrameScheduler v.
Proof.
  unfold VariablesView.onDidSelectExpression.
  destruct expression as [[r | r | r] |]; try done. by destruct (done_ _ _ _).
Qed.

Lemma variables_focus_schedules sf (v : VariablesView.t Tree Panel) l :
  (VariablesView.onFocusStackFrameScheduler (fst (VariablesView.onDidFocusStackFrame sf v l)),
   snd (VariablesView.onDidFocusStackFrame sf v l))
  = RunOnceScheduler.schedule
      (if (getContentHeight (tree (VariablesView.widget v)) =? 0)%nat || VariablesView.explicit sf
       then Some 0%nat else None)
      (VariablesView.onFocusStackFrameScheduler v) l.
Proof.
  unfold VariablesView.onDidFocusStackFrame.
  destruct (_ || _); by destruct (RunOnceScheduler.schedule _ _ _).
Qed.

Lemma watch_runner_scheduler (v : WatchExpressionsView.t Tree Panel) k :
  WatchExpressionsView.onWatchExpressionsUpdatedScheduler
    (fst (WatchExpressionsView.onWatchExpressionsUpdated v k))
  = WatchExpressionsView.onWatchExpressionsUpdatedScheduler v.
Proof. unfold WatchExpressionsView.onWatchExpressionsUpdated. by destruct (doneWith _ _ _ _). Qed.

Lemma watch_timeout_scheduler (v : WatchExpressionsView.t Tree Panel) k :
  WatchExpressionsView.onWatchExpressionsUpdatedScheduler (fst (WatchExpressionsView.onTimeout v k))
  = RunOnceScheduler.onTimeout (WatchExpressionsView.onWatchExpressionsUpdatedScheduler v).
Proof. unfold WatchExpressionsView.onTimeout. by rewrite watch_runner_scheduler. Qed.

Lemma watch_select_scheduler expression (v : WatchExpressionsView.t Tree Panel) k :
  WatchExpressionsView.onWatchExpressionsUpdatedScheduler
    (fst (WatchExpressionsView.onDidSelectExpression expression v k))
  = WatchExpressionsView.onWatchExpressionsUpdatedScheduler v.
Proof.
  unfold WatchExpressionsView.onDidSelectExpression.
  destruct expression as [[r | r | r] |]; try done. by destruct (done_ _ _ _).
Qed.

Lemma watch_change_schedules we (v : WatchExpressionsView.t Tree Panel) l :
  (WatchExpressionsView.onWatchExpressionsUpdatedScheduler
     (fst (WatchExpressionsView.onDidChangeWatchExpressions we v l)),
   snd (WatchExpressionsView.onDidChangeWatchExpressions we v l))
  = if RunOnceScheduler.isScheduled (WatchExpressionsView.onWatchExpressionsUpdatedScheduler v)
    then (WatchExpressionsView.onWatchExpressionsUpdatedScheduler v, l)
    else RunOnceScheduler.schedule None (WatchExpressionsView.onWatchExpressionsUpdatedScheduler v) l.
Proof.
  unfold WatchExpressionsView.onDidChangeWatchExpressions.
  destruct (RunOnceScheduler.isScheduled _); simpl; [done |].
  by destruct (RunOnceScheduler.schedule _ _ _).
Qed.

Lemma callstack_runner_scheduler ds (v : CallStackView.t Tree Panel) k :
  CallStackView.onCallStackChangeScheduler (fst (CallStackView.onCallStackChange ds v k))
  = CallStackView.onCallStackChangeScheduler v.
Proof. unfold CallStackView.onCallStackChange. by destruct (doneWith _ _ _ _). Qed.

Lemma callstack_timeout_scheduler ds (v : CallStackView.t Tree Panel) k :
  CallStackView.onCallStackChangeScheduler (fst (CallStackView.onTimeout ds v k))
  = RunOnceScheduler.onTimeout (CallStackView.onCallStackChangeScheduler v).
Proof. unfold CallStackView.onTimeout. by rewrite callstack_runner_scheduler. Qed.

Lemma callstack_focus_scheduler ds (v : CallStackView.t Tree Panel) k :
  CallStackView.onCallStackChangeScheduler (fst (CallStackView.onDidFocusStackFrame ds v k))
  = CallStackView.onCallStackChangeScheduler v.
Proof. unfold CallStackView.onDidFocusStackFrame. by destruct (done_ _ _ _). Qed.

Lemma callstack_change_schedules (v : CallStackView.t Tree Panel) l :
  (CallStackView.onCallStackChangeScheduler (fst (CallStackView.onDidChangeCallStack v l)),
   snd (CallStackView.onDidChangeCallStack v l))
  = if RunOnceScheduler.isScheduled (CallStackView.onCallStackChangeScheduler v)
    then (CallStackView.onCallStackChangeScheduler v, l)
    else RunOnceScheduler.schedule None (CallStackView.onCallStackChangeScheduler v) l.
Proof.
  unfold CallStackView.onDidChangeCallStack.
  destruct (RunOnceScheduler.isScheduled _); simpl; [done |].
  by destruct (RunOnceScheduler.schedule _ _ _).
Qed.
End ViewSchedulers.

(** ** The workbench stays consistent *)

Section Consistency.
Context {Tree : Type} `{!ITree Tree} {Panel : Type} `{!IViewletPanel Panel}.
Implicit Types (w : Workbench.World Tree Panel) (v u : ViewId).

Lemma fire_loop v w : Workbench.loop (Workbench.fire v w) = Workbench.loop w.
Proof.
  destruct v; simpl; try done.
  - by destruct (VariablesView.onTimeout _ _ _).
  - by destruct (WatchExpressionsView.onTimeout _ _).
  - by destruct (CallStackView.onTimeout _ _ _).
Qed.

Lemma fire_scheduler v u w :
  Workbench.schedulerOf u (Workbench.fire v w)
  = if decide (u = v) then RunOnceScheduler.onTimeout <$> Workbench.schedulerOf u w
    else Workbench.schedulerOf u w.
Proof.
  destruct v; simpl.
  - pose proof (variables_timeout_scheduler (Workbench.debugService w)
                  (Workbench.variablesView w) (Workbench.sink w)) as Hs.
    destruct (VariablesView.onTimeout _ _ _) as [v' k']. simpl in Hs.
    destruct u; simpl; by rewrite ?Hs.
  - pose proof (watch_timeout_scheduler (Workbench.watchExpressionsView w) (Workbench.sink w)) as Hs.
    destruct (WatchExpressionsView.onTimeout _ _) as [v' k']. simpl in Hs.
    destruct u; simpl; by rewrite ?Hs.
  - pose proof (callstack_timeout_scheduler (Workbench.debugService w)
                  (Workbench.callStackView w) (Workbench.sink w)) as Hs.
    destruct (CallStackView.onTimeout _ _ _) as [v' k']. simpl in Hs.
    destruct u; simpl; by rewrite ?Hs.
  - by destruct u.
Qed.

Lemma fired_loop (due : list EventLoop.Timer) w :
  Workbench.loop (foldl (fun w' x => Workbench.fire (EventLoop.callback x) w') w due)
  = Workbench.loop w.
Proof.
  revert w. induction due as [| x due IH]; intros w; simpl; [done |].
  by rewrite IH, fire_loop.
Qed.

Lemma fired_scheduler (due : list EventLoop.Timer) u w :
  Workbench.schedulerOf u (foldl (fun w' x => Workbench.fire (EventLoop.callback x) w') w due)
  = if decide (u ∈ EventLoop.callback <$> due)
    then RunOnceScheduler.onTimeout <$> Workbench.schedulerOf u w
    else Workbench.schedulerOf u w.
Proof.
  revert w. induction due as [| x due IH]; intros w; simpl.
  - done.
  - rewrite IH, fire_scheduler.
    destruct (decide (u = EventLoop.callback x)) as [-> | Hne].
    + rewrite (decide_True (P := _ ∈ _ :: _)) by left.
      case_decide; [| done].
      by destruct (Workbench.schedulerOf (EventLoop.callback x) w).
    + destruct (decide (u ∈ EventLoop.callback <$> due)) as [Hin | Hout].
      * rewrite (decide_True (P := _ ∈ _ :: _)) by (by right). done.
      * rewrite (decide_False (P := _ ∈ _ :: _)); [done |].
        by intros [? | ?]%elem_of_cons.
Qed.

Lemma tokenOf_fired (due : list EventLoop.Timer) u w :
  Workbench.tokenOf u (foldl (fun w' x => Workbench.fire (EventLoop.callback x) w') w due)
  = if decide (u ∈ EventLoop.callback <$> due) then None else Workbench.tokenOf u w.
Proof.
  unfold Workbench.tokenOf. rewrite fired_scheduler.
  case_decide; [| done]. by destruct (Workbench.schedulerOf u w).
Qed.

Lemma consistent_same w w' :
  (forall v, Workbench.schedulerOf v w' = Workbench.schedulerOf v w) ->
  Workbench.loop w' = Workbench.loop w ->
  Workbench.consistent w -> Workbench.consistent w'.
Proof.
  intros Hs Hl [Hhandlers Hcoherent]. split.
  - intros v s. rewrite Hs. apply Hhandlers.
  - rewrite Hl. eapply coherent_ext; [| exact Hcoherent].
    intros v. unfold Workbench.tokenOf. by rewrite Hs.
Qed.

Lemma consistent_schedule w w' v (s : RunOnceScheduler.t) (delay : option nat) :
  Workbench.schedulerOf v w = Some s ->
  (Workbench.schedulerOf v w', Workbench.loop w')
  = (Some (fst (RunOnceScheduler.schedule delay s (Workbench.loop w))),
     snd (RunOnceScheduler.schedule delay s (Workbench.loop w))) ->
  (forall u, u <> v -> Workbench.schedulerOf u w' = Workbench.schedulerOf u w) ->
  Workbench.consistent w -> Workbench.consistent w'.
Proof.
  intros Hs Hnew Hothers [Hhandlers Hcoherent].
  inversion Hnew as [[Hs' Hl']]. clear Hnew.
  destruct (Hhandlers v s Hs) as [Hhandler Hdelay]. split.
  - intros u s'. destruct (decide (u = v)) as [-> | Hu].
    + rewrite Hs'. intros [= <-]. by rewrite schedule_rearms.
    + rewrite Hothers by done. apply Hhandlers.
  - rewrite Hl'. eapply coherent_ext; [| eapply (coherent_schedule _ _ v s delay)]; eauto.
    + intros u. unfold Workbench.tokenOf. destruct (decide (u = v)) as [-> | Hu].
      * rewrite Hs'. by rewrite schedule_rearms.
      * by rewrite Hothers.
    + unfold Workbench.tokenOf. by rewrite Hs.
Qed.

Lemma step_consistent w (e : Workbench.Event) :
  Workbench.consistent w -> Workbench.consistent (Workbench.step w e).
Proof.
  intros Hw. destruct e as [ds | sf | we | | | expression | fbp | dt]; simpl.
  - eapply consistent_same; [| | exact Hw]; [by intros [] | done].
  - pose proof (variables_focus_schedules sf (Workbench.variablesView w) (Workbench.loop w)) as Hv.
    pose proof (callstack_focus_scheduler (Workbench.debugService w) (Workbench.callStackView w)
                  (Workbench.sink w)) as Hc.
    destruct (VariablesView.onDidFocusStackFrame _ _ _) as [v1 l'].
    destruct (CallStackView.onDidFocusStackFrame _ _ _) as [v3 k']. simpl in Hv, Hc.
    eapply (consistent_schedule w _ Variables); [reflexivity | | | exact Hw].
    + simpl. by rewrite <- Hv.
    + intros [] Hu; simpl; congruence.
  - pose proof (watch_change_schedules we (Workbench.watchExpressionsView w) (Workbench.loop w)) as Hv.
    destruct (WatchExpressionsView.onDidChangeWatchExpressions _ _ _) as [v2 l']. simpl in Hv.
    destruct (RunOnceScheduler.isScheduled _).
    + inversion Hv as [[Hs Hl]].
      eapply consistent_same; [| | exact Hw]; [intros []; simpl; congruence | done].
    + eapply (consistent_schedule w _ WatchExpressions); [reflexivity | | | exact Hw].
      * simpl. by rewrite <- Hv.
      * intros [] Hu; simpl; congruence.
  - pose proof (callstack_change_schedules (Workbench.callStackView w) (Workbench.loop w)) as Hv.
    destruct (CallStackView.onDidChangeCallStack _ _) as [v3 l']. simpl in Hv.
    destruct (RunOnceScheduler.isScheduled _).
    + inversion Hv as [[Hs Hl]].
      eapply consistent_same; [| | exact Hw]; [intros []; simpl; congruence | done].
    + eapply (consistent_schedule w _ CallStack); [reflexivity | | | exact Hw].
      * simpl. by rewrite <- Hv.
      * intros [] Hu; simpl; congruence.
  - destruct (BreakpointsView.onBreakpointsChange _ _ _) as [v4 k'].
    eapply consistent_same; [| | exact Hw]; [by intros [] | done].
  - pose proof (variables_select_scheduler expression (Workbench.variablesView w)
                  (Workbench.sink w)) as Hv.
    destruct (VariablesView.onDidSelectExpression _ _ _) as [v1 k1]. simpl in Hv.
    pose proof (watch_select_scheduler expression (Workbench.watchExpressionsView w) k1) as Hv'.
    destruct (WatchExpressionsView.onDidSelectExpression _ _ _) as [v2 k2]. simpl in Hv'.
    eapply consistent_same; [| | exact Hw]; [intros []; simpl; congruence | done].
  - destruct (BreakpointsView.onDidSelectFunctionBreakpoint _ _ _) as [v4 k'].
    eapply consistent_same; [| | exact Hw]; [by intros [] | done].
  - destruct Hw as [Hhandlers Hcoherent].
    pose proof (coherent_elapse _ _ dt Hcoherent) as Hafter.
    unfold EventLoop.elapse in Hafter. simpl in Hafter.
    split.
    + intros v s. rewrite fired_scheduler.
      change (Workbench.schedulerOf v _) with (Workbench.schedulerOf v w).
      case_decide; [| apply Hhandlers].
      destruct (Workbench.schedulerOf v w) as [s0 |] eqn:Hs0; [| done].
      intros [= <-]. destruct (Hhandlers v s0 Hs0) as [Hhandler Hdelay]. by split.
    + rewrite fired_loop. simpl. eapply coherent_ext; [| exact Hafter].
      intros v. rewrite tokenOf_fired. by case_decide.
Qed.

Lemma run_consistent w (events : list Workbench.Event) :
  Workbench.consistent w -> Workbench.consistent (Workbench.run w events).
Proof.
  revert w. induction events as [| e events IH]; intros w Hw; [done |].
  simpl. by apply IH, step_consistent.
Qed.

Lemma callstack_create_schedules ds (p : Panel) (l : EventLoop.t) :
  (CallStackView.onCallStackChangeScheduler (fst (CallStackView.create (Tree := Tree) ds p l)),
   snd (CallStackView.create (Tree := Tree) ds p l))
  = match state ds with
    | Stopped => RunOnceScheduler.schedule None (RunOnceScheduler.create CallStack 50) l
    | _ => (RunOnceScheduler.create CallStack 50, l)
    end.
Proof.
  unfold CallStackView.create.
  destruct (state ds); try done.
Qed.

Lemma startup_consistent ds settings (p1 p2 p3 p4 : Panel) :
  Workbench.consistent (Workbench.startup ds settings p1 p2 p3 p4).
Proof.
  unfold Workbench.startup.
  destruct (VariablesView.create p1 []) as [v1 k1] eqn:H1.
  destruct (WatchExpressionsView.create p2 k1) as [v2 k2] eqn:H2.
  pose proof (callstack_create_schedules ds p3 EventLoop.empty) as H3.
  destruct (CallStackView.create ds p3 EventLoop.empty) as [v3 l3]. simpl in H3.
  destruct (BreakpointsView.renderBody _ k2) as [v4 k4].
  assert (Hs1 : VariablesView.onFocusStackFrameScheduler v1
                = RunOnceScheduler.create Variables 400).
  { unfold VariablesView.create in H1. destruct (dropped _ _ _) in H1. by inversion H1. }
  assert (Hs2 : WatchExpressionsView.onWatchExpressionsUpdatedScheduler v2
                = RunOnceScheduler.create WatchExpressions 50).
  { unfold WatchExpressionsView.create in H2. destruct (dropped _ _ _) in H2. by inversion H2. }
  assert (Hempty : Workbench.coherent (fun _ => None) EventLoop.empty).
  { repeat split; simpl; try done. apply NoDup_nil_2. }
  assert (Hidle : (CallStackView.onCallStackChangeScheduler v3, l3)
                  = (RunOnceScheduler.create CallStack 50, EventLoop.empty) ->
                  Workbench.consistent
                    {| Workbench.debugService := ds; Workbench.loop := l3; Workbench.sink := k4;
                       Workbench.viewletSettings := settings;
                       Workbench.variablesView := v1; Workbench.watchExpressionsView := v2;
                       Workbench.callStackView := v3; Workbench.breakpointsView := v4 |}).
  { intros [= Hs3 ->]. split.
    - intros [] s [= <-]; simpl; rewrite ?Hs1, ?Hs2, ?Hs3; by split.
    - eapply coherent_ext; [| exact Hempty].
      intros []; unfold Workbench.tokenOf; simpl; by rewrite ?Hs1, ?Hs2, ?Hs3. }
  destruct (state ds); try (by apply Hidle).
  rewrite schedule_rearms in H3. injection H3 as Hs3 ->. split.
  - intros [] s [= <-]; simpl; rewrite ?Hs1, ?Hs2, ?Hs3; by split.
  - eapply coherent_ext;
      [| exact (coherent_schedule _ _ CallStack (RunOnceScheduler.create CallStack 50) None
                  Hempty eq_refl eq_refl)].
    intros []; unfold Workbench.tokenOf; simpl; by rewrite ?Hs1, ?Hs2, ?Hs3.
Qed.

(** C4. In every state the workbench reaches from its start, whatever
    the events, each of the four views has at most one refresh waiting in
    the timer queue (the breakpoints view, which owns no scheduler, has
    none); and a [schedule] call on the scheduler of a view, pending or
    not, leaves exactly one. *)
Theorem one_pending_refresh ds settings (p1 p2 p3 p4 : Panel)
    (events : list Workbench.Event) (v : ViewId) :
  (length (Workbench.pendingRefreshes v
             (Workbench.run (Workbench.startup ds settings p1 p2 p3 p4) events)) <= 1)%nat
  /\ (Workbench.schedulerOf v (Workbench.run (Workbench.startup ds settings p1 p2 p3 p4) events)
      = None ->
      Workbench.pendingRefreshes v
        (Workbench.run (Workbench.startup ds settings p1 p2 p3 p4) events) = [])
  /\ (forall (s : RunOnceScheduler.t) (delay : option nat),
        Workbench.schedulerOf v (Workbench.run (Workbench.startup ds settings p1 p2 p3 p4) events)
        = Some s ->
        length (filter (fun x => EventLoop.callback x = v)
                  (EventLoop.timers
                     (snd (RunOnceScheduler.schedule delay s
                             (Workbench.loop
                                (Workbench.run (Workbench.startup ds settings p1 p2 p3 p4)
                                   events))))))
        = 1%nat).
Proof.
  pose proof (run_consistent _ events (startup_consistent ds settings p1 p2 p3 p4))
    as [Hhandlers Hcoherent].
  set (w := Workbench.run _ events) in *.
  split; [| split].
  - eapply coherent_pending, Hcoherent.
  - intros Hnone. destruct Hcoherent as (_ & _ & Howned). specialize (Howned v).
    unfold Workbench.tokenOf in Howned. by rewrite Hnone in Howned.
  - intros s delay Hs. destruct (Hhandlers v s Hs) as [Hhandler _].
    assert (Htoken : Workbench.tokenOf v w = RunOnceScheduler.timeoutToken s)
      by (unfold Workbench.tokenOf; by rewrite Hs).
    destruct (coherent_schedule _ _ v s delay Hcoherent Htoken Hhandler) as (_ & _ & Howned).
    specialize (Howned v). rewrite decide_True in Howned by done.
    by destruct Howned as (x & -> & _).
Qed.
End Consistency.

(** ** Counting refreshes *)

Lemma refreshCount_app (l1 l2 : list Entry) :
  Workbench.refreshCount (l1 ++ l2)
  = (Workbench.refreshCount l1 + Workbench.refreshCount l2)%nat.
Proof. unfold Workbench.refreshCount. by rewrite filter_app, length_app. Qed.

Lemma refreshCount_none (l : list Entry) :
  Forall (fun x => Workbench.isTreeRefresh x = false) l -> Workbench.refreshCount l = 0%nat.
Proof.
  unfold Workbench.refreshCount. induction 1 as [| x l Hx _ IH]; [done |].
  rewrite filter_cons. destruct (decide _) as [Htrue | _]; [congruence | exact IH].
Qed.

Lemma refreshCount_cons (x : Entry) (l : list Entry) :
  Workbench.refreshCount (x :: l)
  = ((if Workbench.isTreeRefresh x then 1 else 0) + Workbench.refreshCount l)%nat.
Proof.
  unfold Workbench.refreshCount. rewrite filter_cons.
  destruct (Workbench.isTreeRefresh x); by destruct (decide _).
Qed.

(** Counts the tree refreshes of a list of calls written out. *)
Ltac count_refreshes :=
  repeat (rewrite refreshCount_app || rewrite refreshCount_cons);
  change (Workbench.refreshCount []) with 0%nat; simpl; lia.

Section Refreshes.
Context {Tree : Type} `{!ITree Tree} {Panel : Type} `{!IViewletPanel Panel}.
Implicit Types (w : Workbench.World Tree Panel) (v u : ViewId) (s : Traced Tree)
  (k : Errors.Sink).

Lemma restoreCalls_no_refresh (es : list Element) (tr : Tree) :
  Forall (fun x => Workbench.isTreeRefresh x = false) (fst (Stated.restoreCalls es tr)).
Proof.
  revert tr. induction es as [| e es IH]; intros tr; simpl; [constructor |].
  destruct (expand e tr) as [[err |] tr']; simpl; [by repeat constructor |].
  specialize (IH tr'). destruct (Stated.restoreCalls es tr') as [made after].
  by constructor.
Qed.

Lemma defaultExpansion_no_refresh (focused : option StackFrame) (tr : Tree) :
  Forall (fun x => Workbench.isTreeRefresh x = false) (Stated.defaultExpansion focused tr).
Proof.
  unfold Stated.defaultExpansion.
  destruct focused as [frame |]; [| constructor].
  destruct (getExpandedElements tr); [| constructor].
  destruct (getScopes frame) as [err | [| first scopes]]; repeat constructor.
  destruct (expensive first); repeat constructor.
Qed.

Lemma refreshCalls_one (ds : IDebugService) (kept : list Element) (tr : Tree) :
  Workbench.refreshCount (Stated.refreshCalls ds kept tr) = 1%nat.
Proof.
  unfold Stated.refreshCalls.
  destruct (refresh None (clearHighlight tr)) as [[err |] refreshed]; [count_refreshes |].
  pose proof (restoreCalls_no_refresh (Stated.preserved kept tr) refreshed) as Hmade.
  destruct (Stated.restoreCalls _ refreshed) as [made after]. simpl in Hmade.
  change (Workbench.refreshCount
            ([(CClearHighlight, None); (CRefresh None, None)]
             ++ made ++ match after with
                        | Some restored =>
                            Stated.defaultExpansion (focusedStackFrame (getViewModel ds)) restored
                        | None => []
                        end) = 1%nat).
  rewrite !refreshCount_app, (refreshCount_none made) by done.
  destruct after as [restored |]; [| count_refreshes].
  rewrite (refreshCount_none _ (defaultExpansion_no_refresh _ _)). count_refreshes.
Qed.

Lemma variables_timeout_refreshes ds (x : VariablesView.t Tree Panel) k :
  Workbench.refreshCount (calls (VariablesView.widget (fst (VariablesView.onTimeout ds x k))))
  = S (Workbench.refreshCount (calls (VariablesView.widget x))).
Proof.
  unfold VariablesView.onTimeout.
  destruct (onFocusStackFrame_calls ds
              {| VariablesView.panel := VariablesView.panel x;
                 VariablesView.widget := VariablesView.widget x;
                 VariablesView.onFocusStackFrameScheduler :=
                   RunOnceScheduler.onTimeout (VariablesView.onFocusStackFrameScheduler x);
                 VariablesView.expandedElements := VariablesView.expandedElements x |} k)
    as [Hcalls _].
  rewrite Hcalls. simpl. rewrite refreshCount_app, refreshCalls_one. lia.
Qed.

Lemma watch_timeout_refreshes (x : WatchExpressionsView.t Tree Panel) k :
  Workbench.refreshCount
    (calls (WatchExpressionsView.widget (fst (WatchExpressionsView.onTimeout x k))))
  = S (Workbench.refreshCount (calls (WatchExpressionsView.widget x))).
Proof.
  unfold WatchExpressionsView.onTimeout, WatchExpressionsView.onWatchExpressionsUpdated,
    doneWith. simpl.
  destruct (refresh None (tree (WatchExpressionsView.widget x))) as [[err |] tr'] eqn:Hop.
  - erewrite async_rejected by exact Hop. simpl. count_refreshes.
  - erewrite async_fulfilled by exact Hop.
    destruct (WatchExpressionsView.toReveal x) as [[r | r | r] |]; simpl;
      try count_refreshes.
    unfold async. simpl. destruct (reveal (ElExpression r) tr') as [[err |] tr'']; simpl;
      count_refreshes.
Qed.

Lemma callstack_timeout_refreshes ds (x : CallStackView.t Tree Panel) k :
  Workbench.refreshCount (calls (CallStackView.widget (fst (CallStackView.onTimeout ds x k))))
  = S (Workbench.refreshCount (calls (CallStackView.widget x))).
Proof.
  unfold CallStackView.onTimeout.
  destruct (onCallStackChange_calls ds
              {| CallStackView.panel := CallStackView.panel x;
                 CallStackView.widget := CallStackView.widget x;
                 CallStackView.onCallStackChangeScheduler :=
                   RunOnceScheduler.onTimeout (CallStackView.onCallStackChangeScheduler x);
                 CallStackView.pauseMessage := CallStackView.pauseMessage x |} k)
    as (outcome & rest & Hcalls & Hrest).
  rewrite Hcalls, refreshCount_app, refreshCount_cons, (refreshCount_none rest) by done.
  destruct (decide _); simpl; lia.
Qed.

(** A selection handler refreshes one element, not the tree. *)
Lemma highlight_no_refresh (e : Element) s k :
  Workbench.refreshCount
    (calls (fst (done_
       (then_ (async (CRefresh (Some e)) (refresh (Some e))) (fun _ s0 =>
          (inr tt, sync COnceDidChangeHighlight id
                     (sync (CSetHighlight e) (setHighlight e) s0)))) s k)))
  = Workbench.refreshCount (calls s).
Proof.
  unfold done_. destruct (refresh (Some e) (tree s)) as [[err |] tr'] eqn:Hop.
  - erewrite then_rejected by (by apply async_rejected).
    simpl. count_refreshes.
  - erewrite then_fulfilled by (by apply async_fulfilled).
    simpl. count_refreshes.
Qed.

Lemma variables_select_refreshes expression (x : VariablesView.t Tree Panel) k :
  Workbench.refreshCount
    (calls (VariablesView.widget (fst (VariablesView.onDidSelectExpression expression x k))))
  = Workbench.refreshCount (calls (VariablesView.widget x)).
Proof.
  unfold VariablesView.onDidSelectExpression.
  destruct expression as [[r | r | r] |]; try done.
  pose proof (highlight_no_refresh (ElVariable r) (VariablesView.widget x) k) as Hsame.
  by destruct (done_ _ _ _).
Qed.

Lemma watch_select_refreshes expression (x : WatchExpressionsView.t Tree Panel) k :
  Workbench.refreshCount
    (calls (WatchExpressionsView.widget
              (fst (WatchExpressionsView.onDidSelectExpression expression x k))))
  = Workbench.refreshCount (calls (WatchExpressionsView.widget x)).
Proof.
  unfold WatchExpressionsView.onDidSelectExpression.
  destruct expression as [[r | r | r] |]; try done.
  pose proof (highlight_no_refresh (ElExpression r) (WatchExpressionsView.widget x) k) as Hsame.
  by destruct (done_ _ _ _).
Qed.

Lemma callstack_focus_refreshes ds (x : CallStackView.t Tree Panel) k :
  Workbench.refreshCount
    (calls (CallStackView.widget (fst (CallStackView.onDidFocusStackFrame ds x k))))
  = Workbench.refreshCount (calls (CallStackView.widget x)).
Proof.
  unfold CallStackView.onDidFocusStackFrame, done_.
  destruct (updateTreeSelection_calls ds (CallStackView.widget x)) as (made & Hcalls & Hmade).
  apply selectionCalls_no_refresh in Hmade.
  destruct (CallStackView.updateTreeSelection ds _) as [[err | a] s']; simpl in *;
    rewrite Hcalls, refreshCount_app, (refreshCount_none made) by done; lia.
Qed.

Lemma variables_focus_widget sf (x : VariablesView.t Tree Panel) (l : EventLoop.t) :
  VariablesView.widget (fst (VariablesView.onDidFocusStackFrame sf x l)) = VariablesView.widget x.
Proof.
  unfold VariablesView.onDidFocusStackFrame.
  destruct (_ || _); by destruct (RunOnceScheduler.schedule _ _ _).
Qed.

Lemma watch_change_widget we (x : WatchExpressionsView.t Tree Panel) (l : EventLoop.t) :
  WatchExpressionsView.widget (fst (WatchExpressionsView.onDidChangeWatchExpressions we x l))
  = WatchExpressionsView.widget x.
Proof.
  unfold WatchExpressionsView.onDidChangeWatchExpressions.
  destruct (negb _); [by destruct (RunOnceScheduler.schedule _ _ _) | done].
Qed.

Lemma callstack_change_widget (x : CallStackView.t Tree Panel) (l : EventLoop.t) :
  CallStackView.widget (fst (CallStackView.onDidChangeCallStack x l)) = CallStackView.widget x.
Proof.
  unfold CallStackView.onDidChangeCallStack.
  destruct (negb _); [by destruct (RunOnceScheduler.schedule _ _ _) | done].
Qed.
End Refreshes.

(** ** Debouncing *)

Section Debounce.
Context {Tree : Type} `{!ITree Tree} {Panel : Type} `{!IViewletPanel Panel}.
Implicit Types (w : Workbench.World Tree Panel) (v u : ViewId) (l : list EventLoop.Timer).

(** A timer that fires adds one refresh to the tree of its view and none
    to the others. *)
Lemma fire_refreshes v u w :
  is_Some (Workbench.debounce v) ->
  Workbench.treeRefreshes v (Workbench.fire u w)
  = (Workbench.treeRefreshes v w + if decide (u = v) then 1 else 0)%nat.
Proof.
  intros Hv. unfold Workbench.treeRefreshes. destruct u; simpl.
  - pose proof (variables_timeout_refreshes (Workbench.debugService w)
                  (Workbench.variablesView w) (Workbench.sink w)) as Hone.
    destruct (VariablesView.onTimeout _ _ _) as [x k']. simpl in Hone.
    destruct v; simpl; rewrite ?Hone; lia.
  - pose proof (watch_timeout_refreshes (Workbench.watchExpressionsView w) (Workbench.sink w))
      as Hone.
    destruct (WatchExpressionsView.onTimeout _ _) as [x k']. simpl in Hone.
    destruct v; simpl; rewrite ?Hone; lia.
  - pose proof (callstack_timeout_refreshes (Workbench.debugService w)
                  (Workbench.callStackView w) (Workbench.sink w)) as Hone.
    destruct (CallStackView.onTimeout _ _ _) as [x k']. simpl in Hone.
    destruct v; simpl; rewrite ?Hone; lia.
  - destruct v; simpl; try lia. by destruct Hv.
Qed.

Lemma fired_refreshes (due : list EventLoop.Timer) v w :
  is_Some (Workbench.debounce v) ->
  Workbench.treeRefreshes v (foldl (fun w' x => Workbench.fire (EventLoop.callback x) w') w due)
  = (Workbench.treeRefreshes v w
     + length (filter (fun x => EventLoop.callback x = v) due))%nat.
Proof.
  intros Hv. revert w. induction due as [| x due IH]; intros w; simpl; [lia |].
  rewrite IH, fire_refreshes by done. rewrite filter_cons.
  destruct (decide (EventLoop.callback x = v)); simpl; lia.
Qed.

Lemma elapse_refreshes (dt : nat) v w :
  is_Some (Workbench.debounce v) ->
  Workbench.treeRefreshes v (Workbench.step w (Workbench.Elapse dt))
  = (Workbench.treeRefreshes v w + Workbench.dueWithin dt v w)%nat.
Proof.
  intros Hv. simpl. rewrite fired_refreshes by done.
  f_equal. unfold Workbench.dueWithin, Workbench.pendingRefreshes.
  rewrite byDeadline_perm, filter_swap. reflexivity.
Qed.

Lemma elapse_pending (dt : nat) v w :
  Workbench.pendingRefreshes v (Workbench.step w (Workbench.Elapse dt))
  = EventLoop.tick dt <$> filter (fun x => ¬ EventLoop.isDue dt x) (Workbench.pendingRefreshes v w).
Proof.
  unfold Workbench.pendingRefreshes. simpl. rewrite fired_loop. simpl.
  by rewrite owned_tick, filter_swap.
Qed.

Lemma due_split (dt rest : nat) l :
  length (filter (EventLoop.isDue (dt + rest)) l)
  = (length (filter (EventLoop.isDue dt) l)
     + length (filter (EventLoop.isDue rest)
                 (EventLoop.tick dt <$> filter (fun x => ¬ EventLoop.isDue dt x) l)))%nat.
Proof.
  induction l as [| x l IH]; [done |].
  rewrite !filter_cons.
  destruct (decide (EventLoop.isDue dt x)) as [Hdue | Hnot].
  - rewrite (decide_True (P := EventLoop.isDue (dt + rest) x))
      by (unfold EventLoop.isDue in *; lia).
    rewrite (decide_False (P := ¬ EventLoop.isDue dt x)) by (intros Hnot; by apply Hnot).
    simpl. by rewrite IH.
  - rewrite (decide_True (P := ¬ EventLoop.isDue dt x)) by done.
    rewrite fmap_cons, filter_cons.
    destruct (decide (EventLoop.isDue (dt + rest) x)) as [Hlater | Hnever].
    + rewrite (decide_True (P := EventLoop.isDue rest (EventLoop.tick dt x)))
        by (unfold EventLoop.isDue, EventLoop.tick in *; simpl; lia).
      simpl. rewrite IH. lia.
    + rewrite (decide_False (P := EventLoop.isDue rest (EventLoop.tick dt x)))
        by (unfold EventLoop.isDue, EventLoop.tick in *; simpl; lia).
      exact IH.
Qed.

Lemma elapse_due (dt rest : nat) v w :
  Workbench.dueWithin (dt + rest) v w
  = (Workbench.dueWithin dt v w
     + Workbench.dueWithin rest v (Workbench.step w (Workbench.Elapse dt)))%nat.
Proof. unfold Workbench.dueWithin. rewrite elapse_pending. apply due_split. Qed.

(** After [schedule], the timers of a view that are due within [n] are
    among those that were, and the new one if it is the view's own and
    short enough. *)
Lemma schedule_due (n : nat) v (s : RunOnceScheduler.t) (delay : option nat) (loop : EventLoop.t) :
  (length (filter (EventLoop.isDue n)
             (filter (fun x => EventLoop.callback x = v)
                (EventLoop.timers (snd (RunOnceScheduler.schedule delay s loop)))))
   <= length (filter (EventLoop.isDue n)
                (filter (fun x => EventLoop.callback x = v) (EventLoop.timers loop)))
      + (if decide (RunOnceScheduler.timeoutHandler s = v
                    /\ (default (RunOnceScheduler.timeout s) delay <= n)%nat)
         then 1 else 0))%nat.
Proof.
  rewrite schedule_rearms. simpl. rewrite !filter_app, length_app.
  apply Nat.add_le_mono.
  - destruct (RunOnceScheduler.timeoutToken s) as [token |]; [| done].
    rewrite (filter_swap _ (fun x => EventLoop.timerId x ≠ token)).
    rewrite (filter_swap _ (fun x => EventLoop.timerId x ≠ token)).
    apply length_filter.
  - rewrite filter_cons. simpl.
    destruct (decide (RunOnceScheduler.timeoutHandler s = v)) as [Hv | Hv]; simpl.
    + rewrite filter_cons. unfold EventLoop.isDue at 1. simpl.
      destruct (decide (_ <= n)%nat); simpl.
      * rewrite decide_True by done. done.
      * lia.
    + lia.
Qed.

(** A notification does not refresh the tree of a view that has a
    scheduler: the refresh waits for the timer. *)
Lemma notify_refreshes v w (e : Workbench.Event) :
  is_Some (Workbench.debounce v) ->
  (forall dt, e <> Workbench.Elapse dt) ->
  Workbench.treeRefreshes v (Workbench.step w e) = Workbench.treeRefreshes v w.
Proof.
  intros Hv Hnotify. unfold Workbench.treeRefreshes.
  destruct e as [ds | sf | we | | | expression | fbp | dt]; simpl.
  - by destruct v.
  - pose proof (variables_focus_widget sf (Workbench.variablesView w) (Workbench.loop w)) as H1.
    pose proof (callstack_focus_refreshes (Workbench.debugService w) (Workbench.callStackView w)
                  (Workbench.sink w)) as H3.
    destruct (VariablesView.onDidFocusStackFrame _ _ _) as [x1 l'].
    destruct (CallStackView.onDidFocusStackFrame _ _ _) as [x3 k']. simpl in H1, H3.
    destruct v; simpl; by rewrite ?H1, ?H3.
  - pose proof (watch_change_widget we (Workbench.watchExpressionsView w) (Workbench.loop w)) as H2.
    destruct (WatchExpressionsView.onDidChangeWatchExpressions _ _ _) as [x2 l']. simpl in H2.
    destruct v; simpl; by rewrite ?H2.
  - pose proof (callstack_change_widget (Workbench.callStackView w) (Workbench.loop w)) as H3.
    destruct (CallStackView.onDidChangeCallStack _ _) as [x3 l']. simpl in H3.
    destruct v; simpl; by rewrite ?H3.
  - destruct (BreakpointsView.onBreakpointsChange _ _ _) as [x4 k'].
    destruct v; simpl; try done. by destruct Hv.
  - pose proof (variables_select_refreshes expression (Workbench.variablesView w)
                  (Workbench.sink w)) as H1.
    destruct (VariablesView.onDidSelectExpression _ _ _) as [x1 k1]. simpl in H1.
    pose proof (watch_select_refreshes expression (Workbench.watchExpressionsView w) k1) as H2.
    destruct (WatchExpressionsView.onDidSelectExpression _ _ _) as [x2 k2]. simpl in H2.
    destruct v; simpl; by rewrite ?H1, ?H2.
  - destruct (BreakpointsView.onDidSelectFunctionBreakpoint _ _ _) as [x4 k'].
    destruct v; simpl; try done. by destruct Hv.
  - by destruct (Hnotify dt).
Qed.

(** A notification brings no refresh of a view nearer than its debounce
    delay, unless it asks the variables view for an immediate one. *)
Lemma notify_due (n delay : nat) v w (e : Workbench.Event) :
  Workbench.consistent w ->
  Workbench.debounce v = Some delay ->
  (n < delay)%nat ->
  (forall dt, e <> Workbench.Elapse dt) ->
  (Workbench.dueWithin n v (Workbench.step w e)
   <= Workbench.dueWithin n v w
      + if decide (v = Variables)
        then match e with
             | Workbench.DidFocusStackFrame sf =>
                 if Workbench.requestsImmediate sf w then 1 else 0
             | _ => 0
             end
        else 0)%nat.
Proof.
  intros [Hhandlers _] Hdelay Hn Hnotify.
  unfold Workbench.dueWithin, Workbench.pendingRefreshes.
  destruct e as [ds | sf | we | | | expression | fbp | dt]; simpl.
  - lia.
  - pose proof (variables_focus_schedules sf (Workbench.variablesView w) (Workbench.loop w)) as H1.
    destruct (VariablesView.onDidFocusStackFrame _ _ _) as [x1 l'].
    destruct (CallStackView.onDidFocusStackFrame _ _ _) as [x3 k']. simpl in H1 |- *.
    assert (Hl : l' = snd (RunOnceScheduler.schedule
                             (if Workbench.requestsImmediate sf w then Some 0%nat else None)
                             (VariablesView.onFocusStackFrameScheduler (Workbench.variablesView w))
                             (Workbench.loop w))).
    { unfold Workbench.requestsImmediate. by rewrite <- H1. }
    rewrite Hl. etransitivity; [apply schedule_due |].
    apply Nat.add_le_mono_l.
    destruct (Hhandlers Variables _ eq_refl) as [Hhandler Htimeout].
    simpl in Htimeout. injection Htimeout as Htimeout.
    destruct (decide (_ /\ _)) as [[Hmine Hshort] | _]; [| lia].
    rewrite Hhandler in Hmine. subst v. rewrite decide_True by done.
    simpl in Hdelay. injection Hdelay as <-.
    destruct (Workbench.requestsImmediate sf w); [done |]. simpl in Hshort. lia.
  - pose proof (watch_change_schedules we (Workbench.watchExpressionsView w) (Workbench.loop w)) as H2.
    destruct (WatchExpressionsView.onDidChangeWatchExpressions _ _ _) as [x2 l']. simpl in H2 |- *.
    destruct (RunOnceScheduler.isScheduled _).
    + injection H2 as _ ->. lia.
    + assert (Hl : l' = snd (RunOnceScheduler.schedule None
                               (WatchExpressionsView.onWatchExpressionsUpdatedScheduler
                                  (Workbench.watchExpressionsView w)) (Workbench.loop w)))
        by (by rewrite <- H2).
      rewrite Hl. etransitivity; [apply schedule_due |].
      destruct (Hhandlers WatchExpressions _ eq_refl) as [Hhandler Htimeout].
      simpl in Htimeout. injection Htimeout as Htimeout.
      destruct (decide (_ /\ _)) as [[Hmine Hshort] | _]; [| lia].
      rewrite Hhandler in Hmine. subst v. simpl in Hdelay. injection Hdelay as <-.
      simpl in Hshort. lia.
  - pose proof (callstack_change_schedules (Workbench.callStackView w) (Workbench.loop w)) as H3.
    destruct (CallStackView.onDidChangeCallStack _ _) as [x3 l']. simpl in H3 |- *.
    destruct (RunOnceScheduler.isScheduled _).
    + injection H3 as _ ->. lia.
    + assert (Hl : l' = snd (RunOnceScheduler.schedule None
                               (CallStackView.onCallStackChangeScheduler (Workbench.callStackView w))
                               (Workbench.loop w)))
        by (by rewrite <- H3).
      rewrite Hl. etransitivity; [apply schedule_due |].
      destruct (Hhandlers CallStack _ eq_refl) as [Hhandler Htimeout].
      simpl in Htimeout. injection Htimeout as Htimeout.
      destruct (decide (_ /\ _)) as [[Hmine Hshort] | _]; [| lia].
      rewrite Hhandler in Hmine. subst v. simpl in Hdelay. injection Hdelay as <-.
      simpl in Hshort. lia.
  - destruct (BreakpointsView.onBreakpointsChange _ _ _) as [x4 k']. simpl. lia.
  - destruct (VariablesView.onDidSelectExpression _ _ _) as [x1 k1].
    destruct (WatchExpressionsView.onDidSelectExpression _ _ _) as [x2 k2]. simpl. lia.
  - destruct (BreakpointsView.onDidSelectFunctionBreakpoint _ _ _) as [x4 k']. simpl. lia.
  - by destruct (Hnotify dt).
Qed.

Lemma immediateRequests_cons w (e : Workbench.Event) (burst : list Workbench.Event) :
  Workbench.immediateRequests w (e :: burst)
  = ((match e with
      | Workbench.DidFocusStackFrame sf => if Workbench.requestsImmediate sf w then 1 else 0
      | _ => 0
      end) + Workbench.immediateRequests (Workbench.step w e) burst)%nat.
Proof. reflexivity. Qed.

(** Within less than the debounce delay of a view, its tree is refreshed
    as often as timers of the view were due in that time, and once more
    for every request for an immediate refresh. *)
Lemma burst_bound (burst : list Workbench.Event) v (delay : nat) w :
  Workbench.consistent w ->
  Workbench.debounce v = Some delay ->
  (Workbench.elapsed burst < delay)%nat ->
  (Workbench.treeRefreshes v (Workbench.run w burst)
   <= Workbench.treeRefreshes v w
      + Workbench.dueWithin (Workbench.elapsed burst) v w
      + if decide (v = Variables) then Workbench.immediateRequests w burst else 0)%nat.
Proof.
  intros Hw Hdelay. revert w Hw.
  induction burst as [| e burst IH]; intros w Hw Hshort.
  { simpl. lia. }
  assert (Hv : is_Some (Workbench.debounce v)) by (by rewrite Hdelay).
  assert (Hrest : (Workbench.elapsed burst < delay)%nat).
  { simpl in Hshort. destruct e; lia. }
  specialize (IH (Workbench.step w e) (step_consistent w e Hw) Hrest).
  change (Workbench.run w (e :: burst)) with (Workbench.run (Workbench.step w e) burst).
  assert (Hcase : (exists dt, e = Workbench.Elapse dt) \/ (forall dt, e <> Workbench.Elapse dt))
    by (destruct e; eauto; by right).
  destruct Hcase as [[dt ->] | Hnot].
  - rewrite elapse_refreshes in IH by done.
    change (Workbench.elapsed (Workbench.Elapse dt :: burst))
      with (dt + Workbench.elapsed burst)%nat.
    rewrite (elapse_due dt (Workbench.elapsed burst)), immediateRequests_cons.
    destruct (decide (v = Variables)); lia.
  - rewrite notify_refreshes in IH by done.
    pose proof (notify_due (Workbench.elapsed burst) delay v w e Hw Hdelay Hrest Hnot) as Hdue.
    assert (Hsame : Workbench.elapsed (e :: burst) = Workbench.elapsed burst).
    { simpl. destruct e; try done. by destruct (Hnot dt). }
    rewrite Hsame, immediateRequests_cons.
    destruct (decide (v = Variables)); lia.
Qed.
End Debounce.

Section Coalescing.
Context {Tree : Type} `{!ITree Tree} {Panel : Type} `{!IViewletPanel Panel}.
Implicit Types (w : Workbench.World Tree Panel) (v : ViewId).

Lemma breakpoints_change_refreshes w :
  is_Some (BreakpointsView.widget (Workbench.breakpointsView w)) ->
  Workbench.treeRefreshes Breakpoints (Workbench.step w Workbench.DidChangeBreakpoints)
  = S (Workbench.treeRefreshes Breakpoints w).
Proof.
  intros [s Hs]. unfold Workbench.treeRefreshes. simpl.
  unfold BreakpointsView.onBreakpointsChange, BreakpointsView.madeCalls. rewrite Hs.
  unfold dropped, async.
  destruct (refresh None (tree s)) as [[err |] tr']; simpl; count_refreshes.
Qed.

(** C7 (as amended). The variables, watch expressions and call stack
    views coalesce change notifications through a debounce scheduler: no
    notification refreshes the tree of such a view, and over any events
    that take less than the debounce delay of the view (400, 50 and 50 ms)
    its tree is refreshed at most once, and in the variables view once
    more for every focus change that asks for an immediate refresh. The
    breakpoints view has no scheduler: once it has a tree, it refreshes it
    on every change of the breakpoints. *)
Theorem refreshes_are_coalesced ds settings (p1 p2 p3 p4 : Panel)
    (history burst : list Workbench.Event) (v : ViewId) (delay : nat) :
  Workbench.debounce v = Some delay ->
  (Workbench.elapsed burst < delay)%nat ->
  (Workbench.treeRefreshes v
     (Workbench.run (Workbench.run (Workbench.startup ds settings p1 p2 p3 p4) history) burst)
   <= Workbench.treeRefreshes v (Workbench.run (Workbench.startup ds settings p1 p2 p3 p4) history)
      + 1
      + if decide (v = Variables)
        then Workbench.immediateRequests
               (Workbench.run (Workbench.startup ds settings p1 p2 p3 p4) history) burst
        else 0)%nat
  /\ (forall w (e : Workbench.Event),
        (forall dt, e <> Workbench.Elapse dt) ->
        Workbench.treeRefreshes v (Workbench.step w e) = Workbench.treeRefreshes v w)
  /\ Workbench.debounce Breakpoints = None
  /\ (forall w, Workbench.schedulerOf Breakpoints w = None)
  /\ (forall w,
        is_Some (BreakpointsView.widget (Workbench.breakpointsView w)) ->
        Workbench.treeRefreshes Breakpoints (Workbench.step w Workbench.DidChangeBreakpoints)
        = S (Workbench.treeRefreshes Breakpoints w)).
Proof.
  intros Hdelay Hshort.
  pose proof (run_consistent _ history (startup_consistent ds settings p1 p2 p3 p4)) as Hw.
  set (w0 := Workbench.run _ history) in *.
  split; [| split; [| split; [done | split; [done |]]]].
  - pose proof (burst_bound burst v delay w0 Hw Hdelay Hshort) as Hbound.
    destruct Hw as [_ Hcoherent].
    pose proof (coherent_pending _ _ v Hcoherent) as Hone.
    assert (Hdue : (Workbench.dueWithin (Workbench.elapsed burst) v w0 <= 1)%nat).
    { unfold Workbench.dueWithin. etransitivity; [apply length_filter | exact Hone]. }
    lia.
  - intros w e. apply notify_refreshes. by rewrite Hdelay.
  - apply breakpoints_change_refreshes.
Qed.
End Coalescing.

(** C7, an instance: three changes of the watch expressions within 40 ms,
    after a first one 20 ms before. *)
Lemma refreshes_are_coalesced_witness :
  (Workbench.treeRefreshes WatchExpressions
     (Workbench.run (Workbench.run PlainTree.fresh Examples.watchHistory) Examples.watchBurst)
   <= Workbench.treeRefreshes WatchExpressions
        (Workbench.run PlainTree.fresh Examples.watchHistory)
      + 1
      + if decide (WatchExpressions = Variables)
        then Workbench.immediateRequests
               (Workbench.run PlainTree.fresh Examples.watchHistory) Examples.watchBurst
        else 0)%nat
  /\ (forall (w : Workbench.World PlainTree.t bool) (e : Workbench.Event),
        (forall dt, e <> Workbench.Elapse dt) ->
        Workbench.treeRefreshes WatchExpressions (Workbench.step w e)
        = Workbench.treeRefreshes WatchExpressions w)
  /\ Workbench.debounce Breakpoints = None
  /\ (forall w : Workbench.World PlainTree.t bool, Workbench.schedulerOf Breakpoints w = None)
  /\ (forall w : Workbench.World PlainTree.t bool,
        is_Some (BreakpointsView.widget (Workbench.breakpointsView w)) ->
        Workbench.treeRefreshes Breakpoints (Workbench.step w Workbench.DidChangeBreakpoints)
        = S (Workbench.treeRefreshes Breakpoints w)).
Proof.
  apply (refreshes_are_coalesced PlainTree.idle ∅ true true true true
           Examples.watchHistory Examples.watchBurst WatchExpressions 50).
  - reflexivity.
  - vm_compute. lia.
Defined.

(** C7 as it is stated fails for the breakpoints view, which owns no
    scheduler: two changes of the breakpoints in a row, with no time in
    between, refresh its tree twice. It also fails for focus changes the
    user asks for: two of them 10 ms apart refresh the tree of the
    variables view twice within 20 ms. *)
Lemma breakpoints_view_refreshes_every_time :
  Workbench.schedulerOf Breakpoints PlainTree.fresh = None
  /\ Workbench.elapsed Examples.breakpointsBurst = 0%nat
  /\ Workbench.treeRefreshes Breakpoints (Workbench.run PlainTree.fresh Examples.breakpointsBurst)
     = (Workbench.treeRefreshes Breakpoints PlainTree.fresh + 2)%nat
  /\ Workbench.elapsed Examples.clicks = 20%nat
  /\ Workbench.treeRefreshes Variables (Workbench.run PlainTree.fresh Examples.clicks)
     = (Workbench.treeRefreshes Variables PlainTree.fresh + 2)%nat.
Proof. vm_compute. repeat split. Qed.

(** ** Runs on concrete inputs *)

(** With a frame in focus and nothing expanded, the refresh of the
    variables view ends with the expansion of the first scope. *)
Example variables_view_expands_first_scope :
  Workbench.callsOf Variables (Workbench.run PlainTree.fresh Examples.steppingSettles)
  = [(CSetInput ElViewModel, None); (CClearHighlight, None); (CRefresh None, None);
     (CGetScopes 21%nat, None); (CExpand (ElScope 31%nat), None)].
Proof. vm_compute. reflexivity. Qed.

(** The first update of the call stack view shows the only thread and
    follows the focus down to the frame; the second finds the same input
    and refreshes it. *)
Example call_stack_view_sets_then_refreshes :
  Workbench.callsOf CallStack (Workbench.run PlainTree.fresh Examples.callStackChanges)
  = [(CSetInput (ElThread 11%nat), None);
     (CExpandAll [ElProcess 1%nat; ElThread 11%nat], None);
     (CSetSelection [ElStackFrame 21%nat], None); (CReveal (ElStackFrame 21%nat), None);
     (CRefresh None, None);
     (CExpandAll [ElProcess 1%nat; ElThread 11%nat], None);
     (CSetSelection [ElStackFrame 21%nat], None); (CReveal (ElStackFrame 21%nat), None)].
Proof. vm_compute. reflexivity. Qed.

(** A rejected reveal ends the refresh of the watch expressions view and
    is what the sink receives. *)
Example rejected_reveal_is_reported :
  (calls (WatchExpressionsView.widget
            (fst (WatchExpressionsView.onWatchExpressionsUpdated
                    Examples.watchWithLostExpression []))),
   snd (WatchExpressionsView.onWatchExpressionsUpdated Examples.watchWithLostExpression []))
  = ([(CRefresh None, None); (CReveal (ElExpression 5%nat), Some "gone")], ["gone"]).
Proof. vm_compute. reflexivity. Qed.

(** Three changes of the watch expressions within 40 ms lead to one
    refresh, 50 ms after the first of them. *)
Example watch_burst_refreshes_once :
  Workbench.treeRefreshes WatchExpressions
    (Workbench.run PlainTree.fresh
       (Examples.watchBurst ++ [Workbench.Elapse 10]))
  = S (Workbench.treeRefreshes WatchExpressions PlainTree.fresh).
Proof. vm_compute. reflexivity. Qed.

(** * Further properties *)

(** ** The sorter within one file *)

Section SorterWithinFile.
Variable toString : URI -> string.
Variable basenameOrAuthority : URI -> string.
Variable localeCompare : string -> string -> Z.

Abbreviation compare' := (BreakpointsSorter.compare toString basenameOrAuthority localeCompare).

(** X1. Among source breakpoints whose URIs print alike the comparator is
    the strict order by line and then column: swapping the arguments
    negates the result, the result is 0 exactly for the same line and
    column, and "before" is transitive. *)
Theorem compare_within_file (u1 u2 u3 : URI) (l1 c1 l2 c2 l3 c3 : Z) :
  toString u1 = toString u2 ->
  toString u2 = toString u3 ->
  compare' (Breakpoint u2 l2 c2) (Breakpoint u1 l1 c1)
  = - compare' (Breakpoint u1 l1 c1) (Breakpoint u2 l2 c2)
  /\ (compare' (Breakpoint u1 l1 c1) (Breakpoint u2 l2 c2) = 0 <-> l1 = l2 /\ c1 = c2)
  /\ (compare' (Breakpoint u1 l1 c1) (Breakpoint u2 l2 c2) < 0 ->
      compare' (Breakpoint u2 l2 c2) (Breakpoint u3 l3 c3) < 0 ->
      compare' (Breakpoint u1 l1 c1) (Breakpoint u3 l3 c3) < 0).
Proof.
  intros H12 H23.
  assert (H13 : toString u1 = toString u3) by congruence.
  rewrite !compare_same_file by congruence.
  destruct (Z.eqb_spec l1 l2), (Z.eqb_spec l2 l1), (Z.eqb_spec l2 l3), (Z.eqb_spec l1 l3);
    repeat split; try lia.
Qed.
End SorterWithinFile.

(** X1, an instance: lines 1, 7 and 7 of /a/x.ts. *)
Lemma compare_within_file_witness :
  PlainHost.compare Examples.inA7 Examples.inA1 = - PlainHost.compare Examples.inA1 Examples.inA7
  /\ (PlainHost.compare Examples.inA1 Examples.inA7 = 0 <-> 1 = 7 /\ 0 = 4)
  /\ (PlainHost.compare Examples.inA1 Examples.inA7 < 0 ->
      PlainHost.compare Examples.inA7 (Breakpoint Examples.fileA 7 9) < 0 ->
      PlainHost.compare Examples.inA1 (Breakpoint Examples.fileA 7 9) < 0).
Proof.
  exact (compare_within_file PlainHost.toString PlainHost.basenameOrAuthority
           PlainHost.localeCompare Examples.fileA Examples.fileA Examples.fileA
           1 0 7 4 7 9 eq_refl eq_refl).
Defined.

(** ** Which view an event reaches *)

Section Reach.
Context {Tree : Type} `{!ITree Tree} {Panel : Type} `{!IViewletPanel Panel}.
Implicit Types (w : Workbench.World Tree Panel) (v : ViewId).

Lemma fire_keeps_breakpoints v w :
  Workbench.breakpointsView (Workbench.fire v w) = Workbench.breakpointsView w.
Proof.
  destruct v; simpl; try done.
  - by destruct (VariablesView.onTimeout _ _ _).
  - by destruct (WatchExpressionsView.onTimeout _ _).
  - by destruct (CallStackView.onTimeout _ _ _).
Qed.

Lemma fired_keeps_breakpoints (due : list EventLoop.Timer) w :
  Workbench.breakpointsView
    (foldl (fun w' x => Workbench.fire (EventLoop.callback x) w') w due)
  = Workbench.breakpointsView w.
Proof.
  revert w. induction due as [| x due IH]; intros w; simpl; [done |].
  by rewrite IH, fire_keeps_breakpoints.
Qed.

Lemma fire_keeps_variables v w :
  v <> Variables ->
  Workbench.variablesView (Workbench.fire v w) = Workbench.variablesView w.
Proof.
  destruct v; simpl; try done.
  - by destruct (WatchExpressionsView.onTimeout _ _).
  - by destruct (CallStackView.onTimeout _ _ _).
Qed.

Lemma fire_keeps_debugService v w :
  Workbench.debugService (Workbench.fire v w) = Workbench.debugService w.
Proof.
  destruct v; simpl; try done.
  - by destruct (VariablesView.onTimeout _ _ _).
  - by destruct (WatchExpressionsView.onTimeout _ _).
  - by destruct (CallStackView.onTimeout _ _ _).
Qed.
End Reach.

(** ** The breakpoints view keeps a fixed height *)

Section FixedHeight.
Context {Tree : Type} `{!ITree Tree} {Panel : Type} `{!IViewletPanel Panel}.
Implicit Types (w : Workbench.World Tree Panel).



End FixedHeight.

(** ** The pause message of the call stack view *)

Section PauseMessage.
Context {Tree : Type} `{!ITree Tree} {Panel : Type} `{!IViewletPanel Panel}.
Implicit Types (w : Workbench.World Tree Panel) (v : CallStackView.t Tree Panel).

Lemma runner_pause_message ds v k :
  CallStackView.pauseMessage (fst (CallStackView.onCallStackChange ds v k))
  = CallStackView.updatePauseMessage (CallStackView.newTreeInput ds) (CallStackView.pauseMessage v).
Proof. unfold CallStackView.onCallStackChange. by destruct (doneWith _ _ _ _). Qed.

(** X3. When the scheduler of the call stack view runs, the global pause
    message ends up shown exactly if the view-model is not a multi-process
    view and the first process has one thread only and that thread is
    stopped; its label then reads the description of the stop or, without
    one, "Paused on" and the reason, and is marked as an exception exactly
    for the reason "exception". When the message is hidden the label keeps
    its text, title and mark. *)
Theorem pause_message_only_for_a_single_stopped_thread ds v k :
  (CallStackView.shown
     (CallStackView.pauseMessage (fst (CallStackView.onCallStackChange ds v k))) = true
   <-> isMultiProcessView (getViewModel ds) = false
       /\ exists first others th details,
            getProcesses (getModel ds) = first :: others
            /\ getAllThreads first = [th]
            /\ stoppedDetails th = Some details)
  /\ (forall first others th details,
        isMultiProcessView (getViewModel ds) = false ->
        getProcesses (getModel ds) = first :: others ->
        getAllThreads first = [th] ->
        stoppedDetails th = Some details ->
        CallStackView.labelText
          (CallStackView.pauseMessage (fst (CallStackView.onCallStackChange ds v k)))
        = (if String.eqb (description details) "" then "Paused on " +:+ reason details
           else description details)
        /\ CallStackView.labelIsException
             (CallStackView.pauseMessage (fst (CallStackView.onCallStackChange ds v k)))
           = String.eqb (reason details) "exception")
  /\ (CallStackView.shown
        (CallStackView.pauseMessage (fst (CallStackView.onCallStackChange ds v k))) = false ->
      CallStackView.labelText
        (CallStackView.pauseMessage (fst (CallStackView.onCallStackChange ds v k)))
      = CallStackView.labelText (CallStackView.pauseMessage v)
      /\ CallStackView.labelTitle
           (CallStackView.pauseMessage (fst (CallStackView.onCallStackChange ds v k)))
         = CallStackView.labelTitle (CallStackView.pauseMessage v)
      /\ CallStackView.labelIsException
           (CallStackView.pauseMessage (fst (CallStackView.onCallStackChange ds v k)))
         = CallStackView.labelIsException (CallStackView.pauseMessage v)).
Proof.
  rewrite runner_pause_message, newTreeInput_stated.
  unfold Stated.treeInput, CallStackView.updatePauseMessage.
  split; [| split].
  - split.
    + destruct (isMultiProcessView (getViewModel ds)); [by destruct (getProcesses (getModel ds)) |].
      destruct (getProcesses (getModel ds)) as [| first others]; [done |].
      destruct (getAllThreads first) as [| th [| th' ths]] eqn:Hthreads; try done.
      destruct (stoppedDetails th) as [details |] eqn:Hstopped; [| done].
      intros _. split; [done |]. by exists first, others, th, details.
    + intros [-> (first & others & th & details & -> & -> & ->)]. done.
  - intros first others th details -> -> -> ->. done.
  - destruct (isMultiProcessView (getViewModel ds)); [by destruct (getProcesses (getModel ds)) |].
    destruct (getProcesses (getModel ds)) as [| first others]; [done |].
    destruct (getAllThreads first) as [| th [| th' ths]]; try done.
    by destruct (stoppedDetails th).
Qed.

Lemma updatePauseMessage_keeps_title (input : CallStackView.TreeInput)
    (m : CallStackView.PauseMessage) :
  CallStackView.labelTitle m <> "" ->
  CallStackView.labelTitle (CallStackView.updatePauseMessage input m) <> "".
Proof.
  intros Htitle. destruct input as [| p | th]; simpl; try done.
  destruct (stoppedDetails th) as [details |]; simpl; [| done].
  destruct (String.eqb_spec (text details) ""); done.
Qed.

Lemma fire_keeps_title u w :
  CallStackView.labelTitle (CallStackView.pauseMessage (Workbench.callStackView w)) <> "" ->
  CallStackView.labelTitle
    (CallStackView.pauseMessage (Workbench.callStackView (Workbench.fire u w))) <> "".
Proof.
  intros Htitle. destruct u; simpl; try done.
  - by destruct (VariablesView.onTimeout _ _ _).
  - by destruct (WatchExpressionsView.onTimeout _ _).
  - unfold CallStackView.onTimeout.
    pose proof (runner_pause_message (Workbench.debugService w)
      {| CallStackView.panel := CallStackView.panel (Workbench.callStackView w);
         CallStackView.widget := CallStackView.widget (Workbench.callStackView w);
         CallStackView.onCallStackChangeScheduler :=
           RunOnceScheduler.onTimeout
             (CallStackView.onCallStackChangeScheduler (Workbench.callStackView w));
         CallStackView.pauseMessage := CallStackView.pauseMessage (Workbench.callStackView w) |}
      (Workbench.sink w)) as Hrunner.
    destruct (CallStackView.onCallStackChange _ _ _) as [v' k']. simpl in *.
    rewrite Hrunner. by apply updatePauseMessage_keeps_title.
Qed.

Lemma fired_keeps_title (due : list EventLoop.Timer) w :
  CallStackView.labelTitle (CallStackView.pauseMessage (Workbench.callStackView w)) <> "" ->
  CallStackView.labelTitle
    (CallStackView.pauseMessage
       (Workbench.callStackView
          (foldl (fun w' x => Workbench.fire (EventLoop.callback x) w') w due))) <> "".
Proof.
  revert w. induction due as [| x due IH]; intros w Htitle; simpl; [done |].
  apply IH. by apply fire_keeps_title.
Qed.

Lemma step_keeps_title w (e : Workbench.Event) :
  CallStackView.labelTitle (CallStackView.pauseMessage (Workbench.callStackView w)) <> "" ->
  CallStackView.labelTitle
    (CallStackView.pauseMessage (Workbench.callStackView (Workbench.step w e))) <> "".
Proof.
  intros Htitle.
  destruct e as [ds | sf | we | | | expression | fbp | dt]; simpl.
  - done.
  - destruct (VariablesView.onDidFocusStackFrame _ _ _).
    unfold CallStackView.onDidFocusStackFrame. by destruct (done_ _ _ _).
  - by destruct (WatchExpressionsView.onDidChangeWatchExpressions _ _ _).
  - unfold CallStackView.onDidChangeCallStack.
    by destruct (if negb _ then _ else _).
  - by destruct (BreakpointsView.onBreakpointsChange _ _ _).
  - destruct (VariablesView.onDidSelectExpression _ _ _),
      (WatchExpressionsView.onDidSelectExpression _ _ _). done.
  - by destruct (BreakpointsView.onDidSelectFunctionBreakpoint _ _ _).
  - by apply fired_keeps_title.
Qed.

(** X4. The title of the pause label is never taken away: the scheduler
    of the call stack view writes the title only for a stop that comes
    with a text, and nothing else writes it, so a title set for one stop
    is still there after whatever happens next, also when later stops
    bring no text of their own. *)
Theorem pause_title_is_never_cleared w (events : list Workbench.Event) :
  CallStackView.labelTitle (CallStackView.pauseMessage (Workbench.callStackView w)) <> "" ->
  CallStackView.labelTitle
    (CallStackView.pauseMessage (Workbench.callStackView (Workbench.run w events))) <> "".
Proof.
  revert w. induction events as [| e events IH]; intros w Htitle; [done |].
  simpl. apply IH. by apply step_keeps_title.
Qed.
End PauseMessage.

Lemma pause_title_is_never_cleared_witness :
  CallStackView.labelTitle
    (CallStackView.pauseMessage (Workbench.callStackView Cases.paused)) = "boom"
  /\ CallStackView.labelTitle
       (CallStackView.pauseMessage
          (Workbench.callStackView
             (Workbench.run Cases.paused
                [Workbench.ModelChanged Examples.frameFocused; Workbench.DidChangeCallStack;
                 Workbench.Elapse 50]))) <> "".
Proof.
  split; [reflexivity |].
  apply (pause_title_is_never_cleared Cases.paused). vm_compute. discriminate.
Defined.

(** ** Timers run out in time *)

Section Punctual.
Context {Tree : Type} `{!ITree Tree} {Panel : Type} `{!IViewletPanel Panel}.
Implicit Types (w : Workbench.World Tree Panel) (v : ViewId).

Lemma punctual_same w w' :
  Workbench.loop w' = Workbench.loop w -> Derived.punctual w -> Derived.punctual w'.
Proof. unfold Derived.punctual. by intros ->. Qed.

Lemma punctual_schedule w w' v (s : RunOnceScheduler.t) (delay : option nat) :
  Workbench.schedulerOf v w = Some s ->
  Workbench.loop w' = snd (RunOnceScheduler.schedule delay s (Workbench.loop w)) ->
  delay = None \/ delay = Some 0%nat ->
  Workbench.consistent w -> Derived.punctual w -> Derived.punctual w'.
Proof.
  intros Hs Hloop Hdelay [Hhandlers _] Hw.
  destruct (Hhandlers v s Hs) as [Hhandler Htimeout].
  unfold Derived.punctual in *. rewrite Hloop, schedule_rearms. simpl.
  apply Forall_app. split.
  - destruct (RunOnceScheduler.timeoutToken s); [| done].
    apply Forall_forall. intros x [_ Hx]%list_elem_of_filter.
    by apply (proj1 (Forall_forall _ _) Hw).
  - apply Forall_singleton. simpl. rewrite Hhandler.
    exists (RunOnceScheduler.timeout s). split; [done |].
    destruct Hdelay as [-> | ->]; simpl; lia.
Qed.

Lemma step_punctual w (e : Workbench.Event) :
  Workbench.consistent w -> Derived.punctual w -> Derived.punctual (Workbench.step w e).
Proof.
  intros Hc Hw. destruct e as [ds | sf | we | | | expression | fbp | dt]; simpl.
  - done.
  - pose proof (variables_focus_schedules sf (Workbench.variablesView w) (Workbench.loop w)) as Hv.
    destruct (VariablesView.onDidFocusStackFrame _ _ _) as [v1 l'].
    destruct (CallStackView.onDidFocusStackFrame _ _ _) as [v3 k']. simpl in Hv.
    eapply (punctual_schedule w _ Variables); [reflexivity | | | exact Hc | exact Hw].
    + simpl. by rewrite <- Hv.
    + destruct (_ || _); auto.
  - pose proof (watch_change_schedules we (Workbench.watchExpressionsView w) (Workbench.loop w)) as Hv.
    destruct (WatchExpressionsView.onDidChangeWatchExpressions _ _ _) as [v2 l']. simpl in Hv.
    destruct (RunOnceScheduler.isScheduled _).
    + inversion Hv as [[Hs Hl]]. done.
    + eapply (punctual_schedule w _ WatchExpressions); [reflexivity | | | exact Hc | exact Hw].
      * simpl. by rewrite <- Hv.
      * auto.
  - pose proof (callstack_change_schedules (Workbench.callStackView w) (Workbench.loop w)) as Hv.
    destruct (CallStackView.onDidChangeCallStack _ _) as [v3 l']. simpl in Hv.
    destruct (RunOnceScheduler.isScheduled _).
    + inversion Hv as [[Hs Hl]]. done.
    + eapply (punctual_schedule w _ CallStack); [reflexivity | | | exact Hc | exact Hw].
      * simpl. by rewrite <- Hv.
      * auto.
  - by destruct (BreakpointsView.onBreakpointsChange _ _ _).
  - destruct (VariablesView.onDidSelectExpression _ _ _),
      (WatchExpressionsView.onDidSelectExpression _ _ _). done.
  - by destruct (BreakpointsView.onDidSelectFunctionBreakpoint _ _ _).
  - unfold Derived.punctual in *. rewrite fired_loop. simpl.
    apply Forall_fmap, Forall_forall. intros x [_ Hx]%list_elem_of_filter.
    destruct (proj1 (Forall_forall _ _) Hw x Hx) as (delay & Hdelay & Hle).
    exists delay. simpl. split; [done | lia].
Qed.

Lemma run_punctual w (events : list Workbench.Event) :
  Workbench.consistent w -> Derived.punctual w ->
  Workbench.consistent (Workbench.run w events) /\ Derived.punctual (Workbench.run w events).
Proof.
  revert w. induction events as [| e events IH]; intros w Hc Hw; [done |].
  simpl. apply IH; [by apply step_consistent | by apply step_punctual].
Qed.

Lemma startup_punctual ds settings (p1 p2 p3 p4 : Panel) :
  Derived.punctual (Workbench.startup ds settings p1 p2 p3 p4).
Proof.
  unfold Derived.punctual, Workbench.startup.
  destruct (VariablesView.create _ _) as [v1 k1], (WatchExpressionsView.create _ _) as [v2 k2].
  pose proof (callstack_create_schedules ds p3 EventLoop.empty) as Hcreate.
  destruct (CallStackView.create _ _ _) as [v3 l3].
  destruct (BreakpointsView.renderBody _ _) as [v4 k4]. simpl in *.
  destruct (state ds); inversion Hcreate as [[Hs Hl]]; try by constructor.
  apply Forall_singleton. exists 50%nat. simpl. split; [done | lia].
Qed.
End Punctual.

(** ** The timer of a view fires *)

Section Firing.
Context {Tree : Type} `{!ITree Tree} {Panel : Type} `{!IViewletPanel Panel}.
Implicit Types (w : Workbench.World Tree Panel) (v : ViewId).

(** A scheduled view has one timer, and it is due within the view's delay. *)
Lemma scheduled_due v w (delay : nat) :
  Workbench.consistent w -> Derived.punctual w ->
  is_Some (Workbench.tokenOf v w) ->
  Workbench.debounce v = Some delay ->
  Workbench.dueWithin delay v w = 1%nat.
Proof.
  intros [_ (_ & _ & Howned)] Hw [token Htoken] Hdelay.
  specialize (Howned v). rewrite Htoken in Howned. destruct Howned as (x & Hx & _).
  unfold Workbench.dueWithin, Workbench.pendingRefreshes. rewrite Hx.
  assert (Hin : x ∈ filter (fun x => EventLoop.callback x = v)
                      (EventLoop.timers (Workbench.loop w))) by (rewrite Hx; set_solver).
  apply list_elem_of_filter in Hin as [Hv Hin].
  destruct (proj1 (Forall_forall _ _) Hw x Hin) as (d & Hd & Hle).
  rewrite Hv, Hdelay in Hd. injection Hd as <-.
  rewrite filter_cons_True by done. done.
Qed.

(** An idle view has no timer. *)
Lemma idle_not_due v w (dt : nat) :
  Workbench.consistent w -> Workbench.tokenOf v w = None -> Workbench.dueWithin dt v w = 0%nat.
Proof.
  intros [_ (_ & _ & Howned)] Htoken.
  specialize (Howned v). rewrite Htoken in Howned.
  unfold Workbench.dueWithin, Workbench.pendingRefreshes. by rewrite Howned.
Qed.

Lemma due_callbacks (dt : nat) v w :
  length (filter (fun x => EventLoop.callback x = v)
            (EventLoop.byDeadline (filter (EventLoop.isDue dt)
               (EventLoop.timers (Workbench.loop w)))))
  = Workbench.dueWithin dt v w.
Proof.
  unfold Workbench.dueWithin, Workbench.pendingRefreshes.
  by rewrite byDeadline_perm, filter_swap.
Qed.

Lemma run_app w (first second : list Workbench.Event) :
  Workbench.run w (first ++ second) = Workbench.run (Workbench.run w first) second.
Proof. apply foldl_app. Qed.

Lemma fire_keeps_watch u w :
  u <> WatchExpressions ->
  Workbench.watchExpressionsView (Workbench.fire u w) = Workbench.watchExpressionsView w.
Proof.
  destruct u; simpl; try done.
  - by destruct (VariablesView.onTimeout _ _ _).
  - by destruct (CallStackView.onTimeout _ _ _).
Qed.

Lemma fired_keeps_watch (due : list EventLoop.Timer) w :
  filter (fun x => EventLoop.callback x = WatchExpressions) due = [] ->
  Workbench.watchExpressionsView
    (foldl (fun w' x => Workbench.fire (EventLoop.callback x) w') w due)
  = Workbench.watchExpressionsView w.
Proof.
  revert w. induction due as [| x due IH]; intros w Hnone; simpl; [done |].
  rewrite filter_cons in Hnone. case_decide; [done |].
  rewrite IH by done. by apply fire_keeps_watch.
Qed.

Lemma fired_watch_once (due : list EventLoop.Timer) w :
  length (filter (fun x => EventLoop.callback x = WatchExpressions) due) = 1%nat ->
  exists k,
    Workbench.watchExpressionsView
      (foldl (fun w' x => Workbench.fire (EventLoop.callback x) w') w due)
    = fst (WatchExpressionsView.onTimeout (Workbench.watchExpressionsView w) k).
Proof.
  revert w. induction due as [| x due IH]; intros w Hone; simpl in *; [done |].
  rewrite filter_cons in Hone. case_decide as Hx.
  - simpl in Hone. rewrite fired_keeps_watch by (apply nil_length_inv; lia).
    rewrite Hx. simpl. exists (Workbench.sink w).
    by destruct (WatchExpressionsView.onTimeout _ _).
  - destruct (IH (Workbench.fire (EventLoop.callback x) w) Hone) as [k Hk].
    exists k. rewrite Hk. by rewrite fire_keeps_watch.
Qed.

Lemma watch_timeout_calls (x : WatchExpressionsView.t Tree Panel) k :
  calls (WatchExpressionsView.widget (fst (WatchExpressionsView.onTimeout x k)))
  = calls (WatchExpressionsView.widget x)
    ++ Derived.revealCalls (WatchExpressionsView.toReveal x)
         (tree (WatchExpressionsView.widget x)).
Proof.
  unfold WatchExpressionsView.onTimeout, WatchExpressionsView.onWatchExpressionsUpdated,
    Derived.revealCalls, doneWith, async, as_. simpl.
  destruct (refresh None (tree (WatchExpressionsView.widget x))) as [[err |] tr]; simpl; [done |].
  destruct (WatchExpressionsView.toReveal x) as [[r | r | r] |]; simpl;
    rewrite ?app_nil_r; try done.
  destruct (reveal (ElExpression r) tr) as [[err |] tr']; simpl;
    by rewrite <- app_assoc.
Qed.

Lemma watch_timeout_toReveal (x : WatchExpressionsView.t Tree Panel) k :
  WatchExpressionsView.toReveal (fst (WatchExpressionsView.onTimeout x k))
  = WatchExpressionsView.toReveal x.
Proof.
  unfold WatchExpressionsView.onTimeout, WatchExpressionsView.onWatchExpressionsUpdated.
  by destruct (doneWith _ _ _ _).
Qed.

Lemma watch_changes_run w (changes : list (option IExpression)) :
  WatchExpressionsView.widget
    (Workbench.watchExpressionsView (Workbench.run w (Derived.watchChanges changes)))
  = WatchExpressionsView.widget (Workbench.watchExpressionsView w).
Proof.
  revert w. induction changes as [| we changes IH]; intros w; [done |].
  change (Workbench.run w (Derived.watchChanges (we :: changes)))
    with (Workbench.run (Workbench.step w (Workbench.DidChangeWatchExpressions we))
            (Derived.watchChanges changes)).
  rewrite IH. simpl.
  pose proof (watch_change_widget we (Workbench.watchExpressionsView w) (Workbench.loop w)) as Hw.
  by destruct (WatchExpressionsView.onDidChangeWatchExpressions _ _ _).
Qed.

Lemma watch_change_noted we w :
  WatchExpressionsView.toReveal
    (Workbench.watchExpressionsView (Workbench.step w (Workbench.DidChangeWatchExpressions we)))
  = we
  /\ is_Some (Workbench.tokenOf WatchExpressions
                (Workbench.step w (Workbench.DidChangeWatchExpressions we))).
Proof.
  simpl. unfold Workbench.tokenOf, WatchExpressionsView.onDidChangeWatchExpressions.
  unfold RunOnceScheduler.isScheduled.
  destruct (RunOnceScheduler.timeoutToken
              (WatchExpressionsView.onWatchExpressionsUpdatedScheduler
                 (Workbench.watchExpressionsView w))) as [token |] eqn:Htoken; simpl.
  - rewrite Htoken. by split.
  - rewrite schedule_rearms. simpl. by split.
Qed.

(** X5. However many changes of the watch expressions arrive in a row,
    the view answers with one refresh of its tree 50 ms later, and what
    it reveals then is the expression of the last change: after the
    refresh is fulfilled, if that change named a watch expression, and
    nothing otherwise. The expressions of the earlier changes are not
    revealed. *)
Theorem watch_view_reveals_the_last_change ds settings (p1 p2 p3 p4 : Panel)
    (history : list Workbench.Event) (changes : list (option IExpression))
    (we : option IExpression) :
  last changes = Some we ->
  Workbench.callsOf WatchExpressions
    (Workbench.run (Workbench.run (Workbench.startup ds settings p1 p2 p3 p4) history)
       (Derived.watchChanges changes ++ [Workbench.Elapse 50]))
  = Workbench.callsOf WatchExpressions
      (Workbench.run (Workbench.startup ds settings p1 p2 p3 p4) history)
    ++ Derived.revealCalls we
         (tree (WatchExpressionsView.widget
                  (Workbench.watchExpressionsView
                     (Workbench.run (Workbench.startup ds settings p1 p2 p3 p4) history)))).
Proof.
  intros [earlier ->]%last_Some.
  destruct (run_punctual _ history (startup_consistent ds settings p1 p2 p3 p4)
              (startup_punctual ds settings p1 p2 p3 p4)) as [Hc Hp].
  set (w0 := Workbench.run _ history) in *.
  replace (Derived.watchChanges (earlier ++ [we]) ++ [Workbench.Elapse 50])
    with (Derived.watchChanges earlier
          ++ [Workbench.DidChangeWatchExpressions we; Workbench.Elapse 50])
    by (unfold Derived.watchChanges; rewrite fmap_app, <- app_assoc; done).
  rewrite run_app.
  change (Workbench.run ?w [?e1; ?e2]) with (Workbench.step (Workbench.step w e1) e2).
  destruct (run_punctual _ (Derived.watchChanges earlier) Hc Hp) as [Hc1 Hp1].
  pose proof (watch_changes_run w0 earlier) as Hwidget.
  set (w1 := Workbench.run w0 _) in *.
  pose proof (step_consistent w1 (Workbench.DidChangeWatchExpressions we) Hc1) as Hc2.
  pose proof (step_punctual w1 (Workbench.DidChangeWatchExpressions we) Hc1 Hp1) as Hp2.
  destruct (watch_change_noted we w1) as [Hnoted Hscheduled].
  pose proof (watch_change_widget we (Workbench.watchExpressionsView w1) (Workbench.loop w1))
    as Hwidget2.
  assert (Hwidget3 :
    WatchExpressionsView.widget
      (Workbench.watchExpressionsView (Workbench.step w1 (Workbench.DidChangeWatchExpressions we)))
    = WatchExpressionsView.widget (Workbench.watchExpressionsView w0)).
  { rewrite <- Hwidget, <- Hwidget2. simpl.
    by destruct (WatchExpressionsView.onDidChangeWatchExpressions _ _ _). }
  set (w2 := Workbench.step w1 _) in *.
  pose proof (scheduled_due WatchExpressions w2 50 Hc2 Hp2 Hscheduled eq_refl) as Hdue.
  rewrite <- due_callbacks in Hdue.
  change (Workbench.step w2 (Workbench.Elapse 50)) with
    (foldl (fun w' x => Workbench.fire (EventLoop.callback x) w')
       {| Workbench.debugService := Workbench.debugService w2;
          Workbench.loop := snd (EventLoop.elapse 50 (Workbench.loop w2));
          Workbench.sink := Workbench.sink w2;
          Workbench.viewletSettings := Workbench.viewletSettings w2;
          Workbench.variablesView := Workbench.variablesView w2;
          Workbench.watchExpressionsView := Workbench.watchExpressionsView w2;
          Workbench.callStackView := Workbench.callStackView w2;
          Workbench.breakpointsView := Workbench.breakpointsView w2 |}
       (EventLoop.byDeadline (filter (EventLoop.isDue 50) (EventLoop.timers (Workbench.loop w2))))).
  match goal with
  | |- context [foldl _ ?w3 ?due] => destruct (fired_watch_once due w3 Hdue) as [k Hk]
  end.
  unfold Workbench.callsOf at 1. rewrite Hk. simpl Workbench.watchExpressionsView.
  rewrite watch_timeout_calls, Hnoted, Hwidget3. done.
Qed.
End Firing.

Lemma watch_view_reveals_the_last_change_witness :
  Workbench.callsOf WatchExpressions
    (Workbench.run (Workbench.run PlainTree.fresh Examples.watchHistory)
       (Derived.watchChanges [Some (Expression 4%nat); Some (Expression 5%nat)]
        ++ [Workbench.Elapse 50]))
  = Workbench.callsOf WatchExpressions (Workbench.run PlainTree.fresh Examples.watchHistory)
    ++ [(CRefresh None, None); (CReveal (ElExpression 5%nat), None)].
Proof.
  exact (watch_view_reveals_the_last_change PlainTree.idle ∅ true true true true
           Examples.watchHistory [Some (Expression 4%nat); Some (Expression 5%nat)]
           (Some (Expression 5%nat)) eq_refl).
Defined.

(** ** Selections *)

Section Selections.
Context {Tree : Type} `{!ITree Tree} {Panel : Type} `{!IViewletPanel Panel}.
Implicit Types (w : Workbench.World Tree Panel).

Lemma highlight_calls (e : Element) (s : Traced Tree) k :
  calls (fst (done_
    (then_ (async (CRefresh (Some e)) (refresh (Some e))) (fun _ s0 =>
       (inr tt, sync COnceDidChangeHighlight id (sync (CSetHighlight e) (setHighlight e) s0))))
    s k))
  = calls s ++ Derived.selectCalls e (tree s).
Proof.
  unfold done_, then_, async, sync, Derived.selectCalls. simpl.
  destruct (refresh (Some e) (tree s)) as [[err |] tr]; simpl; [done |].
  by rewrite <- !app_assoc.
Qed.

Lemma step_keeps_breakpoints_tree w (e : Workbench.Event) :
  is_Some (BreakpointsView.widget (Workbench.breakpointsView w)) ->
  is_Some (BreakpointsView.widget (Workbench.breakpointsView (Workbench.step w e))).
Proof.
  intros Hsome.
  destruct e as [ds | sf | we | | | expression | fbp | dt]; simpl.
  - done.
  - destruct (VariablesView.onDidFocusStackFrame _ _ _), (CallStackView.onDidFocusStackFrame _ _ _).
    done.
  - by destruct (WatchExpressionsView.onDidChangeWatchExpressions _ _ _).
  - by destruct (CallStackView.onDidChangeCallStack _ _).
  - unfold BreakpointsView.onBreakpointsChange.
    destruct (BreakpointsView.widget _) as [s |]; [by destruct (dropped _ _ _) | done].
  - destruct (VariablesView.onDidSelectExpression _ _ _),
      (WatchExpressionsView.onDidSelectExpression _ _ _). done.
  - unfold BreakpointsView.onDidSelectFunctionBreakpoint.
    destruct fbp as [[f | r name | u l c] |]; try done.
    destruct (BreakpointsView.widget _) as [s |]; [| done].
    by destruct (done_ _ _ _).
  - by rewrite fired_keeps_breakpoints.
Qed.

Lemma breakpoints_tree_exists ds settings (p1 p2 p3 p4 : Panel) (history : list Workbench.Event) :
  is_Some (BreakpointsView.widget
             (Workbench.breakpointsView
                (Workbench.run (Workbench.startup ds settings p1 p2 p3 p4) history))).
Proof.
  assert (Hstart : is_Some (BreakpointsView.widget
            (Workbench.breakpointsView (Workbench.startup ds settings p1 p2 p3 p4)))).
  { unfold Workbench.startup.
    destruct (VariablesView.create _ _), (WatchExpressionsView.create _ _),
      (CallStackView.create _ _ _).
    unfold BreakpointsView.renderBody. by destruct (dropped _ _ _). }
  revert Hstart. generalize (Workbench.startup ds settings p1 p2 p3 p4).
  induction history as [| e history IH]; intros w Hw; [done |].
  simpl. by apply IH, step_keeps_breakpoints_tree.
Qed.

(** X6. A selection is highlighted in the one view that shows elements of
    its kind. When the view-model selects an expression, the variables
    view reacts only to a variable and the watch expressions view only to
    a watch expression: the view refreshes that element and, once the
    refresh is fulfilled, highlights it and waits for the highlight to
    end; the other of the two makes no call, and no selection and no
    other kind of expression makes either react. A selected function
    breakpoint gets the same from the breakpoints view, and anything else
    nothing. None of this starts or stops a timer, and the views that do
    not show the element stay as they are. *)
Theorem selection_is_highlighted_in_one_view ds settings (p1 p2 p3 p4 : Panel)
    (history : list Workbench.Event) :
  (forall expression,
     Workbench.callsOf Variables
       (Workbench.step (Workbench.run (Workbench.startup ds settings p1 p2 p3 p4) history)
          (Workbench.DidSelectExpression expression))
     = Workbench.callsOf Variables
         (Workbench.run (Workbench.startup ds settings p1 p2 p3 p4) history)
       ++ match expression with
          | Some (Variable_ r) =>
              Derived.selectCalls (ElVariable r)
                (tree (VariablesView.widget
                   (Workbench.variablesView
                      (Workbench.run (Workbench.startup ds settings p1 p2 p3 p4) history))))
          | _ => []
          end
     /\ Workbench.callsOf WatchExpressions
          (Workbench.step (Workbench.run (Workbench.startup ds settings p1 p2 p3 p4) history)
             (Workbench.DidSelectExpression expression))
        = Workbench.callsOf WatchExpressions
            (Workbench.run (Workbench.startup ds settings p1 p2 p3 p4) history)
          ++ match expression with
             | Some (Expression r) =>
                 Derived.selectCalls (ElExpression r)
                   (tree (WatchExpressionsView.widget
                      (Workbench.watchExpressionsView
                         (Workbench.run (Workbench.startup ds settings p1 p2 p3 p4) history))))
             | _ => []
             end
     /\ Workbench.callStackView
          (Workbench.step (Workbench.run (Workbench.startup ds settings p1 p2 p3 p4) history)
             (Workbench.DidSelectExpression expression))
        = Workbench.callStackView
            (Workbench.run (Workbench.startup ds settings p1 p2 p3 p4) history)
     /\ Workbench.breakpointsView
          (Workbench.step (Workbench.run (Workbench.startup ds settings p1 p2 p3 p4) history)
             (Workbench.DidSelectExpression expression))
        = Workbench.breakpointsView
            (Workbench.run (Workbench.startup ds settings p1 p2 p3 p4) history)
     /\ Workbench.loop
          (Workbench.step (Workbench.run (Workbench.startup ds settings p1 p2 p3 p4) history)
             (Workbench.DidSelectExpression expression))
        = Workbench.loop (Workbench.run (Workbench.startup ds settings p1 p2 p3 p4) history))
  /\ (forall fbp,
        (exists s,
           BreakpointsView.widget
             (Workbench.breakpointsView
                (Workbench.run (Workbench.startup ds settings p1 p2 p3 p4) history)) = Some s
           /\ Workbench.callsOf Breakpoints
                (Workbench.step (Workbench.run (Workbench.startup ds settings p1 p2 p3 p4) history)
                   (Workbench.DidSelectFunctionBreakpoint fbp))
              = calls s
                ++ match fbp with
                   | Some (FunctionBreakpoint r _) =>
                       Derived.selectCalls (ElFunctionBreakpoint r) (tree s)
                   | _ => []
                   end)
        /\ Workbench.variablesView
             (Workbench.step (Workbench.run (Workbench.startup ds settings p1 p2 p3 p4) history)
                (Workbench.DidSelectFunctionBreakpoint fbp))
           = Workbench.variablesView
               (Workbench.run (Workbench.startup ds settings p1 p2 p3 p4) history)
        /\ Workbench.watchExpressionsView
             (Workbench.step (Workbench.run (Workbench.startup ds settings p1 p2 p3 p4) history)
                (Workbench.DidSelectFunctionBreakpoint fbp))
           = Workbench.watchExpressionsView
               (Workbench.run (Workbench.startup ds settings p1 p2 p3 p4) history)
        /\ Workbench.callStackView
             (Workbench.step (Workbench.run (Workbench.startup ds settings p1 p2 p3 p4) history)
                (Workbench.DidSelectFunctionBreakpoint fbp))
           = Workbench.callStackView
               (Workbench.run (Workbench.startup ds settings p1 p2 p3 p4) history)
        /\ Workbench.loop
             (Workbench.step (Workbench.run (Workbench.startup ds settings p1 p2 p3 p4) history)
                (Workbench.DidSelectFunctionBreakpoint fbp))
           = Workbench.loop (Workbench.run (Workbench.startup ds settings p1 p2 p3 p4) history)).
Proof.
  pose proof (breakpoints_tree_exists ds settings p1 p2 p3 p4 history) as [s Hs].
  set (w := Workbench.run _ history) in *.
  split.
  - intros expression. simpl.
    pose proof (fun r k => highlight_calls (ElVariable r)
                  (VariablesView.widget (Workbench.variablesView w)) k) as Hvariable.
    pose proof (fun r k => highlight_calls (ElExpression r)
                  (WatchExpressionsView.widget (Workbench.watchExpressionsView w)) k) as Hwatch.
    unfold VariablesView.onDidSelectExpression, WatchExpressionsView.onDidSelectExpression.
    destruct expression as [[r | r | r] |]; simpl; rewrite ?app_nil_r; try done.
    + specialize (Hwatch r (Workbench.sink w)).
      destruct (done_ _ _ _) as [s' k']. simpl in *. by rewrite Hwatch.
    + specialize (Hvariable r (Workbench.sink w)).
      destruct (done_ _ _ _) as [s' k']. simpl in *. by rewrite Hvariable.
  - intros fbp. simpl. split; [exists s; split; [done |] |].
    + unfold BreakpointsView.onDidSelectFunctionBreakpoint. rewrite Hs.
      destruct fbp as [[f | r name | u l c] |]; simpl; rewrite ?app_nil_r;
        try (unfold BreakpointsView.madeCalls; by rewrite Hs).
      pose proof (highlight_calls (ElFunctionBreakpoint r) s (Workbench.sink w)) as Hfbp.
      destruct (done_ _ _ _) as [s' k']. simpl in *. done.
    + by destruct (BreakpointsView.onDidSelectFunctionBreakpoint _ _ _).
Qed.
End Selections.

(** ** The expansion the variables view remembers *)

Section Remembered.
Context {Tree : Type} `{!ITree Tree} {Panel : Type} `{!IViewletPanel Panel}.
Implicit Types (w : Workbench.World Tree Panel).

Lemma runner_remembers ds (v : VariablesView.t Tree Panel) k :
  VariablesView.expandedElements (fst (VariablesView.onFocusStackFrame ds v k))
  = if (0 <? length (getExpandedElements (tree (VariablesView.widget v))))%nat
    then getExpandedElements (tree (VariablesView.widget v))
    else VariablesView.expandedElements v.
Proof. unfold VariablesView.onFocusStackFrame. by destruct (done_ _ _ _). Qed.

Lemma fire_keeps_remembered u w :
  VariablesView.expandedElements (Workbench.variablesView w) <> [] ->
  VariablesView.expandedElements (Workbench.variablesView (Workbench.fire u w)) <> [].
Proof.
  intros Hkept. destruct u; simpl; try done.
  - unfold VariablesView.onTimeout.
    pose proof (runner_remembers (Workbench.debugService w)
      {| VariablesView.panel := VariablesView.panel (Workbench.variablesView w);
         VariablesView.widget := VariablesView.widget (Workbench.variablesView w);
         VariablesView.onFocusStackFrameScheduler :=
           RunOnceScheduler.onTimeout
             (VariablesView.onFocusStackFrameScheduler (Workbench.variablesView w));
         VariablesView.expandedElements :=
           VariablesView.expandedElements (Workbench.variablesView w) |}
      (Workbench.sink w)) as Hrunner.
    destruct (VariablesView.onFocusStackFrame _ _ _) as [v' k']. simpl in *.
    rewrite Hrunner.
    destruct (getExpandedElements _) as [| e expanded]; simpl; done.
  - by destruct (WatchExpressionsView.onTimeout _ _).
  - by destruct (CallStackView.onTimeout _ _ _).
Qed.

Lemma fired_keeps_remembered (due : list EventLoop.Timer) w :
  VariablesView.expandedElements (Workbench.variablesView w) <> [] ->
  VariablesView.expandedElements
    (Workbench.variablesView
       (foldl (fun w' x => Workbench.fire (EventLoop.callback x) w') w due)) <> [].
Proof.
  revert w. induction due as [| x due IH]; intros w Hkept; simpl; [done |].
  apply IH. by apply fire_keeps_remembered.
Qed.

Lemma step_keeps_remembered w (e : Workbench.Event) :
  VariablesView.expandedElements (Workbench.variablesView w) <> [] ->
  VariablesView.expandedElements (Workbench.variablesView (Workbench.step w e)) <> [].
Proof.
  intros Hkept.
  destruct e as [ds | sf | we | | | expression | fbp | dt]; simpl.
  - done.
  - unfold VariablesView.onDidFocusStackFrame.
    destruct (if _ || _ then _ else _), (CallStackView.onDidFocusStackFrame _ _ _). done.
  - by destruct (WatchExpressionsView.onDidChangeWatchExpressions _ _ _).
  - by destruct (CallStackView.onDidChangeCallStack _ _).
  - by destruct (BreakpointsView.onBreakpointsChange _ _ _).
  - unfold VariablesView.onDidSelectExpression.
    destruct expression as [[r | r | r] |];
      try (by destruct (WatchExpressionsView.onDidSelectExpression _ _ _)).
    destruct (done_ _ _ _), (WatchExpressionsView.onDidSelectExpression _ _ _). done.
  - by destruct (BreakpointsView.onDidSelectFunctionBreakpoint _ _ _).
  - by apply fired_keeps_remembered.
Qed.

(** X7. The variables view does not forget an expansion: when its timer
    fires it takes over the expanded elements of the tree if there are
    some and keeps the ones it remembers if there are none, and nothing
    else writes them. So once the view remembers expanded elements it
    remembers some after whatever happens next, also after a refresh that
    found everything collapsed. *)
Theorem remembered_expansion_is_not_erased w (events : list Workbench.Event) :
  VariablesView.expandedElements (Workbench.variablesView w) <> [] ->
  VariablesView.expandedElements (Workbench.variablesView (Workbench.run w events)) <> []
  /\ forall k,
       VariablesView.expandedElements
         (fst (VariablesView.onTimeout (Workbench.debugService (Workbench.run w events))
                 (Workbench.variablesView (Workbench.run w events)) k))
       = match getExpandedElements
                 (tree (VariablesView.widget (Workbench.variablesView (Workbench.run w events))))
         with
         | [] => VariablesView.expandedElements (Workbench.variablesView (Workbench.run w events))
         | expanded => expanded
         end.
Proof.
  intros Hkept. split.
  - revert w Hkept. induction events as [| e events IH]; intros w Hkept; [done |].
    simpl. apply IH. by apply step_keeps_remembered.
  - intros k. unfold VariablesView.onTimeout. rewrite runner_remembers. simpl.
    by destruct (getExpandedElements _).
Qed.
End Remembered.

Lemma remembered_expansion_is_not_erased_witness :
  VariablesView.expandedElements (Workbench.variablesView Cases.settledTwice)
  = [ElScope 31%nat]
  /\ VariablesView.expandedElements
       (Workbench.variablesView
          (Workbench.run Cases.settledTwice
             [Workbench.ModelChanged PlainTree.idle;
              Workbench.DidFocusStackFrame Examples.clicked; Workbench.Elapse 0])) <> [].
Proof.
  split; [reflexivity |].
  apply (remembered_expansion_is_not_erased Cases.settledTwice). vm_compute. discriminate.
Defined.

(** ** The order of the shutdowns *)

Section ShutdownOrder.
Context {Tree : Type} `{!ITree Tree} {Panel : Type} `{!IViewletPanel Panel}.
Implicit Types (w : Workbench.World Tree Panel).

Lemma shutdown_commutes (u v : ViewId) w :
  u <> v ->
  Workbench.shutdown u (Workbench.shutdown v w) = Workbench.shutdown v (Workbench.shutdown u w).
Proof.
  intros Hne.
  destruct u, v; try contradiction; unfold Workbench.shutdown; simpl;
    f_equal; by apply insert_insert_ne.
Qed.

Lemma shutdown_keeps_panel (u v : ViewId) w :
  u <> v -> Workbench.panelOf v (Workbench.shutdown u w) = Workbench.panelOf v w.
Proof. intros Hne. by destruct u, v. Qed.

Lemma shutdownAll_keeps_flag (v : ViewId) (order : list ViewId) w :
  v ∉ order ->
  Workbench.viewletSettings (Derived.shutdownAll w order) !! Workbench.mementoKey v
  = Workbench.viewletSettings w !! Workbench.mementoKey v.
Proof.
  revert w. induction order as [| u order IH]; intros w Hnotin; [done |].
  apply not_elem_of_cons in Hnotin as [Hne Hnotin].
  unfold Derived.shutdownAll in *. simpl. rewrite IH by done.
  rewrite shutdown_settings. apply lookup_insert_ne. by apply memento_keys_differ.
Qed.

Lemma shutdownAll_perm (order order' : list ViewId) :
  order ≡ₚ order' -> NoDup order ->
  forall w, Derived.shutdownAll w order = Derived.shutdownAll w order'.
Proof.
  unfold Derived.shutdownAll.
  induction 1 as [| x l l' Hperm IH | x y l | l l' l'' Hperm IH Hperm' IH'];
    intros Hnodup w; simpl.
  - done.
  - apply NoDup_cons in Hnodup as [_ Hnodup]. by apply IH.
  - apply NoDup_cons in Hnodup as [Hy _]. f_equal. apply shutdown_commutes.
    intros ->. apply Hy. by left.
  - rewrite IH by done. apply IH'. by rewrite <- Hperm.
Qed.

(** X8. The four views write their flags into one settings object, and
    they do not get into each other's way: shutting down a set of views
    leaves the same workbench in whatever order they go, and the flag of
    each of them is the negation of the expansion state its panel had
    before the first of them went. *)
Theorem shutdown_order_is_irrelevant w (order order' : list ViewId) :
  NoDup order -> order ≡ₚ order' ->
  Derived.shutdownAll w order = Derived.shutdownAll w order'
  /\ forall v, v ∈ order ->
       Workbench.viewletSettings (Derived.shutdownAll w order) !! Workbench.mementoKey v
       = Some (JSBoolean (negb (isExpanded (Workbench.panelOf v w)))).
Proof.
  intros Hnodup Hperm. split; [by apply shutdownAll_perm |].
  clear order' Hperm. revert w Hnodup.
  induction order as [| u order IH]; intros w Hnodup v Hin; [by apply elem_of_nil in Hin |].
  apply NoDup_cons in Hnodup as [Hu Hnodup].
  change (Derived.shutdownAll w (u :: order))
    with (Derived.shutdownAll (Workbench.shutdown u w) order).
  apply elem_of_cons in Hin as [-> | Hin].
  - rewrite shutdownAll_keeps_flag by done.
    rewrite shutdown_settings. apply lookup_insert_eq.
  - rewrite IH by done. rewrite shutdown_keeps_panel; [done |].
    intros ->. contradiction.
Qed.
End ShutdownOrder.

Lemma shutdown_order_is_irrelevant_witness :
  Derived.shutdownAll PlainTree.fresh [Variables; Breakpoints; CallStack]
  = Derived.shutdownAll PlainTree.fresh [Breakpoints; Variables; CallStack]
  /\ forall v, v ∈ [Variables; Breakpoints; CallStack] ->
       Workbench.viewletSettings
         (Derived.shutdownAll PlainTree.fresh [Variables; Breakpoints; CallStack])
         !! Workbench.mementoKey v
       = Some (JSBoolean (negb (isExpanded (Workbench.panelOf v PlainTree.fresh)))).
Proof.
  apply (shutdown_order_is_irrelevant PlainTree.fresh
           [Variables; Breakpoints; CallStack] [Breakpoints; Variables; CallStack]).
  - apply (bool_decide_unpack _). reflexivity.
  - apply perm_swap.
Defined.

(** ** A view that is opened while the program is stopped *)

Section OpenedWhileStopped.
Context {Tree : Type} `{!ITree Tree} {Panel : Type} `{!IViewletPanel Panel}.
Implicit Types (w : Workbench.World Tree Panel).

Lemma startup_loop ds settings (p1 p2 p3 p4 : Panel) :
  Workbench.loop (Workbench.startup ds settings p1 p2 p3 p4)
  = match state ds with
    | Stopped => snd (RunOnceScheduler.schedule None (RunOnceScheduler.create CallStack 50)
                        EventLoop.empty)
    | _ => EventLoop.empty
    end.
Proof.
  unfold Workbench.startup.
  destruct (VariablesView.create _ _) as [v1 k1], (WatchExpressionsView.create _ _) as [v2 k2].
  pose proof (callstack_create_schedules ds p3 EventLoop.empty) as Hcreate.
  destruct (CallStackView.create _ _ _) as [v3 l3].
  destruct (BreakpointsView.renderBody _ _) as [v4 k4]. simpl in *.
  by destruct (state ds); inversion Hcreate.
Qed.

Lemma startup_callstack_calls ds settings (p1 p2 p3 p4 : Panel) :
  Workbench.callsOf CallStack (Workbench.startup ds settings p1 p2 p3 p4) = [].
Proof.
  unfold Workbench.startup.
  destruct (VariablesView.create _ _) as [v1 k1], (WatchExpressionsView.create _ _) as [v2 k2].
  unfold CallStackView.create.
  destruct (match state ds with Stopped => _ | _ => _ end) as [sch l3].
  by destruct (BreakpointsView.renderBody _ _) as [v4 k4].
Qed.

(** X9. The call stack view that is opened while the program is stopped
    updates its tree by itself: rendering the view starts its timer of
    50 ms, so that the tree is set up once after 50 ms without any
    notification of the model. Opened in any other state the view starts
    no timer and leaves its tree alone however long nothing happens. The
    other views start no timer when they are rendered. *)
Theorem call_stack_view_opened_while_stopped ds settings (p1 p2 p3 p4 : Panel) (dt : nat) :
  Workbench.pendingRefreshes CallStack (Workbench.startup ds settings p1 p2 p3 p4)
  = match state ds with
    | Stopped =>
        [ {| EventLoop.timerId := 0; EventLoop.callback := CallStack; EventLoop.remaining := 50 |} ]
    | _ => []
    end
  /\ Workbench.treeRefreshes CallStack
       (Workbench.step (Workbench.startup ds settings p1 p2 p3 p4) (Workbench.Elapse dt))
     = match state ds with
       | Stopped => if (50 <=? dt)%nat then 1%nat else 0%nat
       | _ => 0%nat
       end
  /\ (state ds <> Stopped ->
      Workbench.callsOf CallStack
        (Workbench.step (Workbench.startup ds settings p1 p2 p3 p4) (Workbench.Elapse dt)) = [])
  /\ Workbench.pendingRefreshes Variables (Workbench.startup ds settings p1 p2 p3 p4) = []
  /\ Workbench.pendingRefreshes WatchExpressions (Workbench.startup ds settings p1 p2 p3 p4) = [].
Proof.
  pose proof (startup_loop ds settings p1 p2 p3 p4) as Hloop.
  pose proof (startup_callstack_calls ds settings p1 p2 p3 p4) as Hcalls.
  assert (Hpending : forall v,
    Workbench.pendingRefreshes v (Workbench.startup ds settings p1 p2 p3 p4)
    = match state ds with
      | Stopped =>
          filter (fun x => EventLoop.callback x = v)
            [ {| EventLoop.timerId := 0; EventLoop.callback := CallStack;
                 EventLoop.remaining := 50 |} ]
      | _ => []
      end).
  { intros v. unfold Workbench.pendingRefreshes. rewrite Hloop. by destruct (state ds). }
  split; [| split; [| split; [| split]]].
  - rewrite Hpending. by destruct (state ds).
  - rewrite elapse_refreshes by done.
    unfold Workbench.treeRefreshes, Workbench.dueWithin. rewrite Hcalls, Hpending.
    destruct (state ds); try done.
    rewrite filter_cons_True by done.
    destruct (Nat.leb_spec 50 dt) as [Hle | Hlt].
    + by rewrite filter_cons_True by (unfold EventLoop.isDue; simpl; lia).
    + by rewrite filter_cons_False by (unfold EventLoop.isDue; simpl; lia).
  - intros Hstate. simpl. rewrite Hloop.
    set (w := Workbench.startup ds settings p1 p2 p3 p4) in *.
    by destruct (state ds).
  - rewrite Hpending. by destruct (state ds).
  - rewrite Hpending. by destruct (state ds).
Qed.
End OpenedWhileStopped.

(** ** The variables view while the user steps *)

Section Stepping.
Context {Tree : Type} `{!ITree Tree} {Panel : Type} `{!IViewletPanel Panel}.
Implicit Types (w : Workbench.World Tree Panel).

Lemma fired_keeps_variables (due : list EventLoop.Timer) w :
  filter (fun x => EventLoop.callback x = Variables) due = [] ->
  Workbench.variablesView
    (foldl (fun w' x => Workbench.fire (EventLoop.callback x) w') w due)
  = Workbench.variablesView w.
Proof.
  revert w. induction due as [| x due IH]; intros w Hnone; simpl; [done |].
  rewrite filter_cons in Hnone. case_decide; [done |].
  rewrite IH by done. by apply fire_keeps_variables.
Qed.

(** A focus change that is not explicit, on a tree that is visible,
    leaves the variables view with one timer, of 400 ms. *)
Lemma stepping_rearms (sf : VariablesView.FocusEvent) w :
  Workbench.consistent w ->
  VariablesView.explicit sf = false ->
  getContentHeight (tree (VariablesView.widget (Workbench.variablesView w))) <> 0%nat ->
  Workbench.pendingRefreshes Variables (Workbench.step w (Workbench.DidFocusStackFrame sf))
  = [ {| EventLoop.timerId := EventLoop.nextTimerId (Workbench.loop w);
         EventLoop.callback := Variables; EventLoop.remaining := 400 |} ].
Proof.
  intros Hc Hexplicit Hheight.
  pose proof (step_consistent w (Workbench.DidFocusStackFrame sf) Hc) as [_ (_ & _ & Howned)].
  specialize (Howned Variables).
  destruct Hc as [Hhandlers _].
  destruct (Hhandlers Variables _ eq_refl) as [Hhandler Htimeout].
  injection Htimeout as Htimeout.
  unfold Workbench.pendingRefreshes, Workbench.tokenOf in *. simpl in *.
  pose proof (variables_focus_schedules sf (Workbench.variablesView w) (Workbench.loop w)) as Hv.
  destruct (VariablesView.onDidFocusStackFrame _ _ _) as [v1 l'].
  destruct (CallStackView.onDidFocusStackFrame _ _ _) as [v3 k']. simpl in *.
  rewrite Hexplicit, orb_false_r in Hv.
  destruct (Nat.eqb_spec (getContentHeight (tree (VariablesView.widget (Workbench.variablesView w))))
              0) as [Hzero | _]; [contradiction |].
  rewrite schedule_rearms in Hv. injection Hv as Hs Hl.
  rewrite Hs in Howned. simpl in Howned. destruct Howned as (x & Hx & Hid).
  rewrite Hx.
  assert (Hin : {| EventLoop.timerId := EventLoop.nextTimerId (Workbench.loop w);
                   EventLoop.callback := Variables; EventLoop.remaining := 400 |}
                ∈ filter (fun x => EventLoop.callback x = Variables) (EventLoop.timers l')).
  { apply list_elem_of_filter. split; [done |].
    rewrite Hl. simpl. apply elem_of_app. right.
    rewrite Hhandler, Htimeout. simpl. by left. }
  rewrite Hx in Hin. apply list_elem_of_singleton in Hin. by rewrite Hin.
Qed.

Lemma waiting_keeps_variables (gap : nat) w (x : EventLoop.Timer) :
  Workbench.pendingRefreshes Variables w = [x] ->
  (gap < EventLoop.remaining x)%nat ->
  Workbench.variablesView (Workbench.step w (Workbench.Elapse gap)) = Workbench.variablesView w.
Proof.
  intros Hpending Hgap. simpl. rewrite fired_keeps_variables; [done |].
  apply nil_length_inv. simpl. rewrite due_callbacks.
  unfold Workbench.dueWithin. rewrite Hpending.
  rewrite filter_cons_False by (unfold EventLoop.isDue; lia). done.
Qed.

Lemma stepping_run (sf : VariablesView.FocusEvent) (gaps : list nat) w :
  Workbench.consistent w ->
  VariablesView.explicit sf = false ->
  getContentHeight (tree (VariablesView.widget (Workbench.variablesView w))) <> 0%nat ->
  Forall (fun gap => (gap < 400)%nat) gaps ->
  Workbench.consistent (Workbench.run w (Derived.stepping sf gaps))
  /\ VariablesView.widget (Workbench.variablesView (Workbench.run w (Derived.stepping sf gaps)))
     = VariablesView.widget (Workbench.variablesView w)
  /\ exists token,
       Workbench.pendingRefreshes Variables (Workbench.run w (Derived.stepping sf gaps))
       = [ {| EventLoop.timerId := token; EventLoop.callback := Variables;
              EventLoop.remaining := 400 |} ].
Proof.
  intros Hc Hexplicit Hheight Hgaps.
  unfold Derived.stepping.
  change (Workbench.run w (?e :: ?rest)) with (Workbench.run (Workbench.step w e) rest).
  pose proof (step_consistent w (Workbench.DidFocusStackFrame sf) Hc) as Hc1.
  pose proof (stepping_rearms sf w Hc Hexplicit Hheight) as Hpending1.
  assert (Hwidget1 :
    VariablesView.widget
      (Workbench.variablesView (Workbench.step w (Workbench.DidFocusStackFrame sf)))
    = VariablesView.widget (Workbench.variablesView w)).
  { simpl.
    pose proof (variables_focus_widget sf (Workbench.variablesView w) (Workbench.loop w)) as Hv.
    destruct (VariablesView.onDidFocusStackFrame _ _ _) as [v1 l'].
    by destruct (CallStackView.onDidFocusStackFrame _ _ _). }
  rewrite <- Hwidget1. rewrite <- Hwidget1 in Hheight.
  revert Hc1 Hpending1 Hheight.
  generalize (EventLoop.nextTimerId (Workbench.loop w)).
  generalize (Workbench.step w (Workbench.DidFocusStackFrame sf)).
  clear w Hc Hwidget1.
  induction Hgaps as [| gap gaps Hgap Hgaps IH]; intros w token Hc Hpending Hheight.
  - split; [done |]. split; [done |]. by exists token.
  - change (Workbench.run w ((gap :: gaps) ≫= _))
      with (Workbench.run
              (Workbench.step (Workbench.step w (Workbench.Elapse gap))
                 (Workbench.DidFocusStackFrame sf))
              (gaps ≫= fun gap => [Workbench.Elapse gap; Workbench.DidFocusStackFrame sf])).
    pose proof (waiting_keeps_variables gap w _ Hpending Hgap) as Hkept.
    pose proof (step_consistent w (Workbench.Elapse gap) Hc) as Hc1.
    set (w1 := Workbench.step w (Workbench.Elapse gap)) in *.
    assert (Hheight1 :
      getContentHeight (tree (VariablesView.widget (Workbench.variablesView w1))) <> 0%nat)
      by (by rewrite Hkept).
    pose proof (step_consistent w1 (Workbench.DidFocusStackFrame sf) Hc1) as Hc2.
    pose proof (stepping_rearms sf w1 Hc1 Hexplicit Hheight1) as Hpending2.
    assert (Hwidget2 :
      VariablesView.widget
        (Workbench.variablesView (Workbench.step w1 (Workbench.DidFocusStackFrame sf)))
      = VariablesView.widget (Workbench.variablesView w)).
    { rewrite <- Hkept. simpl.
      pose proof (variables_focus_widget sf (Workbench.variablesView w1) (Workbench.loop w1))
        as Hv.
      destruct (VariablesView.onDidFocusStackFrame _ _ _) as [v1 l'].
      by destruct (CallStackView.onDidFocusStackFrame _ _ _). }
    rewrite <- Hwidget2. apply (IH _ _ Hc2 Hpending2). by rewrite Hwidget2.
Qed.

(** X10. The variables view postpones its refresh until the user stops
    stepping. While focus changes that are not explicit reach a visible
    tree less than 400 ms apart, the view makes no call on its tree at
    all, however long the stepping goes on; 400 ms after the last of
    them it refreshes the tree once. *)
Theorem variables_view_waits_for_the_stepping_to_end ds settings (p1 p2 p3 p4 : Panel)
    (history : list Workbench.Event) (sf : VariablesView.FocusEvent) (gaps : list nat) :
  VariablesView.explicit sf = false ->
  getContentHeight
    (tree (VariablesView.widget
             (Workbench.variablesView
                (Workbench.run (Workbench.startup ds settings p1 p2 p3 p4) history)))) <> 0%nat ->
  Forall (fun gap => (gap < 400)%nat) gaps ->
  Workbench.callsOf Variables
    (Workbench.run (Workbench.run (Workbench.startup ds settings p1 p2 p3 p4) history)
       (Derived.stepping sf gaps))
  = Workbench.callsOf Variables
      (Workbench.run (Workbench.startup ds settings p1 p2 p3 p4) history)
  /\ Workbench.treeRefreshes Variables
       (Workbench.run (Workbench.run (Workbench.startup ds settings p1 p2 p3 p4) history)
          (Derived.stepping sf gaps ++ [Workbench.Elapse 400]))
     = S (Workbench.treeRefreshes Variables
            (Workbench.run (Workbench.startup ds settings p1 p2 p3 p4) history)).
Proof.
  intros Hexplicit Hheight Hgaps.
  pose proof (run_consistent _ history (startup_consistent ds settings p1 p2 p3 p4)) as Hc.
  set (w := Workbench.run _ history) in *.
  destruct (stepping_run sf gaps w Hc Hexplicit Hheight Hgaps) as (Hc' & Hwidget & token & Hpending).
  split.
  - unfold Workbench.callsOf. by rewrite Hwidget.
  - rewrite run_app.
    change (Workbench.run ?w0 [?e]) with (Workbench.step w0 e).
    rewrite elapse_refreshes by done.
    unfold Workbench.dueWithin. rewrite Hpending.
    rewrite filter_cons_True by (unfold EventLoop.isDue; simpl; lia).
    unfold Workbench.treeRefreshes, Workbench.callsOf. rewrite Hwidget. simpl. lia.
Qed.
End Stepping.

Lemma variables_view_waits_for_the_stepping_to_end_witness :
  Workbench.callsOf Variables
    (Workbench.run (Workbench.run PlainTree.fresh []) (Derived.stepping Examples.stepped [300; 399]%nat))
  = Workbench.callsOf Variables (Workbench.run PlainTree.fresh [])
  /\ Workbench.treeRefreshes Variables
       (Workbench.run (Workbench.run PlainTree.fresh [])
          (Derived.stepping Examples.stepped [300; 399]%nat ++ [Workbench.Elapse 400]))
     = S (Workbench.treeRefreshes Variables (Workbench.run PlainTree.fresh [])).
Proof.
  apply (variables_view_waits_for_the_stepping_to_end PlainTree.idle ∅ true true true true []
           Examples.stepped [300; 399]%nat).
  - reflexivity.
  - vm_compute. discriminate.
  - repeat constructor; lia.
Defined.

(** ** What the sink holds *)

Section Reported.
Context {Tree : Type} `{!ITree Tree} {Panel : Type} `{!IViewletPanel Panel}.
Implicit Types (w : Workbench.World Tree Panel).

Lemma variables_runner_routed ds (v : VariablesView.t Tree Panel) k :
  Stated.routed (calls (VariablesView.widget v)) k
    (calls (VariablesView.widget (fst (VariablesView.onFocusStackFrame ds v k))))
    (snd (VariablesView.onFocusStackFrame ds v k)).
Proof.
  unfold VariablesView.onFocusStackFrame.
  match goal with |- context [done_ ?p ?s k] =>
    pose proof (done_routed p s k (orderly_variables_chain ds _)) as Hr;
    destruct (done_ p s k) end.
  eapply routed_after_sync, Hr.
Qed.

Lemma variables_select_routed expression (v : VariablesView.t Tree Panel) k :
  Stated.routed (calls (VariablesView.widget v)) k
    (calls (VariablesView.widget (fst (VariablesView.onDidSelectExpression expression v k))))
    (snd (VariablesView.onDidSelectExpression expression v k)).
Proof.
  destruct expression as [[r | r | r] |]; simpl; try apply routed_refl.
  match goal with |- context [done_ ?p ?s k] =>
    pose proof (done_routed p s k) as Hr; destruct (done_ p s k) end.
  apply Hr, orderly_then; [apply orderly_async | intros _; apply orderly_highlight].
Qed.

Lemma watch_runner_routed (v : WatchExpressionsView.t Tree Panel) k :
  Stated.routed (calls (WatchExpressionsView.widget v)) k
    (calls (WatchExpressionsView.widget (fst (WatchExpressionsView.onWatchExpressionsUpdated v k))))
    (snd (WatchExpressionsView.onWatchExpressionsUpdated v k)).
Proof.
  unfold WatchExpressionsView.onWatchExpressionsUpdated.
  match goal with |- context [doneWith ?p ?f ?s k] =>
    pose proof (doneWith_routed p f s k) as Hr; destruct (doneWith p f s k) end.
  apply Hr; [apply orderly_async |]. intros _.
  destruct (WatchExpressionsView.toReveal v) as [[r | r | r] |];
    first [apply orderly_async | apply orderly_as].
Qed.

Lemma watch_select_routed expression (v : WatchExpressionsView.t Tree Panel) k :
  Stated.routed (calls (WatchExpressionsView.widget v)) k
    (calls (WatchExpressionsView.widget
              (fst (WatchExpressionsView.onDidSelectExpression expression v k))))
    (snd (WatchExpressionsView.onDidSelectExpression expression v k)).
Proof.
  destruct expression as [[r | r | r] |]; simpl; try apply routed_refl.
  match goal with |- context [done_ ?p ?s k] =>
    pose proof (done_routed p s k) as Hr; destruct (done_ p s k) end.
  apply Hr, orderly_then; [apply orderly_async | intros _; apply orderly_highlight].
Qed.

Lemma callstack_runner_routed ds (v : CallStackView.t Tree Panel) k :
  Stated.routed (calls (CallStackView.widget v)) k
    (calls (CallStackView.widget (fst (CallStackView.onCallStackChange ds v k))))
    (snd (CallStackView.onCallStackChange ds v k)).
Proof.
  unfold CallStackView.onCallStackChange.
  match goal with |- context [doneWith ?p ?f ?s k] =>
    pose proof (doneWith_routed p f s k) as Hr; destruct (doneWith p f s k) end.
  apply Hr; [| intros _; apply orderly_updateTreeSelection].
  intros s0. destruct (decide _); apply orderly_async.
Qed.

Lemma callstack_focus_routed ds (v : CallStackView.t Tree Panel) k :
  Stated.routed (calls (CallStackView.widget v)) k
    (calls (CallStackView.widget (fst (CallStackView.onDidFocusStackFrame ds v k))))
    (snd (CallStackView.onDidFocusStackFrame ds v k)).
Proof.
  unfold CallStackView.onDidFocusStackFrame.
  match goal with |- context [done_ ?p ?s k] =>
    pose proof (done_routed p s k) as Hr; destruct (done_ p s k) end.
  apply Hr, orderly_updateTreeSelection.
Qed.

Lemma breakpoints_change_routed ds (v : BreakpointsView.t Tree Panel) k :
  Stated.routed (BreakpointsView.madeCalls v) k
    (BreakpointsView.madeCalls (fst (BreakpointsView.onBreakpointsChange ds v k)))
    (snd (BreakpointsView.onBreakpointsChange ds v k)).
Proof.
  unfold BreakpointsView.onBreakpointsChange, BreakpointsView.madeCalls.
  destruct (BreakpointsView.widget v) as [s |]; [| apply routed_refl].
  match goal with |- context [dropped ?p ?s k] =>
    pose proof (dropped_routed p s k) as Hr; destruct (dropped p s k) end.
  apply Hr, orderly_async.
Qed.

Lemma breakpoints_select_routed fbp (v : BreakpointsView.t Tree Panel) k :
  Stated.routed (BreakpointsView.madeCalls v) k
    (BreakpointsView.madeCalls (fst (BreakpointsView.onDidSelectFunctionBreakpoint fbp v k)))
    (snd (BreakpointsView.onDidSelectFunctionBreakpoint fbp v k)).
Proof.
  unfold BreakpointsView.onDidSelectFunctionBreakpoint, BreakpointsView.madeCalls.
  destruct fbp as [[f | r name | u l c] |]; try apply routed_refl.
  destruct (BreakpointsView.widget v) as [s |] eqn:Hwidget; simpl;
    [| rewrite Hwidget; apply routed_refl].
  match goal with |- context [done_ ?p ?s k] =>
    pose proof (done_routed p s k) as Hr; destruct (done_ p s k) end.
  apply Hr, orderly_then; [apply orderly_async | intros _; apply orderly_highlight].
Qed.

(** One view made calls and reported their rejections; the others made
    none. *)
Lemma reported_after (v : ViewId) w w' :
  Stated.routed (Workbench.callsOf v w) (Workbench.sink w)
    (Workbench.callsOf v w') (Workbench.sink w') ->
  (forall u, u <> v -> Workbench.callsOf u w' = Workbench.callsOf u w) ->
  Workbench.sink w ≡ₚ Derived.allFailures w ->
  Workbench.sink w' ≡ₚ Derived.allFailures w'.
Proof.
  intros (made & Hafter & Hsink & _) Hothers Hw.
  unfold Derived.allFailures in *. rewrite Hsink, Hw.
  destruct v; rewrite Hafter, failures_app;
    repeat (match goal with
            | |- context [Workbench.callsOf ?u w'] =>
                rewrite (Hothers u) by discriminate
            end);
    solve_Permutation.
Qed.

Lemma fire_reported u w :
  Workbench.sink w ≡ₚ Derived.allFailures w ->
  Workbench.sink (Workbench.fire u w) ≡ₚ Derived.allFailures (Workbench.fire u w).
Proof.
  destruct u.
  - apply (reported_after Variables).
    + simpl. unfold VariablesView.onTimeout.
      match goal with |- context [VariablesView.onFocusStackFrame ?ds ?v ?k] =>
        pose proof (variables_runner_routed ds v k) as Hr;
        destruct (VariablesView.onFocusStackFrame ds v k) end.
      exact Hr.
    + intros u Hu. simpl. destruct (VariablesView.onTimeout _ _ _). by destruct u.
  - apply (reported_after WatchExpressions).
    + simpl. unfold WatchExpressionsView.onTimeout.
      match goal with |- context [WatchExpressionsView.onWatchExpressionsUpdated ?v ?k] =>
        pose proof (watch_runner_routed v k) as Hr;
        destruct (WatchExpressionsView.onWatchExpressionsUpdated v k) end.
      exact Hr.
    + intros u Hu. simpl. destruct (WatchExpressionsView.onTimeout _ _). by destruct u.
  - apply (reported_after CallStack).
    + simpl. unfold CallStackView.onTimeout.
      match goal with |- context [CallStackView.onCallStackChange ?ds ?v ?k] =>
        pose proof (callstack_runner_routed ds v k) as Hr;
        destruct (CallStackView.onCallStackChange ds v k) end.
      exact Hr.
    + intros u Hu. simpl. destruct (CallStackView.onTimeout _ _ _). by destruct u.
  - done.
Qed.

Lemma fired_reported (due : list EventLoop.Timer) w :
  Workbench.sink w ≡ₚ Derived.allFailures w ->
  Workbench.sink (foldl (fun w' x => Workbench.fire (EventLoop.callback x) w') w due)
  ≡ₚ Derived.allFailures (foldl (fun w' x => Workbench.fire (EventLoop.callback x) w') w due).
Proof.
  revert w. induction due as [| x due IH]; intros w Hw; simpl; [done |].
  by apply IH, fire_reported.
Qed.

Lemma step_reported w (e : Workbench.Event) :
  Workbench.sink w ≡ₚ Derived.allFailures w ->
  Workbench.sink (Workbench.step w e) ≡ₚ Derived.allFailures (Workbench.step w e).
Proof.
  destruct e as [ds | sf | we | | | expression | fbp | dt].
  - done.
  - apply (reported_after CallStack).
    + simpl. destruct (VariablesView.onDidFocusStackFrame _ _ _).
      pose proof (callstack_focus_routed (Workbench.debugService w) (Workbench.callStackView w)
                    (Workbench.sink w)) as Hr.
      by destruct (CallStackView.onDidFocusStackFrame _ _ _).
    + intros u Hu. simpl.
      pose proof (variables_focus_widget sf (Workbench.variablesView w) (Workbench.loop w)) as Hv.
      destruct (VariablesView.onDidFocusStackFrame _ _ _),
        (CallStackView.onDidFocusStackFrame _ _ _).
      destruct u; simpl in *; congruence.
  - apply (reported_after WatchExpressions).
    + simpl.
      pose proof (watch_change_widget we (Workbench.watchExpressionsView w) (Workbench.loop w))
        as Hv.
      destruct (WatchExpressionsView.onDidChangeWatchExpressions _ _ _). simpl in *.
      rewrite Hv. apply routed_refl.
    + intros u Hu. simpl.
      destruct (WatchExpressionsView.onDidChangeWatchExpressions _ _ _). by destruct u.
  - apply (reported_after CallStack).
    + simpl.
      pose proof (callstack_change_widget (Workbench.callStackView w) (Workbench.loop w)) as Hv.
      destruct (CallStackView.onDidChangeCallStack _ _). simpl in *.
      rewrite Hv. apply routed_refl.
    + intros u Hu. simpl. destruct (CallStackView.onDidChangeCallStack _ _). by destruct u.
  - apply (reported_after Breakpoints).
    + simpl.
      pose proof (breakpoints_change_routed (Workbench.debugService w)
                    (Workbench.breakpointsView w) (Workbench.sink w)) as Hr.
      by destruct (BreakpointsView.onBreakpointsChange _ _ _).
    + intros u Hu. simpl. destruct (BreakpointsView.onBreakpointsChange _ _ _). by destruct u.
  - intros Hw.
    pose proof (variables_select_routed expression (Workbench.variablesView w) (Workbench.sink w))
      as Hr1.
    assert (Hmid : Workbench.sink
      {| Workbench.debugService := Workbench.debugService w; Workbench.loop := Workbench.loop w;
         Workbench.sink :=
           snd (VariablesView.onDidSelectExpression expression (Workbench.variablesView w)
                  (Workbench.sink w));
         Workbench.viewletSettings := Workbench.viewletSettings w;
         Workbench.variablesView :=
           fst (VariablesView.onDidSelectExpression expression (Workbench.variablesView w)
                  (Workbench.sink w));
         Workbench.watchExpressionsView := Workbench.watchExpressionsView w;
         Workbench.callStackView := Workbench.callStackView w;
         Workbench.breakpointsView := Workbench.breakpointsView w |}
      ≡ₚ Derived.allFailures
      {| Workbench.debugService := Workbench.debugService w; Workbench.loop := Workbench.loop w;
         Workbench.sink :=
           snd (VariablesView.onDidSelectExpression expression (Workbench.variablesView w)
                  (Workbench.sink w));
         Workbench.viewletSettings := Workbench.viewletSettings w;
         Workbench.variablesView :=
           fst (VariablesView.onDidSelectExpression expression (Workbench.variablesView w)
                  (Workbench.sink w));
         Workbench.watchExpressionsView := Workbench.watchExpressionsView w;
         Workbench.callStackView := Workbench.callStackView w;
         Workbench.breakpointsView := Workbench.breakpointsView w |}).
    { apply (reported_after Variables w); [exact Hr1 | by intros [] | exact Hw]. }
    revert Hmid. apply (reported_after WatchExpressions).
    + simpl. destruct (VariablesView.onDidSelectExpression _ _ _) as [v1 k1]. simpl.
      pose proof (watch_select_routed expression (Workbench.watchExpressionsView w) k1) as Hr2.
      by destruct (WatchExpressionsView.onDidSelectExpression _ _ _).
    + intros u Hu. simpl. destruct (VariablesView.onDidSelectExpression _ _ _) as [v1 k1].
      destruct (WatchExpressionsView.onDidSelectExpression _ _ _). by destruct u.
  - apply (reported_after Breakpoints).
    + simpl.
      pose proof (breakpoints_select_routed fbp (Workbench.breakpointsView w) (Workbench.sink w))
        as Hr.
      by destruct (BreakpointsView.onDidSelectFunctionBreakpoint _ _ _).
    + intros u Hu. simpl.
      destruct (BreakpointsView.onDidSelectFunctionBreakpoint _ _ _). by destruct u.
  - intros Hw. simpl. by apply fired_reported.
Qed.

Lemma startup_reported ds settings (p1 p2 p3 p4 : Panel) :
  Workbench.sink (Workbench.startup ds settings p1 p2 p3 p4)
  ≡ₚ Derived.allFailures (Workbench.startup ds settings p1 p2 p3 p4).
Proof.
  unfold Workbench.startup, Derived.allFailures.
  unfold VariablesView.create, WatchExpressionsView.create, BreakpointsView.renderBody.
  pose proof (dropped_routed (async (CSetInput ElViewModel) (setInput ElViewModel))
                {| tree := newTree; calls := [] |} [] (orderly_async _ _))
    as (made1 & Hcalls1 & Hsink1 & _).
  destruct (dropped _ _ _) as [s1 k1]. simpl in *.
  pose proof (dropped_routed (async (CSetInput ElModel) (setInput ElModel))
                {| tree := newTree; calls := [] |} k1 (orderly_async _ _))
    as (made2 & Hcalls2 & Hsink2 & _).
  destruct (dropped _ _ k1) as [s2 k2]. simpl in *.
  unfold CallStackView.create.
  destruct (match state ds with Stopped => _ | _ => _ end) as [sch l3].
  pose proof (dropped_routed (async (CSetInput ElModel) (setInput ElModel))
                {| tree := newTree; calls := [] |} k2 (orderly_async _ _))
    as (made4 & Hcalls4 & Hsink4 & _).
  destruct (dropped _ _ k2) as [s4 k4]. simpl in *.
  unfold BreakpointsView.madeCalls. simpl.
  rewrite Hcalls1, Hcalls2, Hcalls4, Hsink4, Hsink2, Hsink1. simpl.
  by rewrite <- app_assoc.
Qed.

(** X11. Every rejection is reported once. In every state the workbench
    reaches from its start, the errors in the sink are, up to their
    order, the rejections of the calls the four views have made on their
    trees: none is lost, none is reported twice, and nothing else is
    reported. The rejections that no handler of the file takes (of a
    promise that is dropped, and of the promise a completion handler
    answers) count as reported, as the model of the promise library has
    it. *)
Theorem every_rejection_is_reported_once ds settings (p1 p2 p3 p4 : Panel)
    (events : list Workbench.Event) :
  Workbench.sink (Workbench.run (Workbench.startup ds settings p1 p2 p3 p4) events)
  ≡ₚ Derived.allFailures (Workbench.run (Workbench.startup ds settings p1 p2 p3 p4) events).
Proof.
  pose proof (startup_reported ds settings p1 p2 p3 p4) as Hstart.
  revert Hstart. generalize (Workbench.startup ds settings p1 p2 p3 p4).
  induction events as [| e events IH]; intros w Hw; [done |].
  simpl. by apply IH, step_reported.
Qed.
End Reported.

(** ** A focus change the user asked for *)

Section Immediate.
Context {Tree : Type} `{!ITree Tree} {Panel : Type} `{!IViewletPanel Panel}.
Implicit Types (w : Workbench.World Tree Panel).

Lemma immediate_rearms (sf : VariablesView.FocusEvent) w :
  Workbench.consistent w ->
  Workbench.requestsImmediate sf w = true ->
  Workbench.pendingRefreshes Variables (Workbench.step w (Workbench.DidFocusStackFrame sf))
  = [ {| EventLoop.timerId := EventLoop.nextTimerId (Workbench.loop w);
         EventLoop.callback := Variables; EventLoop.remaining := 0 |} ].
Proof.
  intros Hc Himmediate.
  pose proof (step_consistent w (Workbench.DidFocusStackFrame sf) Hc) as [_ (_ & _ & Howned)].
  specialize (Howned Variables).
  destruct Hc as [Hhandlers _].
  destruct (Hhandlers Variables _ eq_refl) as [Hhandler _].
  unfold Workbench.pendingRefreshes, Workbench.tokenOf, Workbench.requestsImmediate in *.
  simpl in *.
  pose proof (variables_focus_schedules sf (Workbench.variablesView w) (Workbench.loop w)) as Hv.
  destruct (VariablesView.onDidFocusStackFrame _ _ _) as [v1 l'].
  destruct (CallStackView.onDidFocusStackFrame _ _ _) as [v3 k']. simpl in *.
  rewrite Himmediate, schedule_rearms in Hv. injection Hv as Hs Hl.
  rewrite Hs in Howned. simpl in Howned. destruct Howned as (x & Hx & Hid).
  rewrite Hx.
  assert (Hin : {| EventLoop.timerId := EventLoop.nextTimerId (Workbench.loop w);
                   EventLoop.callback := Variables; EventLoop.remaining := 0 |}
                ∈ filter (fun x => EventLoop.callback x = Variables) (EventLoop.timers l')).
  { apply list_elem_of_filter. split; [done |].
    rewrite Hl. simpl. apply elem_of_app. right. rewrite Hhandler. by left. }
  rewrite Hx in Hin. apply list_elem_of_singleton in Hin. by rewrite Hin.
Qed.

(** X12. A focus change that is explicit, or that finds the tree of the
    variables view without content height, is answered at once: whatever
    timer the view was waiting for is dropped, and the tree is refreshed
    once as soon as the event loop runs its timers, without any delay. *)
Theorem explicit_focus_refreshes_at_once ds settings (p1 p2 p3 p4 : Panel)
    (history : list Workbench.Event) (sf : VariablesView.FocusEvent) (dt : nat) :
  Workbench.requestsImmediate sf
    (Workbench.run (Workbench.startup ds settings p1 p2 p3 p4) history) = true ->
  Workbench.treeRefreshes Variables
    (Workbench.run (Workbench.run (Workbench.startup ds settings p1 p2 p3 p4) history)
       [Workbench.DidFocusStackFrame sf; Workbench.Elapse dt])
  = S (Workbench.treeRefreshes Variables
         (Workbench.run (Workbench.startup ds settings p1 p2 p3 p4) history))
  /\ Workbench.pendingRefreshes Variables
       (Workbench.run (Workbench.run (Workbench.startup ds settings p1 p2 p3 p4) history)
          [Workbench.DidFocusStackFrame sf; Workbench.Elapse dt])
     = [].
Proof.
  intros Himmediate.
  pose proof (run_consistent _ history (startup_consistent ds settings p1 p2 p3 p4)) as Hc.
  set (w := Workbench.run _ history) in *.
  pose proof (immediate_rearms sf w Hc Himmediate) as Hpending.
  change (Workbench.run w [?e1; ?e2]) with (Workbench.step (Workbench.step w e1) e2).
  split.
  - rewrite elapse_refreshes by done.
    unfold Workbench.dueWithin. rewrite Hpending.
    rewrite filter_cons_True by (unfold EventLoop.isDue; simpl; lia).
    rewrite notify_refreshes by done. simpl. lia.
  - rewrite elapse_pending, Hpending.
    by rewrite filter_cons_False by (unfold EventLoop.isDue; simpl; lia).
Qed.
End Immediate.

Lemma explicit_focus_refreshes_at_once_witness :
  Workbench.treeRefreshes Variables
    (Workbench.run (Workbench.run PlainTree.fresh Examples.steppingSettles)
       [Workbench.DidFocusStackFrame Examples.clicked; Workbench.Elapse 0])
  = S (Workbench.treeRefreshes Variables
         (Workbench.run PlainTree.fresh Examples.steppingSettles))
  /\ Workbench.pendingRefreshes Variables
       (Workbench.run (Workbench.run PlainTree.fresh Examples.steppingSettles)
          [Workbench.DidFocusStackFrame Examples.clicked; Workbench.Elapse 0])
     = [].
Proof.
  apply (explicit_focus_refreshes_at_once PlainTree.idle ∅ true true true true
           Examples.steppingSettles Examples.clicked 0).
  reflexivity.
Defined.

(** ** The call stack view catches up with the model *)

Section CatchingUp.
Context {Tree : Type} `{!ITree Tree} {Panel : Type} `{!IViewletPanel Panel}.
Implicit Types (w : Workbench.World Tree Panel).

Lemma fire_keeps_callstack u w :
  u <> CallStack ->
  Workbench.callStackView (Workbench.fire u w) = Workbench.callStackView w.
Proof.
  destruct u; simpl; try done.
  - by destruct (VariablesView.onTimeout _ _ _).
  - by destruct (WatchExpressionsView.onTimeout _ _).
Qed.

Lemma fired_keeps_callstack (due : list EventLoop.Timer) w :
  filter (fun x => EventLoop.callback x = CallStack) due = [] ->
  Workbench.callStackView
    (foldl (fun w' x => Workbench.fire (EventLoop.callback x) w') w due)
  = Workbench.callStackView w.
Proof.
  revert w. induction due as [| x due IH]; intros w Hnone; simpl; [done |].
  rewrite filter_cons in Hnone. case_decide; [done |].
  rewrite IH by done. by apply fire_keeps_callstack.
Qed.

Lemma fired_callstack_once (due : list EventLoop.Timer) w :
  length (filter (fun x => EventLoop.callback x = CallStack) due) = 1%nat ->
  exists k,
    Workbench.callStackView
      (foldl (fun w' x => Workbench.fire (EventLoop.callback x) w') w due)
    = fst (CallStackView.onTimeout (Workbench.debugService w) (Workbench.callStackView w) k).
Proof.
  revert w. induction due as [| x due IH]; intros w Hone; simpl in *; [done |].
  rewrite filter_cons in Hone. case_decide as Hx.
  - simpl in Hone. rewrite fired_keeps_callstack by (apply nil_length_inv; lia).
    rewrite Hx. simpl. exists (Workbench.sink w).
    by destruct (CallStackView.onTimeout _ _ _).
  - destruct (IH (Workbench.fire (EventLoop.callback x) w) Hone) as [k Hk].
    exists k. rewrite Hk. by rewrite fire_keeps_callstack, fire_keeps_debugService.
Qed.

Lemma callstack_change_noted w :
  CallStackView.widget
    (Workbench.callStackView (Workbench.step w Workbench.DidChangeCallStack))
  = CallStackView.widget (Workbench.callStackView w)
  /\ CallStackView.pauseMessage
       (Workbench.callStackView (Workbench.step w Workbench.DidChangeCallStack))
     = CallStackView.pauseMessage (Workbench.callStackView w)
  /\ is_Some (Workbench.tokenOf CallStack (Workbench.step w Workbench.DidChangeCallStack)).
Proof.
  simpl. unfold Workbench.tokenOf, CallStackView.onDidChangeCallStack.
  unfold RunOnceScheduler.isScheduled.
  destruct (RunOnceScheduler.timeoutToken
              (CallStackView.onCallStackChangeScheduler (Workbench.callStackView w)))
    as [token |] eqn:Htoken; simpl.
  - rewrite Htoken. by repeat split.
  - rewrite schedule_rearms. simpl. by repeat split.
Qed.

(** X13. A change of the call stack is in the tree 50 ms later, and what
    the view shows then is the model of that moment, not the one of the
    notification: whether or not an update was under way, 50 ms after
    the notification the view has updated its tree once, with the input
    and the pause message that the debug service gives when the timer
    fires, and its scheduler is idle again. *)
Theorem call_stack_view_catches_up ds settings (p1 p2 p3 p4 : Panel)
    (history : list Workbench.Event) (latest : IDebugService) :
  Workbench.treeRefreshes CallStack
    (Workbench.run (Workbench.run (Workbench.startup ds settings p1 p2 p3 p4) history)
       [Workbench.DidChangeCallStack; Workbench.ModelChanged latest; Workbench.Elapse 50])
  = S (Workbench.treeRefreshes CallStack
         (Workbench.run (Workbench.startup ds settings p1 p2 p3 p4) history))
  /\ (exists outcome rest,
        Workbench.callsOf CallStack
          (Workbench.run (Workbench.run (Workbench.startup ds settings p1 p2 p3 p4) history)
             [Workbench.DidChangeCallStack; Workbench.ModelChanged latest; Workbench.Elapse 50])
        = Workbench.callsOf CallStack
            (Workbench.run (Workbench.startup ds settings p1 p2 p3 p4) history)
          ++ ((if decide (getInput
                            (tree (CallStackView.widget
                                     (Workbench.callStackView
                                        (Workbench.run
                                           (Workbench.startup ds settings p1 p2 p3 p4) history))))
                          = Some (CallStackView.elementOfInput (Stated.treeInput latest)))
               then CRefresh None
               else CSetInput (CallStackView.elementOfInput (Stated.treeInput latest))),
              outcome) :: rest)
  /\ CallStackView.pauseMessage
       (Workbench.callStackView
          (Workbench.run (Workbench.run (Workbench.startup ds settings p1 p2 p3 p4) history)
             [Workbench.DidChangeCallStack; Workbench.ModelChanged latest; Workbench.Elapse 50]))
     = CallStackView.updatePauseMessage (CallStackView.newTreeInput latest)
         (CallStackView.pauseMessage
            (Workbench.callStackView
               (Workbench.run (Workbench.startup ds settings p1 p2 p3 p4) history)))
  /\ Workbench.pendingRefreshes CallStack
       (Workbench.run (Workbench.run (Workbench.startup ds settings p1 p2 p3 p4) history)
          [Workbench.DidChangeCallStack; Workbench.ModelChanged latest; Workbench.Elapse 50])
     = [].
Proof.
  destruct (run_punctual _ history (startup_consistent ds settings p1 p2 p3 p4)
              (startup_punctual ds settings p1 p2 p3 p4)) as [Hc Hp].
  set (w := Workbench.run _ history) in *.
  change (Workbench.run w [?e1; ?e2; ?e3])
    with (Workbench.step (Workbench.step (Workbench.step w e1) e2) e3).
  pose proof (step_consistent w Workbench.DidChangeCallStack Hc) as Hc1.
  pose proof (step_punctual w Workbench.DidChangeCallStack Hc Hp) as Hp1.
  destruct (callstack_change_noted w) as (Hwidget & Hmessage & Hscheduled).
  set (w1 := Workbench.step w Workbench.DidChangeCallStack) in *.
  pose proof (step_consistent w1 (Workbench.ModelChanged latest) Hc1) as Hc2.
  pose proof (step_punctual w1 (Workbench.ModelChanged latest) Hc1 Hp1) as Hp2.
  set (w2 := Workbench.step w1 (Workbench.ModelChanged latest)) in *.
  assert (Hscheduled2 : is_Some (Workbench.tokenOf CallStack w2)) by exact Hscheduled.
  pose proof (scheduled_due CallStack w2 50 Hc2 Hp2 Hscheduled2 eq_refl) as Hdue.
  assert (Hview : exists k,
    Workbench.callStackView (Workbench.step w2 (Workbench.Elapse 50))
    = fst (CallStackView.onTimeout latest (Workbench.callStackView w1) k)).
  { rewrite <- due_callbacks in Hdue. simpl.
    match goal with
    | |- context [foldl _ ?w3 ?due] => destruct (fired_callstack_once due w3 Hdue) as [k Hk]
    end.
    exists k. exact Hk. }
  destruct Hview as [k Hview].
  split; [| split; [| split]].
  - rewrite elapse_refreshes, Hdue by done.
    unfold Workbench.treeRefreshes, Workbench.callsOf. simpl. rewrite Hwidget. lia.
  - unfold Workbench.callsOf at 1. rewrite Hview. unfold CallStackView.onTimeout.
    match goal with
    | |- context [CallStackView.onCallStackChange ?d ?v ?k0] =>
        destruct (onCallStackChange_calls d v k0) as (outcome & rest & Hcalls & _)
    end.
    exists outcome, rest. rewrite Hcalls. simpl. by rewrite Hwidget.
  - rewrite Hview. unfold CallStackView.onTimeout.
    rewrite runner_pause_message. simpl. by rewrite Hmessage.
  - rewrite elapse_pending.
    destruct Hc2 as [_ (_ & _ & Howned)]. specialize (Howned CallStack).
    destruct Hscheduled2 as [token Htoken]. rewrite Htoken in Howned.
    destruct Howned as (x & Hx & _).
    unfold Workbench.dueWithin, Workbench.pendingRefreshes in *. rewrite Hx in *.
    rewrite filter_cons in Hdue. rewrite filter_cons.
    destruct (decide (EventLoop.isDue 50 x)) as [Hisdue | Hnot]; [| done].
    by rewrite decide_False by tauto.
Qed.
End CatchingUp.

(** ** The panel of the watch expressions view *)

Section WatchPanel.
Context {Tree : Type} `{!ITree Tree} {Panel : Type} `{!IViewletPanel Panel}.
Implicit Types (w : Workbench.World Tree Panel).

Lemma fire_keeps_panel u v w : Workbench.panelOf v (Workbench.fire u w) = Workbench.panelOf v w.
Proof.
  destruct u; simpl; try done.
  - unfold VariablesView.onTimeout, VariablesView.onFocusStackFrame.
    destruct (done_ _ _ _). by destruct v.
  - unfold WatchExpressionsView.onTimeout, WatchExpressionsView.onWatchExpressionsUpdated.
    destruct (doneWith _ _ _ _). by destruct v.
  - unfold CallStackView.onTimeout, CallStackView.onCallStackChange.
    destruct (doneWith _ _ _ _). by destruct v.
Qed.

Lemma fired_keeps_panel (due : list EventLoop.Timer) v w :
  Workbench.panelOf v (foldl (fun w' x => Workbench.fire (EventLoop.callback x) w') w due)
  = Workbench.panelOf v w.
Proof.
  revert w. induction due as [| x due IH]; intros w; simpl; [done |].
  by rewrite IH, fire_keeps_panel.
Qed.

(** The only handler that touches a panel is the one of the watch
    expressions view that sees a watch expression added. *)
Lemma step_panel (e : Workbench.Event) v w :
  Workbench.panelOf v (Workbench.step w e)
  = match e, v with
    | Workbench.DidChangeWatchExpressions (Some (Expression _)), WatchExpressions =>
        setExpanded true (Workbench.panelOf v w)
    | _, _ => Workbench.panelOf v w
    end.
Proof.
  destruct e as [ds | sf | we | | | expression | fbp | dt]; simpl.
  - done.
  - unfold VariablesView.onDidFocusStackFrame, CallStackView.onDidFocusStackFrame.
    destruct (if _ || _ then _ else _), (done_ _ _ _). by destruct v.
  - unfold WatchExpressionsView.onDidChangeWatchExpressions.
    destruct (if negb _ then _ else _).
    destruct we as [[r | r | r] |], v; done.
  - unfold CallStackView.onDidChangeCallStack.
    destruct (if negb _ then _ else _). by destruct v.
  - unfold BreakpointsView.onBreakpointsChange.
    destruct (BreakpointsView.widget _); [destruct (dropped _ _ _) |]; by destruct v.
  - unfold VariablesView.onDidSelectExpression, WatchExpressionsView.onDidSelectExpression.
    destruct expression as [[r | r | r] |]; try (by destruct v);
      destruct (done_ _ _ _); by destruct v.
  - unfold BreakpointsView.onDidSelectFunctionBreakpoint.
    destruct fbp as [[f | r name | u l c] |]; try (by destruct v).
    destruct (BreakpointsView.widget _); [destruct (done_ _ _ _) |]; by destruct v.
  - by rewrite fired_keeps_panel.
Qed.

(** X14. Adding a watch expression opens the panel of the watch
    expressions view, and no notification of the debug service closes a
    panel: when a setter of the expansion state is read back as what was
    set, the panel is expanded after the change and after whatever the
    debug service announces next, so that the flag the view writes at
    shutdown is [false]. No other handler of the four views touches the
    expansion state of a panel. *)
Theorem added_watch_expression_opens_the_panel w (r : Ref) (events : list Workbench.Event) :
  (forall (b : bool) (p : Panel), isExpanded (setExpanded b p) = b) ->
  isExpanded
    (Workbench.panelOf WatchExpressions
       (Workbench.run w
          (Workbench.DidChangeWatchExpressions (Some (Expression r)) :: events))) = true
  /\ Workbench.viewletSettings
       (Workbench.shutdown WatchExpressions
          (Workbench.run w
             (Workbench.DidChangeWatchExpressions (Some (Expression r)) :: events)))
       !! WatchExpressionsView.MEMENTO
     = Some (JSBoolean false)
  /\ forall v,
       v <> WatchExpressions ->
       Workbench.panelOf v
         (Workbench.run w
            (Workbench.DidChangeWatchExpressions (Some (Expression r)) :: events))
       = Workbench.panelOf v w.
Proof.
  intros Hsetter.
  change (Workbench.run w (?e :: events)) with (Workbench.run (Workbench.step w e) events).
  assert (Hopen : isExpanded
            (Workbench.panelOf WatchExpressions
               (Workbench.step w (Workbench.DidChangeWatchExpressions (Some (Expression r)))))
          = true) by (rewrite step_panel; apply Hsetter).
  assert (Hothers : forall v, v <> WatchExpressions ->
            Workbench.panelOf v
              (Workbench.step w (Workbench.DidChangeWatchExpressions (Some (Expression r))))
            = Workbench.panelOf v w) by (intros v Hv; rewrite step_panel; by destruct v).
  revert Hopen Hothers.
  generalize (Workbench.step w (Workbench.DidChangeWatchExpressions (Some (Expression r)))).
  induction events as [| e events IH]; intros w1 Hopen Hothers.
  - split; [done |]. split; [| done].
    rewrite shutdown_settings. simpl. rewrite lookup_insert_eq.
    simpl in Hopen. by rewrite Hopen.
  - simpl. apply IH.
    + rewrite step_panel. destruct e as [| | [[| |] |] | | | | |]; first [done | apply Hsetter].
    + intros v Hv. rewrite step_panel, <- (Hothers v Hv).
      destruct e as [| | [[| |] |] | | | | |], v; done.
Qed.
End WatchPanel.

Lemma added_watch_expression_opens_the_panel_witness :
  isExpanded
    (Workbench.panelOf WatchExpressions
       (Workbench.run (Workbench.run PlainTree.fresh [])
          (Workbench.DidChangeWatchExpressions (Some (Expression 5%nat))
           :: Examples.watchHistory))) = true
  /\ Workbench.viewletSettings
       (Workbench.shutdown WatchExpressions
          (Workbench.run (Workbench.run PlainTree.fresh [])
             (Workbench.DidChangeWatchExpressions (Some (Expression 5%nat))
              :: Examples.watchHistory)))
       !! WatchExpressionsView.MEMENTO
     = Some (JSBoolean false)
  /\ forall v,
       v <> WatchExpressions ->
       Workbench.panelOf v
         (Workbench.run (Workbench.run PlainTree.fresh [])
            (Workbench.DidChangeWatchExpressions (Some (Expression 5%nat))
             :: Examples.watchHistory))
       = Workbench.panelOf v (Workbench.run PlainTree.fresh []).
Proof.
  apply (added_watch_expression_opens_the_panel (Workbench.run PlainTree.fresh []) 5%nat
           Examples.watchHistory).
  intros b p. reflexivity.
Defined.
